(** * vidcom_2-life-v3: the API workers, embedded and checked against the spec

    The repository ships two Cloudflare-worker variants of the API:
    - the staging worker ([Staging], src/unnamed/part_001): signed stateless
      bearer tokens, the MindAR target-generation dispatcher and callback,
      HMAC upload tokens;
    - the session worker ([Session], second module of src/unnamed/part_002):
      a users/sessions table with salted password hashes.

    Both are written as one [fetch] function that routes on method and path.
    The embedding keeps that shape: every route handler is a function in a
    small state monad over the stores the worker talks to (the D1 tables and
    the R2 bucket) plus a journal of the externally visible steps, and
    [fetch] chains them in the order of the source.

    What the platform provides and the source only calls (IEEE numbers,
    HMAC-SHA-256, JSON text, URI escaping, base64) is gathered in two
    interfaces, [JsNumber] and [Runtime]; every result below holds for all
    their implementations.

    A string holds the UTF-8 bytes of the JavaScript string it stands for;
    what the source does character by character ([trim], the [\s] of a
    regular expression) is written out over those bytes.  The D1 database and
    the R2 bucket are taken to answer every call: a statement fails only where
    a key it inserts is taken. *)

From Stdlib Require Import ZArith Ascii.
From Stdlib Require DecimalString.
From Stdlib Require Sorted.
From stdpp Require Import base option strings gmap list.

Set Default Proof Using "Type".
#[local] Set Warnings "-register-all".

(** ** Strings as the source uses them *)

(** The white space of ECMAScript ([WhiteSpace] and [LineTerminator], which
    is what [trim] strips and [\s] matches): U+0009..U+000D and U+0020, one
    byte each; U+00A0, two bytes; U+1680, U+2000..U+200A, U+2028, U+2029,
    U+202F, U+205F, U+3000 and U+FEFF, three bytes each. *)
Definition space2 (a b : ascii) : bool :=
  (nat_of_ascii a =? 194)%nat && (nat_of_ascii b =? 160)%nat.

Definition space3 (a b c : ascii) : bool :=
  let x := nat_of_ascii a in
  let y := nat_of_ascii b in
  let z := nat_of_ascii c in
  ((x =? 225) && (y =? 154) && (z =? 128)
   || (x =? 226) && (y =? 128)
      && ((128 <=? z) && (z <=? 138) || (z =? 168) || (z =? 169) || (z =? 175))
   || (x =? 226) && (y =? 129) && (z =? 159)
   || (x =? 227) && (y =? 128) && (z =? 128)
   || (x =? 239) && (y =? 187) && (z =? 191))%nat.

(** One white-space character off the front of [s]. *)
Definition strip_space (s : string) : option string :=
  match s with
  | String a r1 =>
      if Ascii.is_space a then Some r1
      else match r1 with
           | String b r2 =>
               if space2 a b then Some r2
               else match r2 with
                    | String c r3 => if space3 a b c then Some r3 else None
                    | EmptyString => None
                    end
           | EmptyString => None
           end
  | EmptyString => None
  end.

(** All the white space off the front of [s]. *)
Fixpoint drop_spaces (s : string) : string :=
  match s with
  | String a r1 =>
      if Ascii.is_space a then drop_spaces r1
      else match r1 with
           | String b r2 =>
               if space2 a b then drop_spaces r2
               else match r2 with
                    | String c r3 => if space3 a b c then drop_spaces r3 else s
                    | EmptyString => s
                    end
           | EmptyString => s
           end
  | EmptyString => EmptyString
  end.

(** The same on a reversed string, whose characters have their bytes in
    reverse order: all the white space off the end. *)
Fixpoint drop_spaces_rev (s : string) : string :=
  match s with
  | String c r1 =>
      if Ascii.is_space c then drop_spaces_rev r1
      else match r1 with
           | String b r2 =>
               if space2 b c then drop_spaces_rev r2
               else match r2 with
                    | String a r3 => if space3 a b c then drop_spaces_rev r3 else s
                    | EmptyString => s
                    end
           | EmptyString => s
           end
  | EmptyString => EmptyString
  end.

(** [String.prototype.trim]. *)
Definition trim (s : string) : string :=
  String.rev (drop_spaces_rev (String.rev (drop_spaces s))).

(** The line terminators, which [.] does not match: U+000A, U+000D, U+2028
    and U+2029. *)
Definition line_break3 (a b c : ascii) : bool :=
  ((nat_of_ascii a =? 226) && (nat_of_ascii b =? 128)
   && ((nat_of_ascii c =? 168) || (nat_of_ascii c =? 169)))%nat.

Definition line_break1 (a : ascii) : bool :=
  ((nat_of_ascii a =? 10) || (nat_of_ascii a =? 13))%nat.

Fixpoint has_line_break (s : string) : bool :=
  match s with
  | String a r1 =>
      line_break1 a
      || match r1 with
         | String b (String c _) => line_break3 a b c
         | _ => false
         end
      || has_line_break r1
  | EmptyString => false
  end.

(** Is the last character of [s] a line terminator? *)
Definition ends_with_line_break (s : string) : bool :=
  match String.rev s with
  | String c r1 =>
      line_break1 c
      || match r1 with
         | String b (String a _) => line_break3 a b c
         | _ => false
         end
  | EmptyString => false
  end.

(** [s.startsWith(p)] together with [s.slice(p.length)]: the remainder of [s]
    after the prefix [p], when [p] is a prefix. *)
Fixpoint strip_prefix (p s : string) : option string :=
  match p, s with
  | EmptyString, _ => Some s
  | String a p', String b s' => if decide (a = b) then strip_prefix p' s' else None
  | String _ _, EmptyString => None
  end.

Definition startsWith (s p : string) : bool := bool_decide (is_Some (strip_prefix p s)).

(** ASCII case folding: how the [i] flag of a regular expression compares the
    letters of an ASCII word (a character outside ASCII never matches one
    inside), and what [toLowerCase] does to an ASCII string. *)
Definition lower (a : ascii) : ascii :=
  let n := nat_of_ascii a in
  if (65 <=? n)%nat && (n <=? 90)%nat then ascii_of_nat (n + 32) else a.

Fixpoint strip_prefix_ci (p s : string) : option string :=
  match p, s with
  | EmptyString, _ => Some s
  | String a p', String b s' =>
      if decide (lower a = lower b) then strip_prefix_ci p' s' else None
  | String _ _, EmptyString => None
  end.

Fixpoint lower_ascii (s : string) : string :=
  match s with
  | EmptyString => EmptyString
  | String a r => String (lower a) (lower_ascii r)
  end.

Definition is_ascii (a : ascii) : bool := (nat_of_ascii a <? 128)%nat.

(** [s.split(c)] *)
Fixpoint split_on (c : ascii) (s : string) : list string :=
  match s with
  | EmptyString => [EmptyString]
  | String a r =>
      if decide (a = c) then EmptyString :: split_on c r
      else match split_on c r with
           | h :: t => String a h :: t
           | [] => [String a EmptyString]
           end
  end.

(** Does every character of [s] pass the test? *)
Fixpoint string_forall (P : ascii -> bool) (s : string) : bool :=
  match s with
  | EmptyString => true
  | String a r => P a && string_forall P r
  end.

(** The test "is not the character [c]". *)
Definition not_char (c : ascii) : ascii -> bool := fun a => negb (bool_decide (a = c)).

(** A JS string in a condition: the empty string is falsy. *)
Definition str_truthy (s : string) : bool := negb (bool_decide (s = "")).

(** [a || b] on strings that may be absent ([undefined]/[null]). *)
Definition or_str (a : option string) (b : string) : string :=
  match a with
  | Some s => if str_truthy s then s else b
  | None => b
  end.

(** [!!o] for a string that may be absent. *)
Definition opt_truthy (o : option string) : bool := str_truthy (or_str o "").

(** ** JavaScript values *)

(** The numbers of the platform.  The source never computes with fractional
    numbers; it converts, tests and orders them. *)
Class JsNumber := {
  Num : Type;
  num_of_Z : Z -> Num;               (* an integer literal *)
  num_0_8 : Num;                     (* the literal [0.8] *)
  num_nan : Num;
  num_truthy : Num -> bool;          (* ToBoolean: not 0, not NaN *)
  num_to_string : Num -> string;     (* ToString *)
  num_of_string : string -> Num;     (* ToNumber on a string *)
  num_ltb : Num -> Num -> bool;      (* [<] *)
}.

Section Values.
Context {JN : JsNumber}.

(** What [JSON.parse] can return, plus [undefined] for a missing property. *)
Inductive JsValue :=
| JUndefined
| JNull
| JBool (b : bool)
| JNum (n : Num)
| JStr (s : string)
| JArr (items : list JsValue)
| JObj (fields : list (string * JsValue)).

(** ToBoolean. *)
Definition truthy (v : JsValue) : bool :=
  match v with
  | JUndefined | JNull => false
  | JBool b => b
  | JNum n => num_truthy n
  | JStr s => str_truthy s
  | JArr _ | JObj _ => true
  end.

Definition nullish (v : JsValue) : bool :=
  match v with JUndefined | JNull => true | _ => false end.

(** [a || b] and [a ?? b]. *)
Definition js_or (a b : JsValue) : JsValue := if truthy a then a else b.
Definition js_coalesce (a b : JsValue) : JsValue := if nullish a then b else a.

Fixpoint assoc (k : string) (fields : list (string * JsValue)) : option JsValue :=
  match fields with
  | [] => None
  | (k', v) :: rest => if decide (k = k') then Some v else assoc k rest
  end.

(** [body?.k] for the property names the workers read.  [JSON.parse] keeps the
    last of duplicate keys; [fields] lists an object's properties with the
    effective one first.  None of the names read is a property of strings or
    arrays, so every other value answers [undefined]. *)
Definition prop (body : JsValue) (k : string) : JsValue :=
  match body with
  | JObj fields => default JUndefined (assoc k fields)
  | _ => JUndefined
  end.

(** [String(v)], where it answers (see [conversion_throws] below): arrays
    join their items with commas, [null] and [undefined] items printing as
    nothing. *)
Fixpoint js_String (v : JsValue) : string :=
  match v with
  | JUndefined => "undefined"
  | JNull => "null"
  | JBool true => "true"
  | JBool false => "false"
  | JNum n => num_to_string n
  | JStr s => s
  | JArr items =>
      (fix join (l : list JsValue) : string :=
         match l with
         | [] => ""
         | x :: rest =>
             let sx := if nullish x then "" else js_String x in
             match rest with
             | [] => sx
             | _ :: _ => sx +:+ "," +:+ join rest
             end
         end) items
  | JObj _ => "[object Object]"
  end.

(** [Number(v)], where it answers. *)
Definition js_Number (v : JsValue) : Num :=
  match v with
  | JUndefined => num_nan
  | JNull => num_of_Z 0
  | JBool true => num_of_Z 1
  | JBool false => num_of_Z 0
  | JNum n => n
  | JStr s => num_of_string s
  | JArr _ | JObj _ => num_of_string (js_String v)
  end.

(** When [String(v)] and [Number(v)] throw a TypeError instead of answering:
    on an object with a property of its own named [toString] (no value that
    [JSON.parse] returns can be called, and [Object.prototype.valueOf] answers
    the object itself), and on an array that holds such a value, since an
    array is converted by joining its converted items.  [js_String] and
    [js_Number] say what the conversions answer when they do not throw. *)
Fixpoint conversion_throws (v : JsValue) : bool :=
  match v with
  | JObj fields => bool_decide (is_Some (assoc "toString" fields))
  | JArr items =>
      (fix any (l : list JsValue) : bool :=
         match l with
         | [] => false
         | x :: rest => conversion_throws x || any rest
         end) items
  | _ => false
  end.

(** [typeof v === "string" && v.trim() ? v.trim() : null]
    ([assertString] of the session worker). *)
Definition assertString (v : JsValue) : option string :=
  match v with
  | JStr s => if str_truthy (trim s) then Some (trim s) else None
  | _ => None
  end.

End Values.

(** What the platform provides to both workers. *)
Class Runtime `{JN : JsNumber} := {
  (* [hmacSign(secret, data)]: HMAC-SHA-256, base64url without padding *)
  hmacSign : string -> string -> string;
  (* 32 bytes always print as 43 characters *)
  hmacSign_nonempty : forall secret data, hmacSign secret data <> "";
  (* [sha256Hex] *)
  sha256Hex : string -> string;
  (* [JSON.stringify] of a parsed value, [JSON.parse] (None: it throws) *)
  json_stringify : JsValue -> string;
  json_parse : string -> option JsValue;
  (* [decodeURIComponent] (None: URIError), [encodeURIComponent] *)
  decodeURIComponent : string -> option string;
  encodeURIComponent : string -> string;
  (* [base64urlEncodeText], [base64urlDecodeToText] (None: [atob] throws) *)
  base64urlEncodeText : string -> string;
  base64urlDecodeToText : string -> option string;
  (* [String.prototype.toLowerCase]: the case mapping of Unicode, which on an
     ASCII string is the ASCII one *)
  toLowerCase : string -> string;
  toLowerCase_ascii :
    forall s, string_forall is_ascii s = true -> toLowerCase s = lower_ascii s;
}.

(** ** A state monad for the request handlers *)

Definition M (S A : Type) : Type := S -> A * S.

Definition ret {S A} (a : A) : M S A := fun w => (a, w).
Definition bind {S A B} (c : M S A) (k : A -> M S B) : M S B :=
  fun w => let (a, w') := c w in k a w'.
Definition get {S} : M S S := fun w => (w, w).
Definition modify {S} (f : S -> S) : M S unit := fun w => (tt, f w).

(** What an [await] gives: a value, or an exception with its message. *)
Inductive Outcome (A : Type) :=
| Done (a : A)
| Thrown (message : string).
Arguments Done {A} a.
Arguments Thrown {A} message.

Declare Scope handler_scope.
Delimit Scope handler_scope with handler.
Notation "x <- c ;; k" := (bind c (fun x => k))
  (at level 100, c at next level, right associativity) : handler_scope.
Notation "c ;;; k" := (bind c (fun _ => k))
  (at level 100, right associativity) : handler_scope.
Notation "'when' b 'then' c" := (if b then c else ret tt)
  (at level 99, b at level 9, c at level 99) : handler_scope.

(** What a handler answers: [json(request, body, status)], or a raw object
    body; the CORS headers, which no claim reads, are left out. *)
Section Responses.
Context `{RT : Runtime}.

Inductive Payload :=
| PJson (v : JsValue)
| PRaw (data : string) (content_type : string)
| PEmpty.

Record Response := { status : Z; payload : Payload }.

Definition json (body : JsValue) (code : Z) : Response :=
  {| status := code; payload := PJson body |}.

Definition opt_str (o : option string) : JsValue :=
  match o with Some s => JStr s | None => JNull end.

(** A field of a JSON answer ([undefined] when the answer has none). *)
Definition answer_field (r : Response) (k : string) : JsValue :=
  match payload r with
  | PJson v => prop v k
  | _ => JUndefined
  end.

End Responses.

(** * The staging worker (src/unnamed/part_001) *)
Module Staging.
Section Worker.
Context `{RT : Runtime}.
Open Scope handler_scope.

Definition BUILD : string := "STAGING-BUILD-2026-02-04-B".

Record Env := {
  NODE_ENV : option string;
  SESSION_SECRET : option string;
  SIGNING_SECRET : option string;
  MINDAR_JOB_SECRET : option string;
  GITHUB_TOKEN : option string;
  GITHUB_REPO : option string;
  GITHUB_REF : option string;
}.

(** The part of a [Request] the worker reads.  [header_*] is what
    [request.headers.get] answers, [query_*] what [url.searchParams.get]
    answers, [body] the text (or bytes) of the request body. *)
Record Request := {
  method : string;
  pathname : string;
  origin : string;
  header_authorization : option string;
  header_x_job_secret : option string;
  query_token : option string;
  query_mime : option string;
  body : string;
}.

(** How the request to GitHub ends: with a response that is [ok], with one
    that is not, or with no response at all: [fetch] rejects (or reading the
    text of the refusal does), and the exception carries a message. *)
Inductive GithubAnswer :=
| GhAccepted
| GhRefused
| GhThrows (message : string).

(** What the worker draws from its surroundings while it serves one request:
    the clock, [crypto.randomUUID] (asked at most twice) and how the workflow
    dispatch ends if it is sent. *)
Record Ambient := {
  now_iso : string;          (* [new Date().toISOString()] *)
  now_seconds : Z;           (* [Math.floor(Date.now() / 1000)] *)
  uuid_1 : string;
  uuid_2 : string;
  github : GithubAnswer;
}.

(** ** Tables *)

Record ExperienceRow := {
  exp_id : string;
  exp_name : string;
  exp_qr_id : string;
  exp_is_active : Z;
  exp_created_at : string;
  exp_updated_at : string;
}.

Record AssetRow := {
  asset_id : string;
  asset_kind : string;
  asset_r2_key : string;
  asset_mime : string;
  asset_size : Num;
}.

Record PairRow := {
  pair_id : string;
  experience_id : string;
  image_asset_id : string;
  video_asset_id : string;
  mind_target_asset_id : option string;
  mind_target_status : option string;
  mind_target_error : option string;
  mind_target_requested_at : option string;
  mind_target_completed_at : option string;
  image_fingerprint : option string;
  threshold : Num;
  priority : Num;
  pair_is_active : Z;
}.

(** The journal keeps, in order, the steps of a request that the outside can
    tell apart: each statement that writes [mind_target_status], each request
    sent to GitHub, each console line and each bucket write. *)
Inductive Event :=
| EvStatus (pairId : string) (st : option string) (err : option string)
| EvWorkflowDispatch (repo ref pairId imagePublicUrl apiBase : string)
| EvConsole (msg : string)
| EvBucketPut (key : string).

(** Rows are kept in table order (the order a scan meets them). *)
Record World := {
  experiences : list ExperienceRow;
  assets : list AssetRow;
  pairs : list PairRow;
  bucket : gmap string (string * string);   (* key -> (bytes, content type) *)
  journal : list Event;
}.

Definition H := M World.

Definition log (e : Event) : H unit :=
  modify (fun w => {| experiences := experiences w; assets := assets w; pairs := pairs w;
                      bucket := bucket w; journal := journal w ++ [e] |}).

Definition set_pairs (f : list PairRow -> list PairRow) : H unit :=
  modify (fun w => {| experiences := experiences w; assets := assets w; pairs := f (pairs w);
                      bucket := bucket w; journal := journal w |}).

Definition set_experiences (f : list ExperienceRow -> list ExperienceRow) : H unit :=
  modify (fun w => {| experiences := f (experiences w); assets := assets w; pairs := pairs w;
                      bucket := bucket w; journal := journal w |}).

Definition set_assets (f : list AssetRow -> list AssetRow) : H unit :=
  modify (fun w => {| experiences := experiences w; assets := f (assets w); pairs := pairs w;
                      bucket := bucket w; journal := journal w |}).

Definition set_bucket (f : gmap string (string * string) -> gmap string (string * string)) : H unit :=
  modify (fun w => {| experiences := experiences w; assets := assets w; pairs := pairs w;
                      bucket := f (bucket w); journal := journal w |}).

(** [SELECT ... WHERE id = ? LIMIT 1] and [UPDATE pairs SET ... WHERE id = ?]. *)
Definition find_pair (id : string) (ps : list PairRow) : option PairRow :=
  List.find (fun r => bool_decide (pair_id r = id)) ps.

Definition update_where_id (id : string) (f : PairRow -> PairRow) (ps : list PairRow)
  : list PairRow :=
  List.map (fun r => if bool_decide (pair_id r = id) then f r else r) ps.

(** ** The statements that write the generation state *)

(** [UPDATE pairs SET mind_target_status = 'pending', mind_target_error = NULL,
    mind_target_requested_at = ? WHERE id = ?] *)
Definition mark_pending (t : string) (r : PairRow) : PairRow :=
  {| pair_id := pair_id r; experience_id := experience_id r;
     image_asset_id := image_asset_id r; video_asset_id := video_asset_id r;
     mind_target_asset_id := mind_target_asset_id r;
     mind_target_status := Some "pending";
     mind_target_error := None;
     mind_target_requested_at := Some t;
     mind_target_completed_at := mind_target_completed_at r;
     image_fingerprint := image_fingerprint r;
     threshold := threshold r; priority := priority r; pair_is_active := pair_is_active r |}.

Definition sql_mark_pending (t pairId : string) : H unit :=
  set_pairs (update_where_id pairId (mark_pending t)) ;;;
  log (EvStatus pairId (Some "pending") None).

(** [UPDATE pairs SET mind_target_status = ?, mind_target_error = ? WHERE id = ?]
    bound to ["failed"], a message, the id. *)
Definition mark_failed (msg : string) (r : PairRow) : PairRow :=
  {| pair_id := pair_id r; experience_id := experience_id r;
     image_asset_id := image_asset_id r; video_asset_id := video_asset_id r;
     mind_target_asset_id := mind_target_asset_id r;
     mind_target_status := Some "failed";
     mind_target_error := Some msg;
     mind_target_requested_at := mind_target_requested_at r;
     mind_target_completed_at := mind_target_completed_at r;
     image_fingerprint := image_fingerprint r;
     threshold := threshold r; priority := priority r; pair_is_active := pair_is_active r |}.

Definition sql_mark_failed (msg pairId : string) : H unit :=
  set_pairs (update_where_id pairId (mark_failed msg)) ;;;
  log (EvStatus pairId (Some "failed") (Some msg)).

(** [UPDATE pairs SET mind_target_status = 'failed', mind_target_error = ?,
    mind_target_completed_at = ? WHERE id = ?] *)
Definition complete_failed (msg t : string) (r : PairRow) : PairRow :=
  {| pair_id := pair_id r; experience_id := experience_id r;
     image_asset_id := image_asset_id r; video_asset_id := video_asset_id r;
     mind_target_asset_id := mind_target_asset_id r;
     mind_target_status := Some "failed";
     mind_target_error := Some msg;
     mind_target_requested_at := mind_target_requested_at r;
     mind_target_completed_at := Some t;
     image_fingerprint := image_fingerprint r;
     threshold := threshold r; priority := priority r; pair_is_active := pair_is_active r |}.

Definition sql_complete_failed (msg t pairId : string) : H unit :=
  set_pairs (update_where_id pairId (complete_failed msg t)) ;;;
  log (EvStatus pairId (Some "failed") (Some msg)).

(** [UPDATE pairs SET mind_target_asset_id = ?, mind_target_status = 'ready',
    mind_target_error = NULL, mind_target_completed_at = ? WHERE id = ?] *)
Definition complete_ready (mindAssetId t : string) (r : PairRow) : PairRow :=
  {| pair_id := pair_id r; experience_id := experience_id r;
     image_asset_id := image_asset_id r; video_asset_id := video_asset_id r;
     mind_target_asset_id := Some mindAssetId;
     mind_target_status := Some "ready";
     mind_target_error := None;
     mind_target_requested_at := mind_target_requested_at r;
     mind_target_completed_at := Some t;
     image_fingerprint := image_fingerprint r;
     threshold := threshold r; priority := priority r; pair_is_active := pair_is_active r |}.

Definition sql_complete_ready (mindAssetId t pairId : string) : H unit :=
  set_pairs (update_where_id pairId (complete_ready mindAssetId t)) ;;;
  log (EvStatus pairId (Some "ready") None).

(** [INSERT INTO pairs (id, experience_id, image_asset_id, video_asset_id,
    mind_target_status, mind_target_requested_at, image_fingerprint, threshold,
    priority, is_active) VALUES (?, ?, ?, ?, ?, ?, ?, ?, ?, 1)]: the columns
    not named start as NULL. *)
Definition sql_insert_pair (r : PairRow) : H unit :=
  set_pairs (fun ps => ps ++ [r]) ;;;
  log (EvStatus (pair_id r) (mind_target_status r) (mind_target_error r)).

(** ** Secrets, tokens and the two trust channels *)

(** [env.SIGNING_SECRET || env.SESSION_SECRET || "staging-signing-secret"] *)
Definition signing_secret (env : Env) : string :=
  or_str (SIGNING_SECRET env) (or_str (SESSION_SECRET env) "staging-signing-secret").

Definition buildUploadToken (env : Env) (r2Key : string) : string :=
  hmacSign (signing_secret env) ("upload:" +:+ r2Key).

Definition verifyUploadToken (env : Env) (r2Key : string) (token : option string) : bool :=
  match token with
  | None => false
  | Some t => if str_truthy t then bool_decide (t = buildUploadToken env r2Key) else false
  end.

Definition buildAssetToken (env : Env) (assetId : string) : string :=
  hmacSign (signing_secret env) ("asset:" +:+ assetId).

Definition verifyAssetToken (env : Env) (assetId : string) (token : option string) : bool :=
  match token with
  | None => false
  | Some t => if str_truthy t then bool_decide (t = buildAssetToken env assetId) else false
  end.

Definition isJobSecretValid (env : Env) (request : Request) : bool :=
  let secret := or_str (MINDAR_JOB_SECRET env) "" in
  let header := or_str (header_x_job_secret request) "" in
  str_truthy secret && bool_decide (header = secret).

(** [auth.match(/^Bearer\s+(.+)$/i)] then [m[1].trim()].  After the word comes
    white space, then the group, which runs to the end and holds no line
    terminator.  [\s+] is greedy: when anything but white space follows, the
    group starts at the first such character; when only white space follows
    the word, the group is the last character, if there are two at least and
    the last one is no line terminator, and it trims to nothing. *)
Definition getBearerToken (request : Request) : option string :=
  let auth := or_str (header_authorization request) "" in
  match strip_prefix_ci "Bearer" auth ≫= strip_space with
  | Some rest =>
      let word := drop_spaces rest in
      if str_truthy word then
        if has_line_break word then None else Some (trim word)
      else if str_truthy rest && negb (ends_with_line_break rest) then Some ""
      else None
  | None => None
  end.

Record User := { email : JsValue }.

(** [exp = now + 60 * 60 * 24 * 7] *)
Definition issueToken (env : Env) (amb : Ambient) (user : User) : string :=
  let secret := signing_secret env in
  let now := now_seconds amb in
  let exp := (now + 60 * 60 * 24 * 7)%Z in
  let payloadObj :=
    JObj [("email", email user); ("iat", JNum (num_of_Z now)); ("exp", JNum (num_of_Z exp))] in
  let payload := base64urlEncodeText (json_stringify payloadObj) in
  let sig := hmacSign secret payload in
  payload +:+ "." +:+ sig.

Definition verifyToken (env : Env) (amb : Ambient) (token : string) : option User :=
  let secret := signing_secret env in
  match split_on "." token with
  | [payload; sig] =>
      if bool_decide (sig = hmacSign secret payload) then
        match base64urlDecodeToText payload ≫= json_parse with
        | Some obj =>
            if negb (truthy (prop obj "email")) || negb (truthy (prop obj "exp"))
               || num_ltb (js_Number (prop obj "exp")) (num_of_Z (now_seconds amb))
            then None
            else Some {| email := prop obj "email" |}
        | None => None
        end
      else None
  | _ => None
  end.

Definition requireUser (request : Request) (env : Env) (amb : Ambient) : option User :=
  match getBearerToken request with
  | Some token => if str_truthy token then verifyToken env amb token else None
  | None => None
  end.

(** ** Dispatching the generation job *)

(** Without a token or a repository nothing is sent; otherwise one request goes
    to the GitHub workflow-dispatch API and its [ok] flag is the answer.  The
    function catches nothing: when the request ends in an exception, so does
    the function. *)
Definition dispatchMindarJob (env : Env) (amb : Ambient)
    (pairId imagePublicUrl apiBase : string) : H (Outcome bool) :=
  if negb (opt_truthy (GITHUB_TOKEN env)) || negb (opt_truthy (GITHUB_REPO env)) then
    log (EvConsole "MindAR job dispatch skipped: missing GITHUB_TOKEN or GITHUB_REPO") ;;;
    ret (Done false)
  else
    log (EvWorkflowDispatch (or_str (GITHUB_REPO env) "") (or_str (GITHUB_REF env) "main")
           pairId imagePublicUrl apiBase) ;;;
    match github amb with
    | GhAccepted => ret (Done true)
    | GhRefused => log (EvConsole "MindAR dispatch failed") ;;; ret (Done false)
    | GhThrows message => ret (Thrown message)
    end.

(** ** Reading a request *)

(** [readBodyAny]: the body parsed as JSON whatever the content type says, and
    [null] when it is empty or does not parse. *)
Definition readBodyAny (request : Request) : JsValue :=
  if str_truthy (body request) then default JNull (json_parse (body request)) else JNull.

(** [String(v || dflt).trim()] *)
Definition str_field (b : JsValue) (k dflt : string) : string :=
  trim (js_String (js_or (prop b k) (JStr dflt))).

(** Does reading a field that way throw? *)
Definition str_field_throws (b : JsValue) (k dflt : string) : bool :=
  conversion_throws (js_or (prop b k) (JStr dflt)).

Fixpoint take_segment (s : string) : string * string :=
  match s with
  | EmptyString => (EmptyString, EmptyString)
  | String a r =>
      if decide (a = "/"%char) then (EmptyString, s)
      else let (seg, rest) := take_segment r in (String a seg, rest)
  end.

(** [path.match(/^<prefix>([^/]+)<suffix>$/)], answering the group. *)
Definition match_route (prefix suffix path : string) : option string :=
  match strip_prefix prefix path with
  | Some rest =>
      let (seg, tail) := take_segment rest in
      if str_truthy seg && bool_decide (tail = suffix) then Some seg else None
  | None => None
  end.

Definition not_found : Response :=
  json (JObj [("error", JStr "Not Found"); ("build", JStr BUILD)]) 404.

Definition unauthorized : Response :=
  json (JObj [("error", JStr "Unauthorized"); ("build", JStr BUILD)]) 401.

(** The [catch] around the whole of [fetch]. *)
Definition internal_error (message : string) : Response :=
  json (JObj [("error", JStr message); ("build", JStr BUILD)]) 500.

(** The TypeError of a conversion, as the [catch] answers it. *)
Definition type_error : Response :=
  internal_error "Cannot convert object to primitive value".

(** [id] is the primary key of each table: an [INSERT] under a key that is
    taken throws, and the [catch] answers 500. *)
Definition unique_violation (column : string) : Response :=
  internal_error ("D1_ERROR: UNIQUE constraint failed: " +:+ column).

Definition mapExperience (row : ExperienceRow) : JsValue :=
  JObj [("id", JStr (exp_id row)); ("name", JStr (exp_name row));
        ("qr_id", JStr (exp_qr_id row));
        ("is_active", JBool (negb (bool_decide (exp_is_active row = 0%Z))))].

(** ** Public routes *)

Definition serve_asset (assetId : string) : H Response :=
  w <- get ;;
  match List.find (fun a => bool_decide (asset_id a = assetId)) (assets w) with
  | None => ret not_found
  | Some asset =>
      match bucket w !! asset_r2_key asset with
      | None => ret not_found
      | Some (data, _) =>
          ret {| status := 200;
                 payload := PRaw data (or_str (Some (asset_mime asset)) "application/octet-stream") |}
      end
  end.

(** [GET /public/assets/:id] *)
Definition public_assets (assetId : string) : H Response :=
  if str_truthy assetId then serve_asset assetId else ret not_found.

(** [ORDER BY priority DESC, id DESC]: does [a] come before [b]? *)
Definition pair_before (a b : PairRow) : bool :=
  num_ltb (priority b) (priority a)
  || (negb (num_ltb (priority a) (priority b)) && String.ltb (pair_id b) (pair_id a)).

(** The first row of an ordered scan ([ORDER BY ... LIMIT 1]). *)
Fixpoint first_by {A} (before : A -> A -> bool) (l : list A) : option A :=
  match l with
  | [] => None
  | x :: rest =>
      match first_by before rest with
      | Some y => if before y x then Some y else Some x
      | None => Some x
      end
  end.

(** [SELECT ... FROM pairs WHERE experience_id = ? AND is_active = 1
    ORDER BY priority DESC, id DESC LIMIT 1] *)
Definition select_public_pair (expId : string) (ps : list PairRow) : option PairRow :=
  first_by pair_before
    (List.filter (fun r => bool_decide (experience_id r = expId)
                           && bool_decide (pair_is_active r = 1%Z)) ps).

(** [SELECT ... FROM experiences WHERE qr_id = ? LIMIT 1] *)
Definition find_experience_by_qr (qrId : string) (es : list ExperienceRow)
  : option ExperienceRow :=
  List.find (fun e => bool_decide (exp_qr_id e = qrId)) es.

Definition public_asset_url (origin id : string) : string :=
  origin +:+ "/public/assets/" +:+ id.

Definition mindarTargetUrl_of (origin : string) (pair : option PairRow) : option string :=
  match pair with
  | Some p =>
      match mind_target_status p, mind_target_asset_id p with
      | Some st, Some a =>
          if bool_decide (st = "ready") && str_truthy a
          then Some (public_asset_url origin a) else None
      | _, _ => None
      end
  | None => None
  end.

Definition videoUrl_of (origin : string) (pair : option PairRow) : option string :=
  match pair with
  | Some p =>
      if str_truthy (video_asset_id p)
      then Some (public_asset_url origin (video_asset_id p)) else None
  | None => None
  end.

(** [GET /public/experience/:qrId] *)
Definition public_experience (request : Request) (qrId : string) : H Response :=
  w <- get ;;
  match find_experience_by_qr qrId (experiences w) with
  | None => ret not_found
  | Some exp =>
      if bool_decide (exp_is_active exp = 0%Z) then ret not_found
      else
        let pair := select_public_pair (exp_id exp) (pairs w) in
        ret (json (JObj [("ok", JBool true);
                         ("experience", mapExperience exp);
                         ("mindarTargetUrl", opt_str (mindarTargetUrl_of (origin request) pair));
                         ("videoUrl", opt_str (videoUrl_of (origin request) pair));
                         ("mind_target_status", opt_str (pair ≫= mind_target_status));
                         ("build", JStr BUILD)]) 200)
  end.

(** ** Auth routes *)

(** The conversions of the login: [String(body?.email || "")] and
    [String(body?.password || "")]. *)
Definition login_throws (b : JsValue) : bool :=
  str_field_throws b "email" "" || str_field_throws b "password" "".

(** [POST /auth/login]: the fixed credential of the staging build. *)
Definition auth_login (env : Env) (amb : Ambient) (request : Request) : Response :=
  let b := readBodyAny request in
  if login_throws b then type_error
  else
  let email := toLowerCase (str_field b "email" "") in
  let password := js_String (js_or (prop b "password") (JStr "")) in
  if bool_decide (email = "admin@local") && bool_decide (password = "admin123") then
    json (JObj [("token", JStr (issueToken env amb {| email := JStr email |}));
                ("build", JStr BUILD)]) 200
  else
    json (JObj [("error", JStr "Invalid credentials"); ("build", JStr BUILD);
                ("seen_email", JStr email)]) 401.

(** [GET /auth/me] *)
Definition auth_me (env : Env) (amb : Ambient) (request : Request) : Response :=
  match getBearerToken request with
  | Some token =>
      if str_truthy token then
        match verifyToken env amb token with
        | Some user =>
            json (JObj [("ok", JBool true); ("user", JObj [("email", email user)]);
                        ("build", JStr BUILD)]) 200
        | None => unauthorized
        end
      else unauthorized
  | None => unauthorized
  end.

(** ** The gate in front of the protected routes *)

Definition needsAuth (path : string) : bool :=
  startsWith path "/experiences" || startsWith path "/pairs" || startsWith path "/uploads".

Definition isUploadPut (path : string) : bool := startsWith path "/uploads/put/".

(** [needsAuth && !user && !isUploadPut && !isJobSecretValid(env, request)] *)
Definition gate_rejects (env : Env) (request : Request) (user : option User) : bool :=
  needsAuth (pathname request) && negb (bool_decide (is_Some user))
  && negb (isUploadPut (pathname request)) && negb (isJobSecretValid env request).

(** ** Uploads *)

Definition safe_char (a : ascii) : bool :=
  let n := nat_of_ascii a in
  ((48 <=? n) && (n <=? 57) || (65 <=? n) && (n <=? 90) || (97 <=? n) && (n <=? 122)
   || (n =? 46) || (n =? 95) || (n =? 45))%nat.

(** [.replace(/[^a-zA-Z0-9._-]+/g, "_")] *)
Fixpoint squash (in_run : bool) (s : string) : string :=
  match s with
  | EmptyString => EmptyString
  | String a r =>
      if safe_char a then String a (squash false r)
      else if in_run then squash true r
      else String "_" (squash true r)
  end.

Fixpoint drop_underscores (s : string) : string :=
  match s with
  | String a r => if decide (a = "_"%char) then drop_underscores r else s
  | EmptyString => EmptyString
  end.

Definition sanitizeFilename (name : string) : string :=
  let trimmed := trim name in
  if str_truthy trimmed then
    let replaced := squash false trimmed in
    let stripped := String.rev (drop_underscores (String.rev (drop_underscores replaced))) in
    if str_truthy stripped then stripped else "file"
  else "file".

(** The conversions of the sign route: [String(body?.kind || "")],
    [String(body?.mime || "application/octet-stream")] and
    [String(body?.filename || "file")]. *)
Definition sign_throws (b : JsValue) : bool :=
  str_field_throws b "kind" "" || str_field_throws b "mime" "application/octet-stream"
  || str_field_throws b "filename" "file".

(** [POST /uploads/sign] *)
Definition uploads_sign (env : Env) (amb : Ambient) (request : Request) : Response :=
  let b := readBodyAny request in
  if sign_throws b then type_error
  else
  let kind := str_field b "kind" "" in
  let mime := str_field b "mime" "application/octet-stream" in
  let filename := str_field b "filename" "file" in
  let r2Key := kind +:+ "/" +:+ uuid_1 amb +:+ "-" +:+ sanitizeFilename filename in
  let token := buildUploadToken env r2Key in
  let uploadUrl :=
    origin request +:+ "/uploads/put/" +:+ encodeURIComponent r2Key
    +:+ "?token=" +:+ encodeURIComponent token +:+ "&mime=" +:+ encodeURIComponent mime in
  json (JObj [("uploadUrl", JStr uploadUrl); ("r2Key", JStr r2Key); ("build", JStr BUILD)]) 200.

Definition upload_ok (r2Key : string) : Response :=
  json (JObj [("ok", JBool true); ("r2Key", JStr r2Key); ("build", JStr BUILD)]) 200.

(** [PUT /uploads/put/:key]; [rest] is the path after the prefix. *)
Definition uploads_put (env : Env) (request : Request) (rest : string) : H Response :=
  match decodeURIComponent rest with
  | None => ret (internal_error "URI malformed")
  | Some r2Key =>
      if negb (str_truthy r2Key) then ret not_found
      else if negb (verifyUploadToken env r2Key (query_token request)) then ret unauthorized
      else
        let mime := or_str (query_mime request) "application/octet-stream" in
        set_bucket (fun bk => <[r2Key := (body request, mime)]> bk) ;;;
        log (EvBucketPut r2Key) ;;;
        ret (upload_ok r2Key)
  end.

(** The conversions of the complete route: [String(body?.kind || "")],
    [String(body?.r2Key || "")], [String(body?.mime || "application/octet-stream")]
    and [Number(body?.size || 0)]. *)
Definition upload_throws (b : JsValue) : bool :=
  str_field_throws b "kind" "" || str_field_throws b "r2Key" ""
  || str_field_throws b "mime" "application/octet-stream"
  || conversion_throws (js_or (prop b "size") (JNum (num_of_Z 0))).

(** [POST /uploads/complete] *)
Definition uploads_complete (env : Env) (amb : Ambient) (request : Request) : H Response :=
  let b := readBodyAny request in
  if upload_throws b then ret type_error
  else
  let kind := str_field b "kind" "" in
  let r2Key := str_field b "r2Key" "" in
  let mime := str_field b "mime" "application/octet-stream" in
  let size := js_Number (js_or (prop b "size") (JNum (num_of_Z 0))) in
  if negb (str_truthy kind) || negb (str_truthy r2Key) then
    ret (json (JObj [("error", JStr "Invalid upload"); ("build", JStr BUILD)]) 400)
  else
    let id := uuid_1 amb in
    w <- get ;;
    if bool_decide (Exists (fun a => asset_id a = id) (assets w)) then
      ret (unique_violation "assets.id")
    else
    set_assets (fun l => l ++ [{| asset_id := id; asset_kind := kind; asset_r2_key := r2Key;
                                  asset_mime := mime; asset_size := size |}]) ;;;
    ret (json (JObj [("id", JStr id); ("kind", JStr kind); ("r2_key", JStr r2Key);
                     ("mime", JStr mime); ("size", JNum size);
                     ("url", JStr (origin request +:+ "/assets/" +:+ id +:+ "?token="
                                   +:+ encodeURIComponent (buildAssetToken env id)));
                     ("build", JStr BUILD)]) 200).

(** [GET /assets/:id]: an asset token or a signed-in user. *)
Definition assets_get (env : Env) (request : Request) (user : option User) (rest : string)
  : H Response :=
  match decodeURIComponent rest with
  | None => ret (internal_error "URI malformed")
  | Some assetId =>
      if negb (str_truthy assetId) then ret not_found
      else if negb (verifyAssetToken env assetId (query_token request))
              && negb (bool_decide (is_Some user))
      then ret unauthorized
      else serve_asset assetId
  end.

(** ** The generation job: dispatch and completion callback *)

(** What every dispatching route does once the pair is marked [pending]:
    trigger the job and, when the trigger answers that it failed, mark the pair
    failed.  An exception of the trigger goes on to the [catch] of [fetch]. *)
Definition dispatch_or_fail (env : Env) (amb : Ambient)
    (pairId imagePublicUrl apiBase : string) : H (Outcome bool) :=
  res <- dispatchMindarJob env amb pairId imagePublicUrl apiBase ;;
  match res with
  | Done ok =>
      (when (negb ok) then sql_mark_failed "Dispatch failed" pairId) ;;;
      ret (Done ok)
  | Thrown message => ret (Thrown message)
  end.

(** The conversions of the dispatch endpoint. *)
Definition dispatch_throws (b : JsValue) : bool :=
  str_field_throws b "pairId" "" || str_field_throws b "image_asset_id" "".

(** [POST /jobs/mindar/dispatch] *)
Definition jobs_mindar_dispatch (env : Env) (amb : Ambient) (request : Request)
    (user : option User) : H Response :=
  match user with
  | None => ret unauthorized
  | Some _ =>
      let b := readBodyAny request in
      if dispatch_throws b then ret type_error
      else
      let pairId := str_field b "pairId" "" in
      let imageAssetId := str_field b "image_asset_id" "" in
      if negb (str_truthy pairId) || negb (str_truthy imageAssetId) then
        ret (json (JObj [("error", JStr "Missing pairId or image_asset_id");
                         ("build", JStr BUILD)]) 400)
      else
        let imagePublicUrl := public_asset_url (origin request) imageAssetId in
        sql_mark_pending (now_iso amb) pairId ;;;
        res <- dispatch_or_fail env amb pairId imagePublicUrl (origin request) ;;
        match res with
        | Done ok => ret (json (JObj [("ok", JBool ok); ("build", JStr BUILD)]) 200)
        | Thrown message => ret (internal_error message)
        end
  end.

(** [body?.error ? String(body.error) : ""] *)
Definition errorMessage_of (b : JsValue) : string :=
  if truthy (prop b "error") then js_String (prop b "error") else "".

(** The conversions of the callback: [String(body?.pairId || "")],
    [String(body?.mindAssetId || "")] and [String(body.error)] when
    [body?.error] is truthy. *)
Definition callback_throws (b : JsValue) : bool :=
  str_field_throws b "pairId" "" || str_field_throws b "mindAssetId" ""
  || conversion_throws (prop b "error").

(** [POST /jobs/mindar/complete] *)
Definition jobs_mindar_complete (env : Env) (amb : Ambient) (request : Request) : H Response :=
  if negb (isJobSecretValid env request) then ret unauthorized
  else
    let b := readBodyAny request in
    if callback_throws b then ret type_error
    else
    let pairId := str_field b "pairId" "" in
    let mindAssetId := str_field b "mindAssetId" "" in
    let errorMessage := errorMessage_of b in
    if negb (str_truthy pairId) then
      ret (json (JObj [("error", JStr "Missing pairId"); ("build", JStr BUILD)]) 400)
    else
      let t := now_iso amb in
      if str_truthy errorMessage || negb (str_truthy mindAssetId) then
        let msg := or_str (Some errorMessage) "MindAR generation failed" in
        sql_complete_failed msg t pairId ;;;
        ret (json (JObj [("ok", JBool false); ("error", JStr msg); ("build", JStr BUILD)]) 200)
      else
        sql_complete_ready mindAssetId t pairId ;;;
        ret (json (JObj [("ok", JBool true); ("build", JStr BUILD)]) 200).

(** ** Experiences *)

Fixpoint insert_by {A} (before : A -> A -> bool) (x : A) (l : list A) : list A :=
  match l with
  | [] => [x]
  | y :: r => if before y x then y :: insert_by before x r else x :: l
  end.

(** [ORDER BY]: rows that compare equal keep their table order. *)
Definition sort_by {A} (before : A -> A -> bool) (l : list A) : list A :=
  List.fold_right (insert_by before) [] l.

Fixpoint remove_dashes (s : string) : string :=
  match s with
  | EmptyString => EmptyString
  | String a r => if decide (a = "-"%char) then remove_dashes r else String a (remove_dashes r)
  end.

Fixpoint take_chars (n : nat) (s : string) : string :=
  match n, s with
  | S n', String a r => String a (take_chars n' r)
  | _, _ => EmptyString
  end.

(** [genQrId] over the UUID it draws. *)
Definition genQrId (uuid : string) : string := take_chars 12 (remove_dashes uuid).

Definition find_experience (id : string) (es : list ExperienceRow) : option ExperienceRow :=
  List.find (fun e => bool_decide (exp_id e = id)) es.

(** [GET /experiences] *)
Definition experiences_list : H Response :=
  w <- get ;;
  let rows := sort_by (fun a b => String.ltb (exp_created_at b) (exp_created_at a))
                (experiences w) in
  ret (json (JObj [("experiences", JArr (List.map mapExperience rows));
                   ("build", JStr BUILD)]) 200).

(** [POST /experiences] *)
Definition experiences_create (amb : Ambient) (request : Request) : H Response :=
  let b := readBodyAny request in
  if str_field_throws b "name" "" then ret type_error
  else
  let name := str_field b "name" "" in
  if negb (str_truthy name) then
    ret (json (JObj [("error", JStr "Name is required"); ("build", JStr BUILD)]) 400)
  else
    let id := uuid_1 amb in
    let qr_id := genQrId (uuid_2 amb) in
    let t := now_iso amb in
    w <- get ;;
    if bool_decide (Exists (fun e => exp_id e = id) (experiences w)) then
      ret (unique_violation "experiences.id")
    else
    set_experiences (fun l => l ++ [{| exp_id := id; exp_name := name; exp_qr_id := qr_id;
                                       exp_is_active := 1; exp_created_at := t;
                                       exp_updated_at := t |}]) ;;;
    ret (json (JObj [("id", JStr id); ("name", JStr name); ("qr_id", JStr qr_id);
                     ("is_active", JBool true); ("build", JStr BUILD)]) 200).

(** [GET /experiences/:id] *)
Definition experiences_get (id : string) : H Response :=
  w <- get ;;
  match find_experience id (experiences w) with
  | None => ret not_found
  | Some exp => ret (json (mapExperience exp) 200)
  end.

(** [body?.k !== undefined ? String(body?.k || "").trim() : null] *)
Definition opt_str_field (b : JsValue) (k : string) : option string :=
  match prop b k with
  | JUndefined => None
  | _ => Some (str_field b k "")
  end.

(** [body?.k !== undefined ? Boolean(body.k) : null] *)
Definition opt_bool_field (b : JsValue) (k : string) : option bool :=
  match prop b k with
  | JUndefined => None
  | v => Some (truthy v)
  end.

(** [body?.k !== undefined ? Number(body.k) : null] *)
Definition opt_num_field (b : JsValue) (k : string) : option Num :=
  match prop b k with
  | JUndefined => None
  | v => Some (js_Number v)
  end.

(** [isActive === null ? existing : isActive ? 1 : 0] *)
Definition next_active (isActive : option bool) (existing : Z) : Z :=
  match isActive with
  | None => existing
  | Some true => 1
  | Some false => 0
  end.

(** The conversions of [PUT /experiences/:id]: [String(body?.name || "")] and
    [String(body?.qr_id || "")]. *)
Definition experience_patch_throws (b : JsValue) : bool :=
  str_field_throws b "name" "" || str_field_throws b "qr_id" "".

(** [PUT /experiences/:id] *)
Definition experiences_put (amb : Ambient) (request : Request) (id : string) : H Response :=
  let b := readBodyAny request in
  if experience_patch_throws b then ret type_error
  else
  let name := opt_str_field b "name" in
  let isActive := opt_bool_field b "is_active" in
  let qrId := opt_str_field b "qr_id" in
  w <- get ;;
  match find_experience id (experiences w) with
  | None => ret not_found
  | Some existing =>
      let nextName := default (exp_name existing) name in
      let nextQr := default (exp_qr_id existing) qrId in
      let nextActive := next_active isActive (exp_is_active existing) in
      let t := now_iso amb in
      set_experiences (List.map (fun e =>
        if bool_decide (exp_id e = id) then
          {| exp_id := exp_id e; exp_name := nextName; exp_qr_id := nextQr;
             exp_is_active := nextActive; exp_created_at := exp_created_at e;
             exp_updated_at := t |}
        else e)) ;;;
      ret (json (JObj [("id", JStr id); ("name", JStr nextName); ("qr_id", JStr nextQr);
                       ("is_active", JBool (negb (bool_decide (nextActive = 0%Z))));
                       ("build", JStr BUILD)]) 200)
  end.

(** [DELETE /experiences/:id]: the pairs first, then the experience.  A D1
    statement that runs reports success, so the answer is always [ok]. *)
Definition experiences_delete (id : string) : H Response :=
  set_pairs (List.filter (fun r => negb (bool_decide (experience_id r = id)))) ;;;
  set_experiences (List.filter (fun e => negb (bool_decide (exp_id e = id)))) ;;;
  ret (json (JObj [("ok", JBool true); ("build", JStr BUILD)]) 200).

(** ** Pairs *)

Definition find_asset (id : option string) (l : list AssetRow) : option AssetRow :=
  id ≫= fun i => List.find (fun a => bool_decide (asset_id a = i)) l.

Definition asset_url (env : Env) (origin id : string) : string :=
  origin +:+ "/assets/" +:+ id +:+ "?token=" +:+ encodeURIComponent (buildAssetToken env id).

Definition opt_num (o : option Num) : JsValue :=
  match o with Some n => JNum n | None => JNull end.

(** One row of [GET /experiences/:id/pairs], the three [LEFT JOIN]s included. *)
Definition pair_listing (env : Env) (origin : string) (l : list AssetRow) (row : PairRow)
  : JsValue :=
  let ai := find_asset (Some (image_asset_id row)) l in
  let am := find_asset (mind_target_asset_id row) l in
  let av := find_asset (Some (video_asset_id row)) l in
  let fingerprint :=
    match image_fingerprint row with
    | Some s => if str_truthy s then default (JStr s) (json_parse s) else JStr s
    | None => JNull
    end in
  JObj [("id", JStr (pair_id row));
        ("experience_id", JStr (experience_id row));
        ("image_asset_id", JStr (image_asset_id row));
        ("video_asset_id", JStr (video_asset_id row));
        ("mind_target_asset_id", opt_str (mind_target_asset_id row));
        ("mind_target_status", opt_str (mind_target_status row));
        ("mind_target_error", opt_str (mind_target_error row));
        ("mind_target_requested_at", opt_str (mind_target_requested_at row));
        ("mind_target_completed_at", opt_str (mind_target_completed_at row));
        ("image_fingerprint", fingerprint);
        ("threshold", JNum (threshold row));
        ("priority", JNum (priority row));
        ("is_active", JBool (negb (bool_decide (pair_is_active row = 0%Z))));
        ("image_r2_key", opt_str (asset_r2_key <$> ai));
        ("mind_r2_key", opt_str (asset_r2_key <$> am));
        ("video_r2_key", opt_str (asset_r2_key <$> av));
        ("image_mime", opt_str (asset_mime <$> ai));
        ("mind_mime", opt_str (asset_mime <$> am));
        ("video_mime", opt_str (asset_mime <$> av));
        ("image_size", opt_num (asset_size <$> ai));
        ("mind_size", opt_num (asset_size <$> am));
        ("video_size", opt_num (asset_size <$> av));
        ("image_url", if str_truthy (image_asset_id row)
                      then JStr (asset_url env origin (image_asset_id row)) else JNull);
        ("mind_target_url",
           match mind_target_asset_id row with
           | Some a => if str_truthy a then JStr (asset_url env origin a) else JNull
           | None => JNull
           end);
        ("video_url", if str_truthy (video_asset_id row)
                      then JStr (asset_url env origin (video_asset_id row)) else JNull)].

(** [GET /experiences/:id/pairs] *)
Definition pairs_list (env : Env) (request : Request) (id : string) : H Response :=
  w <- get ;;
  let rows := sort_by pair_before
                (List.filter (fun r => bool_decide (experience_id r = id)) (pairs w)) in
  ret (json (JObj [("pairs", JArr (List.map (pair_listing env (origin request) (assets w)) rows));
                   ("build", JStr BUILD)]) 200).

(** The row that [POST /experiences/:id/pairs] inserts: the columns the
    [INSERT] does not name start as NULL, [is_active] as 1. *)
Definition new_pair (amb : Ambient) (expId : string) (b : JsValue) : PairRow :=
  let fingerprint := js_coalesce (prop b "image_fingerprint") JNull in
  {| pair_id := uuid_1 amb; experience_id := expId;
     image_asset_id := str_field b "image_asset_id" "";
     video_asset_id := str_field b "video_asset_id" "";
     mind_target_asset_id := None;
     mind_target_status := Some "pending";
     mind_target_error := None;
     mind_target_requested_at := Some (now_iso amb);
     mind_target_completed_at := None;
     image_fingerprint := if truthy fingerprint then Some (json_stringify fingerprint) else None;
     threshold :=
       js_Number (js_coalesce (prop b "match_threshold")
                    (js_coalesce (prop b "threshold") (JNum num_0_8)));
     priority := js_Number (js_coalesce (prop b "priority") (JNum (num_of_Z 0)));
     pair_is_active := 1 |}.

(** The conversions of [POST /experiences/:id/pairs]:
    [String(body?.image_asset_id || "")], [String(body?.video_asset_id || "")],
    [Number(body?.match_threshold ?? body?.threshold ?? 0.8)] and
    [Number(body?.priority ?? 0)]. *)
Definition new_pair_throws (b : JsValue) : bool :=
  str_field_throws b "image_asset_id" "" || str_field_throws b "video_asset_id" ""
  || conversion_throws (js_coalesce (prop b "match_threshold")
                          (js_coalesce (prop b "threshold") (JNum num_0_8)))
  || conversion_throws (js_coalesce (prop b "priority") (JNum (num_of_Z 0))).

(** [POST /experiences/:id/pairs] *)
Definition pairs_create (env : Env) (amb : Ambient) (request : Request) (expId : string)
  : H Response :=
  let b := readBodyAny request in
  if new_pair_throws b then ret type_error
  else
  let imageAssetId := str_field b "image_asset_id" "" in
  let videoAssetId := str_field b "video_asset_id" "" in
  if negb (str_truthy imageAssetId) || negb (str_truthy videoAssetId) then
    ret (json (JObj [("error", JStr "Missing assets"); ("build", JStr BUILD)]) 400)
  else
    let id := uuid_1 amb in
    w <- get ;;
    if bool_decide (Exists (fun r => pair_id r = id) (pairs w)) then
      ret (unique_violation "pairs.id")
    else
      sql_insert_pair (new_pair amb expId b) ;;;
      let imagePublicUrl := public_asset_url (origin request) imageAssetId in
      res <- dispatch_or_fail env amb id imagePublicUrl (origin request) ;;
      match res with
      | Done _ => ret (json (JObj [("id", JStr id); ("build", JStr BUILD)]) 200)
      | Thrown message => ret (internal_error message)
      end.

(** [body?.k ? String(body.k).trim() : null] *)
Definition truthy_str_field (b : JsValue) (k : string) : option string :=
  if truthy (prop b k) then Some (trim (js_String (prop b k))) else None.

(** [imageAssetId && imageAssetId !== existing.image_asset_id] *)
Definition imageChanged (imageAssetId : option string) (existing : PairRow) : bool :=
  match imageAssetId with
  | Some s => str_truthy s && negb (bool_decide (s = image_asset_id existing))
  | None => false
  end.

(** The values bound to the [UPDATE] of [PUT /pairs/:id]. *)
Record PairPatch := {
  nextExperienceId : string;
  nextImageAssetId : string;
  nextVideoAssetId : string;
  nextFingerprint : option string;
  nextMindAssetId : option string;
  nextMindStatus : option string;
  nextMindRequestedAt : option string;
  nextThreshold : Num;
  nextPriority : Num;
  nextActive : Z;
}.

Definition pair_patch (amb : Ambient) (b : JsValue) (existing : PairRow) : PairPatch :=
  let experienceId := truthy_str_field b "experience_id" in
  let imageAssetId := truthy_str_field b "image_asset_id" in
  let videoAssetId := truthy_str_field b "video_asset_id" in
  let fingerprint := js_coalesce (prop b "image_fingerprint") JNull in
  let threshold' := opt_num_field b "threshold" in
  let priority' := opt_num_field b "priority" in
  let isActive := opt_bool_field b "is_active" in
  let changed := imageChanged imageAssetId existing in
  let t := now_iso amb in
  {| nextExperienceId := default (experience_id existing) experienceId;
     nextImageAssetId := default (image_asset_id existing) imageAssetId;
     nextVideoAssetId := default (video_asset_id existing) videoAssetId;
     nextFingerprint :=
       if nullish fingerprint then image_fingerprint existing
       else Some (json_stringify fingerprint);
     nextMindAssetId := if changed then None else mind_target_asset_id existing;
     nextMindStatus := if changed then Some "pending" else mind_target_status existing;
     nextMindRequestedAt := if changed then Some t else mind_target_requested_at existing;
     nextThreshold := default (threshold existing) threshold';
     nextPriority := default (priority existing) priority';
     nextActive := next_active isActive (pair_is_active existing) |}.

(** [UPDATE pairs SET experience_id = ?, image_asset_id = ?, video_asset_id = ?,
    image_fingerprint = ?, mind_target_asset_id = ?, mind_target_status = ?,
    mind_target_error = NULL, mind_target_requested_at = ?, threshold = ?,
    priority = ?, is_active = ? WHERE id = ?] *)
Definition apply_patch (p : PairPatch) (r : PairRow) : PairRow :=
  {| pair_id := pair_id r;
     experience_id := nextExperienceId p;
     image_asset_id := nextImageAssetId p;
     video_asset_id := nextVideoAssetId p;
     mind_target_asset_id := nextMindAssetId p;
     mind_target_status := nextMindStatus p;
     mind_target_error := None;
     mind_target_requested_at := nextMindRequestedAt p;
     mind_target_completed_at := mind_target_completed_at r;
     image_fingerprint := nextFingerprint p;
     threshold := nextThreshold p; priority := nextPriority p;
     pair_is_active := nextActive p |}.

Definition sql_update_pair (p : PairPatch) (pairId : string) : H unit :=
  set_pairs (update_where_id pairId (apply_patch p)) ;;;
  log (EvStatus pairId (nextMindStatus p) None).

(** The conversions of [PUT /pairs/:id]: [String(body.k)] for each of the
    three ids that is truthy, [Number(body.k)] for [threshold] and [priority]
    when they are there. *)
Definition pair_patch_throws (b : JsValue) : bool :=
  conversion_throws (prop b "experience_id") || conversion_throws (prop b "image_asset_id")
  || conversion_throws (prop b "video_asset_id") || conversion_throws (prop b "threshold")
  || conversion_throws (prop b "priority").

(** [PUT /pairs/:id] *)
Definition pairs_put (env : Env) (amb : Ambient) (request : Request) (pairId : string)
  : H Response :=
  let b := readBodyAny request in
  if pair_patch_throws b then ret type_error
  else
  let imageAssetId := truthy_str_field b "image_asset_id" in
  w <- get ;;
  match find_pair pairId (pairs w) with
  | None => ret not_found
  | Some existing =>
      sql_update_pair (pair_patch amb b existing) pairId ;;;
      res <- (if imageChanged imageAssetId existing then
                dispatch_or_fail env amb pairId
                  (public_asset_url (origin request) (default "" imageAssetId))
                  (origin request)
              else ret (Done true)) ;;
      match res with
      | Done _ => ret (json (JObj [("ok", JBool true); ("build", JStr BUILD)]) 200)
      | Thrown message => ret (internal_error message)
      end
  end.

(** [DELETE /pairs/:id] *)
Definition pairs_delete (pairId : string) : H Response :=
  set_pairs (List.filter (fun r => negb (bool_decide (pair_id r = pairId)))) ;;;
  ret (json (JObj [("ok", JBool true); ("build", JStr BUILD)]) 200).

(** ** Routing *)

Definition is_method (request : Request) (m : string) : bool :=
  bool_decide (method request = m).

(** A route whose path parameter goes through [decodeURIComponent]. *)
Definition with_decoded (seg : string) (k : string -> H Response) : H Response :=
  match decodeURIComponent seg with
  | Some v => k v
  | None => ret (internal_error "URI malformed")
  end.

(** The routes behind the gate, in the order of the source.  The three path
    patterns exclude one another, so a path that matches one of them with a
    method it does not serve reaches the closing 404. *)
Definition protected_routes (env : Env) (amb : Ambient) (request : Request)
    (user : option User) : H Response :=
  let path := pathname request in
  let expMatch := match_route "/experiences/" "" path in
  let expPairsMatch := match_route "/experiences/" "/pairs" path in
  let pairMatch := match_route "/pairs/" "" path in
  let fallthrough :=
    ret (json (JObj [("error", JStr "Not Found"); ("build", JStr BUILD);
                     ("path", JStr path); ("method", JStr (method request))]) 404) in
  if bool_decide (path = "/uploads/sign") && is_method request "POST" then
    ret (uploads_sign env amb request)
  else if startsWith path "/uploads/put/" && is_method request "PUT" then
    uploads_put env request (default "" (strip_prefix "/uploads/put/" path))
  else if bool_decide (path = "/uploads/complete") && is_method request "POST" then
    uploads_complete env amb request
  else if startsWith path "/assets/" && is_method request "GET" then
    assets_get env request user (default "" (strip_prefix "/assets/" path))
  else if bool_decide (path = "/jobs/mindar/dispatch") && is_method request "POST" then
    jobs_mindar_dispatch env amb request user
  else if bool_decide (path = "/jobs/mindar/complete") && is_method request "POST" then
    jobs_mindar_complete env amb request
  else if bool_decide (path = "/experiences") && is_method request "GET" then
    experiences_list
  else if bool_decide (path = "/experiences") && is_method request "POST" then
    experiences_create amb request
  else
    match expMatch, expPairsMatch, pairMatch with
    | Some seg, _, _ =>
        if is_method request "GET" then with_decoded seg experiences_get
        else if is_method request "PUT" then with_decoded seg (experiences_put amb request)
        else if is_method request "DELETE" then with_decoded seg experiences_delete
        else fallthrough
    | None, Some seg, _ =>
        if is_method request "GET" then with_decoded seg (pairs_list env request)
        else if is_method request "POST" then with_decoded seg (pairs_create env amb request)
        else fallthrough
    | None, None, Some seg =>
        if is_method request "PUT" then with_decoded seg (pairs_put env amb request)
        else if is_method request "DELETE" then with_decoded seg pairs_delete
        else fallthrough
    | None, None, None => fallthrough
    end.

(** [fetch]. *)
Definition fetch (env : Env) (amb : Ambient) (request : Request) : H Response :=
  let path := pathname request in
  if is_method request "OPTIONS" then ret {| status := 204; payload := PEmpty |}
  else if bool_decide (path = "/api/health") then
    ret (json (JObj [("ok", JBool true); ("service", JStr "vidcom-api");
                     ("env", JStr (or_str (NODE_ENV env) "unknown"));
                     ("build", JStr BUILD); ("time", JStr (now_iso amb))]) 200)
  else if startsWith path "/public/assets/" && is_method request "GET" then
    with_decoded (default "" (strip_prefix "/public/assets/" path)) public_assets
  else
    match (if is_method request "GET"
           then match_route "/public/experience/" "" path else None) with
    | Some seg => with_decoded seg (public_experience request)
    | None =>
        if bool_decide (path = "/auth/login") && is_method request "POST" then
          ret (auth_login env amb request)
        else if bool_decide (path = "/auth/me") && is_method request "GET" then
          ret (auth_me env amb request)
        else if bool_decide (path = "/auth/logout") && is_method request "POST" then
          ret (json (JObj [("ok", JBool true); ("build", JStr BUILD)]) 200)
        else
          let user := requireUser request env amb in
          if gate_rejects env request user then ret unauthorized
          else protected_routes env amb request user
    end.

(** ** Notions used to state the properties *)

(** How a trigger attempt ends.  Without the token or the repository the
    function sends nothing and answers [false]; otherwise it ends as the
    request to GitHub does. *)
Definition trigger (env : Env) (amb : Ambient) : Outcome bool :=
  if opt_truthy (GITHUB_TOKEN env) && opt_truthy (GITHUB_REPO env) then
    match github amb with
    | GhAccepted => Done true
    | GhRefused => Done false
    | GhThrows message => Thrown message
    end
  else Done false.

(** What one trigger attempt leaves in the journal. *)
Definition trigger_events (env : Env) (amb : Ambient)
    (pairId imagePublicUrl apiBase : string) : list Event :=
  if opt_truthy (GITHUB_TOKEN env) && opt_truthy (GITHUB_REPO env) then
    EvWorkflowDispatch (or_str (GITHUB_REPO env) "") (or_str (GITHUB_REF env) "main")
      pairId imagePublicUrl apiBase
    :: match github amb with
       | GhRefused => [EvConsole "MindAR dispatch failed"]
       | GhAccepted | GhThrows _ => []
       end
  else [EvConsole "MindAR job dispatch skipped: missing GITHUB_TOKEN or GITHUB_REPO"].

(** The journal of a dispatch: the pair is marked pending, the trigger is
    attempted, and the failure mark follows when the trigger answered that it
    failed (not when it ended in an exception). *)
Definition dispatch_journal (env : Env) (amb : Ambient)
    (pairId imagePublicUrl apiBase : string) : list Event :=
  [EvStatus pairId (Some "pending") None]
  ++ trigger_events env amb pairId imagePublicUrl apiBase
  ++ match trigger env amb with
     | Done false => [EvStatus pairId (Some "failed") (Some "Dispatch failed")]
     | Done true | Thrown _ => []
     end.

(** What a dispatching route does to the row it has just marked [pending]. *)
Definition settle (env : Env) (amb : Ambient) (r : PairRow) : PairRow :=
  match trigger env amb with
  | Done false => mark_failed "Dispatch failed" r
  | Done true | Thrown _ => r
  end.

Definition settle_pair (env : Env) (amb : Ambient) (pairId : string) (ps : list PairRow)
  : list PairRow :=
  match trigger env amb with
  | Done false => update_where_id pairId (mark_failed "Dispatch failed") ps
  | Done true | Thrown _ => ps
  end.

(** What a dispatching route answers: [ok] when the trigger answered, 500
    with the message of the exception otherwise. *)
Definition dispatch_answer (env : Env) (amb : Ambient) (ok : bool -> Response) : Response :=
  match trigger env amb with
  | Done b => ok b
  | Thrown message => internal_error message
  end.

(** Seven days, in seconds. *)
Definition seven_days : Z := 7 * 24 * 60 * 60.

(** The three values the generation state takes. *)
Definition known_status (st : option string) : Prop :=
  st = Some "pending" \/ st = Some "ready" \/ st = Some "failed".

(** A [ready] row is bound to its target asset; a row that has just failed
    carries a message. *)
Definition has_target (r : PairRow) : Prop :=
  exists a, mind_target_asset_id r = Some a /\ a <> "".

Definition has_error (r : PairRow) : Prop :=
  exists e, mind_target_error r = Some e /\ e <> "".

Definition row_ok (r : PairRow) : Prop :=
  known_status (mind_target_status r)
  /\ (mind_target_status r = Some "ready" -> has_target r).

(** A table as the worker keeps it: [id] is a key, every row is in one of the
    three states, and every [ready] row has its target asset. *)
Definition table_ok (ps : list PairRow) : Prop :=
  NoDup (pair_id <$> ps) /\ Forall row_ok ps.

(** The four routes that write the generation state. *)
Definition is_callback (request : Request) : bool :=
  bool_decide (pathname request = "/jobs/mindar/complete") && is_method request "POST".

Definition is_retry (request : Request) : bool :=
  bool_decide (pathname request = "/jobs/mindar/dispatch") && is_method request "POST".

Definition is_pair_create (request : Request) : bool :=
  bool_decide (is_Some (match_route "/experiences/" "/pairs" (pathname request)))
  && is_method request "POST".

Definition is_pair_update (request : Request) : bool :=
  bool_decide (is_Some (match_route "/pairs/" "" (pathname request)))
  && is_method request "PUT".

(** What one request may do to the generation state of one pair; [before] is
    the row of the pair before the request ([None]: it had none), [r'] its row
    after.  When the status is not what it was, then either
    - it is [pending], and the request created the pair, or is a retry, or is
      an update that changed the image of the pair; or
    - it is [ready], the request is the completion callback and the row has
      its target asset; or
    - it is [failed] and the row carries a message: the request is the
      completion callback, or it is one of the three dispatching requests and
      the message is "Dispatch failed". *)
Definition status_change (request : Request) (before : option PairRow) (r' : PairRow)
  : Prop :=
  mind_target_status r' <> (before ≫= mind_target_status) ->
  (mind_target_status r' = Some "pending"
   /\ ((before = None /\ is_pair_create request = true)
       \/ is_retry request = true
       \/ (is_pair_update request = true
           /\ exists r, before = Some r /\ image_asset_id r' <> image_asset_id r)))
  \/ (mind_target_status r' = Some "ready" /\ is_callback request = true /\ has_target r')
  \/ (mind_target_status r' = Some "failed" /\ has_error r'
      /\ (is_callback request = true
          \/ (mind_target_error r' = Some "Dispatch failed"
              /\ is_pair_create request || is_retry request || is_pair_update request
                 = true))).

(** A request keeps the generation state in order: the table stays as the
    worker keeps it, and each pair changes its status only as above. *)
Definition request_keeps (request : Request) (ps ps' : list PairRow) : Prop :=
  table_ok ps'
  /\ forall id r', find_pair id ps' = Some r' -> status_change request (find_pair id ps) r'.

(** The same for a handler run in [w]. *)
Definition keeps_at {A} (request : Request) (w : World) (c : H A) : Prop :=
  table_ok (pairs w) -> request_keeps request (pairs w) (pairs (c w).2).

End Worker.
End Staging.

(** * The session worker (src/unnamed/part_002, second module) *)
Module Session.
Section Worker.
Context `{RT : Runtime}.
Open Scope handler_scope.

Record Request := {
  method : string;
  pathname : string;
  header_authorization : option string;
  header_cookie : option string;
  header_content_type : option string;
  body : string;
}.

(** The clock and the random source for one request. *)
Record Ambient := {
  now_ms : Z;                (* [Date.now()] *)
  now_iso : string;          (* [new Date().toISOString()] *)
  random_token : string;     (* [randomToken(32)] *)
}.

Record UserRow := {
  user_id : string;
  user_email : string;
  password_hash : string;
  password_salt : string;
  role : string;
  user_is_active : Z;
}.

(** [expires_at] is kept as the instant (in ms) that the stored ISO text
    denotes: the source writes it with [toISOString] and reads it back with
    [new Date(...).getTime()]. *)
Record SessionRow := {
  token : string;
  session_user_id : string;
  created_at : string;
  expires_at : Z;
}.

Record PairRow := {
  pair_id : string;
  experience_id : string;
  image_asset_id : string;
  video_asset_id : string;
  image_fingerprint : string;
  threshold : Num;
  priority : Num;
  pair_is_active : Z;
}.

Record World := {
  users : list UserRow;
  sessions : list SessionRow;
  pairs : list PairRow;
}.

Definition H := M World.

Definition set_sessions (f : list SessionRow -> list SessionRow) : H unit :=
  modify (fun w => {| users := users w; sessions := f (sessions w); pairs := pairs w |}).

Definition set_pairs (f : list PairRow -> list PairRow) : H unit :=
  modify (fun w => {| users := users w; sessions := sessions w; pairs := f (pairs w) |}).

Definition jsonResponse (data : JsValue) (code : Z) : Response := json data code.

Definition errorResponse (message : string) (code : Z) : Response :=
  jsonResponse (JObj [("error", JStr message)]) code.

Definition invalid_credentials : Response := errorResponse "Invalid credentials" 401.

(** An exception that leaves [fetch]: this worker has no [catch]. *)
Definition uncaught : Response := {| status := 500; payload := PEmpty |}.

(** [s.includes(t)] *)
Fixpoint includes (s t : string) : bool :=
  match strip_prefix t s with
  | Some _ => true
  | None => match s with
            | EmptyString => false
            | String _ r => includes r t
            end
  end.

(** [parseJsonBody]: [null] unless the content type names JSON and the body
    parses. *)
Definition parseJsonBody (request : Request) : JsValue :=
  match header_content_type request with
  | Some ct =>
      if includes ct "application/json" then default JNull (json_parse (body request))
      else JNull
  | None => JNull
  end.

(** The cookie branch of [parseAuthToken]: the value of the first
    [session_token] pair ([undefined], here [None], when it has no [=]). *)
Fixpoint cookie_token (parts : list string) : option string :=
  match parts with
  | [] => None
  | part :: rest =>
      match split_on "=" (trim part) with
      | key :: more =>
          if bool_decide (key = "session_token") then List.head more
          else cookie_token rest
      | [] => cookie_token rest
      end
  end.

Definition parseAuthToken (request : Request) : option string :=
  match header_authorization request ≫= strip_prefix "Bearer " with
  | Some rest => Some (trim rest)
  | None =>
      match header_cookie request with
      | Some cookie => if str_truthy cookie then cookie_token (split_on ";" cookie) else None
      | None => None
      end
  end.

Definition hashPassword (password salt : string) : string :=
  sha256Hex (salt +:+ ":" +:+ password).

Definition find_user_by_email (e : string) (us : list UserRow) : option UserRow :=
  List.find (fun u => bool_decide (user_email u = e)) us.

Definition find_user (id : string) (us : list UserRow) : option UserRow :=
  List.find (fun u => bool_decide (user_id u = id)) us.

Definition find_session (t : string) (ss : list SessionRow) : option SessionRow :=
  List.find (fun s => bool_decide (token s = t)) ss.

(** [requireAuth]: the session row of the token, dropped when it has expired,
    then its active user. *)
Definition requireAuth (amb : Ambient) (request : Request) : H (option UserRow) :=
  match parseAuthToken request with
  | None => ret None
  | Some t =>
      if negb (str_truthy t) then ret None
      else
        w <- get ;;
        match find_session t (sessions w) with
        | None => ret None
        | Some session =>
            if (expires_at session <? now_ms amb)%Z then
              set_sessions (List.filter (fun s => negb (bool_decide (token s = t)))) ;;;
              ret None
            else
              match find_user (session_user_id session) (users w) with
              | Some user =>
                  if bool_decide (user_is_active user = 0%Z) then ret None
                  else ret (Some user)
              | None => ret None
              end
        end
  end.

(** [POST /auth/login] *)
Definition auth_login (amb : Ambient) (request : Request) : H Response :=
  let b := parseJsonBody request in
  if negb (truthy b) then ret (errorResponse "Expected JSON body" 400)
  else
    match assertString (prop b "email"), assertString (prop b "password") with
    | Some email, Some password =>
        w <- get ;;
        match find_user_by_email email (users w) with
        | None => ret invalid_credentials
        | Some user =>
            if bool_decide (user_is_active user = 0%Z) then ret invalid_credentials
            else if negb (bool_decide (hashPassword password (password_salt user)
                                       = password_hash user)) then
              ret invalid_credentials
            else
              let tok := random_token amb in
              let expires := (now_ms amb + 1000 * 60 * 60 * 24 * 7)%Z in
              set_sessions (fun l => l ++ [{| token := tok; session_user_id := user_id user;
                                              created_at := now_iso amb;
                                              expires_at := expires |}]) ;;;
              ret (jsonResponse (JObj [("token", JStr tok)]) 200)
        end
    | _, _ => ret (errorResponse "Missing email or password" 400)
    end.

Definition find_pair (id : string) (ps : list PairRow) : option PairRow :=
  List.find (fun r => bool_decide (pair_id r = id)) ps.

(** The [updates]/[binds] lists of [PUT /pairs/:id]: one assignment for each
    of the three fields whose value has the right [typeof]. *)
Definition patch_is_active (b : JsValue) : option Z :=
  match prop b "is_active" with
  | JBool true => Some 1%Z
  | JBool false => Some 0%Z
  | _ => None
  end.

Definition patch_num (b : JsValue) (k : string) : option Num :=
  match prop b k with
  | JNum n => Some n
  | _ => None
  end.

(** [UPDATE pairs SET <updates> WHERE id = ?] *)
Definition apply_updates (b : JsValue) (r : PairRow) : PairRow :=
  {| pair_id := pair_id r; experience_id := experience_id r;
     image_asset_id := image_asset_id r; video_asset_id := video_asset_id r;
     image_fingerprint := image_fingerprint r;
     threshold := default (threshold r) (patch_num b "threshold");
     priority := default (priority r) (patch_num b "priority");
     pair_is_active := default (pair_is_active r) (patch_is_active b) |}.

Definition pair_json (r : PairRow) (fingerprint : JsValue) : JsValue :=
  JObj [("id", JStr (pair_id r)); ("experience_id", JStr (experience_id r));
        ("image_asset_id", JStr (image_asset_id r));
        ("video_asset_id", JStr (video_asset_id r));
        ("image_fingerprint", fingerprint);
        ("threshold", JNum (threshold r)); ("priority", JNum (priority r));
        ("is_active", JBool (negb (bool_decide (pair_is_active r = 0%Z))))].

(** [PUT /pairs/:id]; [pairId] is [path.split("/")[2]]. *)
Definition pairs_put (amb : Ambient) (request : Request) : H Response :=
  user <- requireAuth amb request ;;
  match user with
  | None => ret (errorResponse "Unauthorized" 401)
  | Some _ =>
      let pairId := default "" (split_on "/" (pathname request) !! 2%nat) in
      if negb (str_truthy pairId) then ret (errorResponse "Missing pair id" 400)
      else
        let b := parseJsonBody request in
        if negb (truthy b) then ret (errorResponse "Expected JSON body" 400)
        else if negb (bool_decide (is_Some (patch_is_active b)))
                && negb (bool_decide (is_Some (patch_num b "threshold")))
                && negb (bool_decide (is_Some (patch_num b "priority")))
        then ret (errorResponse "No updates provided" 400)
        else
          set_pairs (List.map (fun r => if bool_decide (pair_id r = pairId)
                                        then apply_updates b r else r)) ;;;
          w <- get ;;
          match find_pair pairId (pairs w) with
          | None => ret (errorResponse "Not found" 404)
          | Some updated =>
              match json_parse (image_fingerprint updated) with
              | Some fp => ret (jsonResponse (pair_json updated fp) 200)
              | None => ret uncaught
              end
          end
  end.

(** ** Notions used to state the properties *)

(** The spec's reasons to refuse a login: the email is unknown, the user is
    inactive, or the salted hash of the password is not the stored one. *)
Definition credentials_rejected (us : list UserRow) (email password : string) : Prop :=
  match find_user_by_email email us with
  | None => True
  | Some user =>
      user_is_active user = 0%Z
      \/ hashPassword password (password_salt user) <> password_hash user
  end.

(** Seven days, in milliseconds. *)
Definition seven_days_ms : Z := 7 * 24 * 60 * 60 * 1000.

End Worker.
End Session.

(** * A runtime to run the workers on

    Numbers are thousandths held in [Z] (no value: NaN); the MAC and the hash
    are readable stand-ins; the JSON reader knows the documents of the
    examples below, each under the text the printer gives it. *)
Module TestRuntime.

Definition z_to_string (z : Z) : string :=
  DecimalString.NilZero.string_of_int (Z.to_int z).

Definition strip_zeros (s : string) : string :=
  String.rev ((fix go (r : string) : string :=
                 match r with
                 | String a r' => if decide (a = "0"%char) then go r' else r
                 | EmptyString => EmptyString
                 end) (String.rev s)).

Definition milli_to_string (z : Z) : string :=
  let a := Z.abs z in
  let whole := z_to_string (a / 1000) in
  let frac := (a mod 1000)%Z in
  let sign := if (z <? 0)%Z then "-" else "" in
  if (frac =? 0)%Z then sign +:+ whole
  else
    let digits := z_to_string (1000 + frac) in
    sign +:+ whole +:+ "." +:+ strip_zeros (default "" (strip_prefix "1" digits)).

Definition milli_of_string (s : string) : option Z :=
  let t := trim s in
  if str_truthy t then
    (fun i => 1000 * Z.of_int i)%Z <$> DecimalString.NilZero.int_of_string t
  else Some 0%Z.

#[export] Instance numbers : JsNumber := {|
  Num := option Z;
  num_of_Z := fun z => Some (1000 * z)%Z;
  num_0_8 := Some 800%Z;
  num_nan := None;
  num_truthy := fun n => match n with Some z => negb (z =? 0)%Z | None => false end;
  num_to_string := fun n => match n with Some z => milli_to_string z | None => "NaN" end;
  num_of_string := milli_of_string;
  num_ltb := fun a b => match a, b with Some x, Some y => (x <? y)%Z | _, _ => false end;
|}.

Definition quote : string := String (ascii_of_nat 34) EmptyString.

Fixpoint stringify (v : JsValue) : string :=
  match v with
  | JUndefined | JNull => "null"
  | JBool true => "true"
  | JBool false => "false"
  | JNum n => num_to_string n
  | JStr s => quote +:+ s +:+ quote
  | JArr items =>
      "[" +:+ (fix join (l : list JsValue) : string :=
                 match l with
                 | [] => ""
                 | x :: rest =>
                     match rest with
                     | [] => stringify x
                     | _ :: _ => stringify x +:+ "," +:+ join rest
                     end
                 end) items +:+ "]"
  | JObj fields =>
      "{" +:+ (fix join (l : list (string * JsValue)) : string :=
                 match l with
                 | [] => ""
                 | (k, x) :: rest =>
                     let one := quote +:+ k +:+ quote +:+ ":" +:+ stringify x in
                     match rest with
                     | [] => one
                     | _ :: _ => one +:+ "," +:+ join rest
                     end
                 end) fields +:+ "}"
  end.

(** U+00A0 (no-break space) and U+3000 (ideographic space) in UTF-8. *)
Definition nbsp : string := String (ascii_of_nat 194) (String (ascii_of_nat 160) EmptyString).

Definition ideographic_space : string :=
  String (ascii_of_nat 227) (String (ascii_of_nat 128) (String (ascii_of_nat 128) EmptyString)).

(** The request bodies and stored documents of the examples. *)
Definition documents : list JsValue :=
  [ JObj [("pairId", JStr "p1"); ("error", JStr "timeout")];
    JObj [("pairId", JStr "p1"); ("mindAssetId", JStr "mind1")];
    JObj [("pairId", JStr "p1"); ("image_asset_id", JStr "img1")];
    JObj [("image_asset_id", JStr "img2")];
    JObj [("image_asset_id", JStr "   ")];
    JObj [("priority", JNum (num_of_Z 5))];
    JObj [("experience_id", JStr "e2")];
    JObj [("image_asset_id", JStr "img1"); ("video_asset_id", JStr "vid1")];
    JObj [("email", JStr "admin@local"); ("password", JStr "admin123")];
    JObj [("email", JStr "ann@example.org"); ("password", JStr "hunter2")];
    JObj [("email", JStr "admin@local"); ("iat", JNum (num_of_Z 1770199200));
          ("exp", JNum (num_of_Z 1770804000))];
    JObj [("email", JStr "nobody@example.org")];
    JObj [("pairId", JStr "p1"); ("mindAssetId", JStr "   ")];
    JObj [("image_asset_id", JStr "")];
    JObj [("name", JStr "Second")];
    JObj [("v", JNum (num_of_Z 1))];
    JObj [("pairId", JStr "p1"); ("mindAssetId", JStr nbsp)];
    JObj [("pairId", JStr "p1"); ("mindAssetId", JStr (nbsp +:+ "mind1"))];
    JObj [("pairId", JStr nbsp); ("image_asset_id", JStr "img1")];
    JObj [("image_asset_id", JStr ideographic_space)];
    JObj [("email", JStr (nbsp +:+ "Admin@Local")); ("password", JStr "admin123")];
    JObj [("email", JStr (nbsp +:+ "ann@example.org")); ("password", JStr "hunter2")];
    JObj [("email", JStr nbsp); ("password", JStr "hunter2")];
    JObj [("email", JObj [("toString", JNull)]); ("password", JStr "admin123")] ].

Definition parse (s : string) : option JsValue :=
  List.find (fun v => bool_decide (stringify v = s)) documents.

Definition mac (secret data : string) : string := "mac(" +:+ secret +:+ "," +:+ data +:+ ")".

Definition mac_nonempty secret data : mac secret data <> "".
Proof. discriminate. Qed.

#[export] Instance runtime : Runtime := {|
  hmacSign := mac;
  hmacSign_nonempty := mac_nonempty;
  sha256Hex := fun s => "sha256(" +:+ s +:+ ")";
  json_stringify := stringify;
  json_parse := parse;
  decodeURIComponent := Some;
  encodeURIComponent := fun s => s;
  base64urlEncodeText := fun s => s;
  base64urlDecodeToText := Some;
  toLowerCase := lower_ascii;
  toLowerCase_ascii := fun s _ => eq_refl;
|}.

End TestRuntime.

(** * Example data *)
Module Examples.
Import TestRuntime.

Definition env0 : Staging.Env :=
  {| Staging.NODE_ENV := None; Staging.SESSION_SECRET := None;
     Staging.SIGNING_SECRET := Some "s3cret";
     Staging.MINDAR_JOB_SECRET := Some "job-secret";
     Staging.GITHUB_TOKEN := None; Staging.GITHUB_REPO := None;
     Staging.GITHUB_REF := None |}.

Definition amb0 : Staging.Ambient :=
  {| Staging.now_iso := "2026-02-04T10:00:00.000Z"; Staging.now_seconds := 1770199200;
     Staging.uuid_1 := "11111111-2222-3333-4444-555555555555";
     Staging.uuid_2 := "ab12cd34-ef56-7890-aaaa-bbbbbbbbbbbb";
     Staging.github := Staging.GhAccepted |}.

Definition empty_world : Staging.World :=
  {| Staging.experiences := []; Staging.assets := []; Staging.pairs := [];
     Staging.bucket := ∅; Staging.journal := [] |}.

(** [PUT /uploads/put/image/k.png?token=...] with the signature of its key. *)
Definition signed_put : Staging.Request :=
  {| Staging.method := "PUT"; Staging.pathname := "/uploads/put/image/k.png";
     Staging.origin := "https://api.example";
     Staging.header_authorization := None; Staging.header_x_job_secret := None;
     Staging.query_token := Some (Staging.buildUploadToken env0 "image/k.png");
     Staging.query_mime := Some "image/png";
     Staging.body := "PNGDATA" |}.

(** The scenario of the spec: experience "Demo" under the code [ab12cd34ef],
    one pair binding [img1] and [vid1]. *)
Definition demo : Staging.ExperienceRow :=
  {| Staging.exp_id := "e1"; Staging.exp_name := "Demo"; Staging.exp_qr_id := "ab12cd34ef";
     Staging.exp_is_active := 1; Staging.exp_created_at := "2026-02-01T00:00:00.000Z";
     Staging.exp_updated_at := "2026-02-01T00:00:00.000Z" |}.

Definition pair_p1 (st : string) (target err : option string) : Staging.PairRow :=
  {| Staging.pair_id := "p1"; Staging.experience_id := "e1";
     Staging.image_asset_id := "img1"; Staging.video_asset_id := "vid1";
     Staging.mind_target_asset_id := target;
     Staging.mind_target_status := Some st;
     Staging.mind_target_error := err;
     Staging.mind_target_requested_at := Some "2026-02-01T00:00:01.000Z";
     Staging.mind_target_completed_at := None;
     Staging.image_fingerprint := None;
     Staging.threshold := num_0_8; Staging.priority := num_of_Z 0;
     Staging.pair_is_active := 1 |}.

Definition world_with (p : Staging.PairRow) : Staging.World :=
  {| Staging.experiences := [demo]; Staging.assets := []; Staging.pairs := [p];
     Staging.bucket := ∅; Staging.journal := [] |}.

Definition world_pending := world_with (pair_p1 "pending" None None).
Definition world_ready := world_with (pair_p1 "ready" (Some "mind1") None).
Definition world_failed := world_with (pair_p1 "failed" None (Some "timeout")).

Definition request (m path : string) (auth secret : option string) (doc : JsValue)
  : Staging.Request :=
  {| Staging.method := m; Staging.pathname := path;
     Staging.origin := "https://api.example";
     Staging.header_authorization := auth; Staging.header_x_job_secret := secret;
     Staging.query_token := None; Staging.query_mime := None;
     Staging.body := stringify doc |}.

(** The job reporting back, with the shared secret. *)
Definition callback (doc : JsValue) : Staging.Request :=
  request "POST" "/jobs/mindar/complete" None (Some "job-secret") doc.

(** The admin UI, signed in. *)
Definition admin_token : string :=
  Staging.issueToken env0 amb0 {| Staging.email := JStr "admin@local" |}.

Definition admin (m path : string) (doc : JsValue) : Staging.Request :=
  request m path (Some ("Bearer " +:+ admin_token)) None doc.

Definition retry_p1 : Staging.Request :=
  admin "POST" "/jobs/mindar/dispatch"
    (JObj [("pairId", JStr "p1"); ("image_asset_id", JStr "img1")]).

Definition put_p1 (doc : JsValue) : Staging.Request := admin "PUT" "/pairs/p1" doc.

Definition login_admin : Staging.Request :=
  request "POST" "/auth/login" None None
    (JObj [("email", JStr "admin@local"); ("password", JStr "admin123")]).

(** A worker that can reach GitHub. *)
Definition env_github : Staging.Env :=
  {| Staging.NODE_ENV := None; Staging.SESSION_SECRET := None;
     Staging.SIGNING_SECRET := Some "s3cret";
     Staging.MINDAR_JOB_SECRET := Some "job-secret";
     Staging.GITHUB_TOKEN := Some "ghp_token"; Staging.GITHUB_REPO := Some "acme/vidcom";
     Staging.GITHUB_REF := None |}.

Definition scan (code : string) : Staging.Request :=
  request "GET" ("/public/experience/" +:+ code) None None JNull.

(** The job's credentials on an admin route: create an experience. *)
Definition create_by_job : Staging.Request :=
  request "POST" "/experiences" None (Some "job-secret") (JObj [("name", JStr "Second")]).

Definition create_by_nobody : Staging.Request :=
  request "POST" "/experiences" None None (JObj [("name", JStr "Second")]).

Definition callback_error := callback (JObj [("pairId", JStr "p1"); ("error", JStr "timeout")]).
Definition callback_ready := callback (JObj [("pairId", JStr "p1"); ("mindAssetId", JStr "mind1")]).

(** GitHub out of reach: the dispatch request ends in an exception. *)
Definition amb_offline : Staging.Ambient :=
  {| Staging.now_iso := "2026-02-04T10:00:00.000Z"; Staging.now_seconds := 1770199200;
     Staging.uuid_1 := "11111111-2222-3333-4444-555555555555";
     Staging.uuid_2 := "ab12cd34-ef56-7890-aaaa-bbbbbbbbbbbb";
     Staging.github := Staging.GhThrows "Network connection lost." |}.

(** GitHub refusing the dispatch request. *)
Definition amb_refused : Staging.Ambient :=
  {| Staging.now_iso := "2026-02-04T10:00:00.000Z"; Staging.now_seconds := 1770199200;
     Staging.uuid_1 := "11111111-2222-3333-4444-555555555555";
     Staging.uuid_2 := "ab12cd34-ef56-7890-aaaa-bbbbbbbbbbbb";
     Staging.github := Staging.GhRefused |}.

(** Six days after the login of the examples. *)
Definition six_days_later : Staging.Ambient :=
  {| Staging.now_iso := "2026-02-10T10:00:00.000Z";
     Staging.now_seconds := 1770199200 + 6 * 86400;
     Staging.uuid_1 := ""; Staging.uuid_2 := ""; Staging.github := Staging.GhAccepted |}.

(** The session worker: one active user, [ann]. *)
Definition ann : Session.UserRow :=
  {| Session.user_id := "u1"; Session.user_email := "ann@example.org";
     Session.password_hash := Session.hashPassword "hunter2" "salt1";
     Session.password_salt := "salt1"; Session.role := "admin";
     Session.user_is_active := 1 |}.

Definition session_world : Session.World :=
  {| Session.users := [ann]; Session.sessions := []; Session.pairs := [] |}.

Definition session_amb : Session.Ambient :=
  {| Session.now_ms := 1770199200000; Session.now_iso := "2026-02-04T10:00:00.000Z";
     Session.random_token := "tok-1" |}.

Definition session_login (doc : JsValue) : Session.Request :=
  {| Session.method := "POST"; Session.pathname := "/auth/login";
     Session.header_authorization := None; Session.header_cookie := None;
     Session.header_content_type := Some "application/json";
     Session.body := stringify doc |}.

Definition login_ann : Session.Request :=
  session_login (JObj [("email", JStr "ann@example.org"); ("password", JStr "hunter2")]).

End Examples.

(** * More example data: the upload pipeline *)
Module Pipeline.
Import TestRuntime Examples.

Definition sign_doc : JsValue :=
  JObj [("kind", JStr "image"); ("filename", JStr "My Photo.png"); ("mime", JStr "image/png")].

Definition complete_doc : JsValue :=
  JObj [("kind", JStr "image"); ("r2Key", JStr "image/k.png"); ("mime", JStr "image/jpeg")].

(** The parser of the examples, knowing the two bodies above as well. *)
Definition parse_more (s : string) : option JsValue :=
  match parse s with
  | Some v => Some v
  | None => List.find (fun v => bool_decide (stringify v = s)) [sign_doc; complete_doc]
  end.

Definition runtime_more : Runtime := {|
  hmacSign := mac;
  hmacSign_nonempty := mac_nonempty;
  sha256Hex := fun s => "sha256(" +:+ s +:+ ")";
  json_stringify := stringify;
  json_parse := parse_more;
  decodeURIComponent := Some;
  encodeURIComponent := fun s => s;
  base64urlEncodeText := fun s => s;
  base64urlDecodeToText := Some;
  toLowerCase := lower_ascii;
  toLowerCase_ascii := fun s _ => eq_refl;
|}.

Definition sign_photo : Staging.Request := admin "POST" "/uploads/sign" sign_doc.

(** The upload that [sign_photo] was given the URL of, sent with no
    credential but the token in the URL. *)
Definition put_photo : Staging.Request :=
  {| Staging.method := "PUT";
     Staging.pathname := "/uploads/put/image/11111111-2222-3333-4444-555555555555-My_Photo.png";
     Staging.origin := "https://api.example";
     Staging.header_authorization := None; Staging.header_x_job_secret := None;
     Staging.query_token :=
       Some (Staging.buildUploadToken env0
               "image/11111111-2222-3333-4444-555555555555-My_Photo.png");
     Staging.query_mime := Some "image/png";
     Staging.body := "PNGDATA" |}.

Definition complete_k : Staging.Request := admin "POST" "/uploads/complete" complete_doc.

(** The bucket after [signed_put]. *)
Definition world_uploaded : Staging.World :=
  {| Staging.experiences := []; Staging.assets := []; Staging.pairs := [];
     Staging.bucket := {[ "image/k.png" := ("PNGDATA", "image/png") ]};
     Staging.journal := [] |}.

(** A request for an asset with the token of its links. *)
Definition asset_link (id : string) : Staging.Request :=
  {| Staging.method := "GET"; Staging.pathname := "/assets/" +:+ id;
     Staging.origin := "https://api.example";
     Staging.header_authorization := None; Staging.header_x_job_secret := None;
     Staging.query_token := Some (Staging.buildAssetToken env0 id);
     Staging.query_mime := None;
     Staging.body := "" |}.

End Pipeline.

(** * Upload tokens *)
Section UploadFacts.
Context `{RT : Runtime}.

Lemma str_truthy_true (s : string) : str_truthy s = true <-> s <> "".
Proof.
  unfold str_truthy. rewrite negb_true_iff, bool_decide_eq_false. reflexivity.
Qed.

Lemma str_truthy_false (s : string) : str_truthy s = false <-> s = "".
Proof.
  unfold str_truthy. rewrite negb_false_iff, bool_decide_eq_true. reflexivity.
Qed.

(** The token check accepts exactly the recomputed signature. *)
Lemma verifyUploadToken_spec env r2Key token :
  Staging.verifyUploadToken env r2Key token = true
  <-> token = Some (Staging.buildUploadToken env r2Key).
Proof.
  unfold Staging.verifyUploadToken. destruct token as [t|]; [|split; discriminate].
  destruct (str_truthy t) eqn:Ht.
  - rewrite bool_decide_eq_true. split; [intros ->; reflexivity | congruence].
  - apply str_truthy_false in Ht. subst t. split; [discriminate|].
    intros [= Heq]. symmetry in Heq.
    exfalso. exact (hmacSign_nonempty _ _ Heq).
Qed.

Lemma uploads_put_valid env request rest r2Key w :
  decodeURIComponent rest = Some r2Key -> r2Key <> "" ->
  Staging.query_token request = Some (Staging.buildUploadToken env r2Key) ->
  (Staging.uploads_put env request rest w).1 = Staging.upload_ok r2Key
  /\ Staging.bucket (Staging.uploads_put env request rest w).2
     = <[r2Key := (Staging.body request,
                   or_str (Staging.query_mime request) "application/octet-stream")]>
         (Staging.bucket w).
Proof.
  intros Hdec Hkey Htok. unfold Staging.uploads_put. rewrite Hdec.
  apply str_truthy_true in Hkey. rewrite Hkey. cbn [negb].
  apply verifyUploadToken_spec in Htok. rewrite Htok. cbn. split; reflexivity.
Qed.

Lemma uploads_put_invalid env request rest r2Key w :
  decodeURIComponent rest = Some r2Key -> r2Key <> "" ->
  Staging.query_token request <> Some (Staging.buildUploadToken env r2Key) ->
  Staging.uploads_put env request rest w = (Staging.unauthorized, w).
Proof.
  intros Hdec Hkey Htok. unfold Staging.uploads_put. rewrite Hdec.
  apply str_truthy_true in Hkey. rewrite Hkey. cbn [negb].
  destruct (Staging.verifyUploadToken env r2Key (Staging.query_token request)) eqn:Hv.
  - apply verifyUploadToken_spec in Hv. contradiction.
  - reflexivity.
Qed.

(** C7 (as amended).  For a key and a token, [putUpload] stores the body under
    the key and answers success exactly when the token is the recomputed
    HMAC signature of ["upload:" + key]; any other token is turned away with
    401 Unauthorized and nothing is stored.  A valid signature is accepted
    every time it is presented, whatever was uploaded before: presenting it
    again succeeds again. *)
Theorem uploads_put_signature_gate env request rest r2Key :
  decodeURIComponent rest = Some r2Key -> r2Key <> "" ->
  (forall w,
      ((Staging.uploads_put env request rest w).1 = Staging.upload_ok r2Key
       /\ Staging.bucket (Staging.uploads_put env request rest w).2 !! r2Key
          = Some (Staging.body request,
                  or_str (Staging.query_mime request) "application/octet-stream"))
      <-> Staging.query_token request = Some (Staging.buildUploadToken env r2Key))
  /\ (forall w,
      Staging.query_token request <> Some (Staging.buildUploadToken env r2Key) ->
      Staging.uploads_put env request rest w = (Staging.unauthorized, w))
  /\ (forall w,
      Staging.query_token request = Some (Staging.buildUploadToken env r2Key) ->
      let w1 := (Staging.uploads_put env request rest w).2 in
      (Staging.uploads_put env request rest w).1 = Staging.upload_ok r2Key
      /\ (Staging.uploads_put env request rest w1).1 = Staging.upload_ok r2Key).
Proof.
  intros Hdec Hkey. split; [|split].
  - intros w. split.
    + intros [Hresp _].
      destruct (decide (Staging.query_token request
                        = Some (Staging.buildUploadToken env r2Key))) as [|Hne]; [assumption|].
      rewrite (uploads_put_invalid _ _ _ _ w Hdec Hkey Hne) in Hresp. discriminate.
    + intros Htok. destruct (uploads_put_valid _ _ _ _ w Hdec Hkey Htok) as [-> ->].
      split; [reflexivity | apply lookup_insert_eq].
  - intros w Hne. exact (uploads_put_invalid _ _ _ _ w Hdec Hkey Hne).
  - intros w Htok. cbn zeta. split.
    + exact (proj1 (uploads_put_valid _ _ _ _ w Hdec Hkey Htok)).
    + exact (proj1 (uploads_put_valid _ _ _ _ _ Hdec Hkey Htok)).
Qed.

End UploadFacts.

Module UploadExamples.
Import TestRuntime.

Lemma uploads_put_signature_gate_witness :
  decodeURIComponent "image/k.png" = Some "image/k.png" /\ "image/k.png" <> ""
  /\ (Staging.uploads_put Examples.env0 Examples.signed_put "image/k.png"
        Examples.empty_world).1 = Staging.upload_ok "image/k.png".
Proof.
  split; [reflexivity|]. split; [discriminate|].
  pose proof (uploads_put_signature_gate Examples.env0 Examples.signed_put
                "image/k.png" "image/k.png" eq_refl ltac:(discriminate)) as (_ & _ & Hok).
  exact (proj1 (Hok Examples.empty_world eq_refl)).
Defined.

(** The claim's "exactly once" fails: the second presentation of a signature
    is accepted like the first, and overwrites the object. *)
Lemma upload_signature_accepted_twice :
  let first := Staging.uploads_put Examples.env0 Examples.signed_put "image/k.png"
                 Examples.empty_world in
  let second := Staging.uploads_put Examples.env0 Examples.signed_put "image/k.png" first.2 in
  status first.1 = 200%Z /\ status second.1 = 200%Z
  /\ Staging.journal second.2
     = [Staging.EvBucketPut "image/k.png"; Staging.EvBucketPut "image/k.png"].
Proof. cbn zeta. repeat split. Qed.

End UploadExamples.

(** * The pairs table under the statements of the staging worker *)
Section PairTable.
Context `{RT : Runtime}.

Lemma find_pair_update id id' f ps :
  (forall r, Staging.pair_id (f r) = Staging.pair_id r) ->
  Staging.find_pair id' (Staging.update_where_id id f ps)
  = (fun r => if bool_decide (Staging.pair_id r = id) then f r else r)
      <$> Staging.find_pair id' ps.
Proof.
  intros Hid. unfold Staging.find_pair, Staging.update_where_id.
  induction ps as [|r ps IH]; [reflexivity|]. cbn [List.map List.find].
  assert (Staging.pair_id (if bool_decide (Staging.pair_id r = id) then f r else r)
          = Staging.pair_id r) as ->.
  { destruct (bool_decide (Staging.pair_id r = id)); [apply Hid | reflexivity]. }
  destruct (bool_decide (Staging.pair_id r = id')); [reflexivity | exact IH].
Qed.

Lemma find_pair_id id ps r : Staging.find_pair id ps = Some r -> Staging.pair_id r = id.
Proof.
  unfold Staging.find_pair. intros Hf. apply List.find_some in Hf as [_ Hb].
  apply bool_decide_eq_true in Hb. exact Hb.
Qed.

Lemma find_pair_update_same id f ps :
  (forall r, Staging.pair_id (f r) = Staging.pair_id r) ->
  Staging.find_pair id (Staging.update_where_id id f ps) = f <$> Staging.find_pair id ps.
Proof.
  intros Hid. rewrite find_pair_update by exact Hid.
  destruct (Staging.find_pair id ps) as [r|] eqn:Hf; [|reflexivity].
  cbn. apply find_pair_id in Hf. rewrite bool_decide_eq_true_2 by exact Hf. reflexivity.
Qed.

Lemma find_pair_update_other id id' f ps :
  (forall r, Staging.pair_id (f r) = Staging.pair_id r) -> id' <> id ->
  Staging.find_pair id' (Staging.update_where_id id f ps) = Staging.find_pair id' ps.
Proof.
  intros Hid Hne. rewrite find_pair_update by exact Hid.
  destruct (Staging.find_pair id' ps) as [r|] eqn:Hf; [|reflexivity].
  cbn. apply find_pair_id in Hf. rewrite bool_decide_eq_false_2 by congruence. reflexivity.
Qed.

End PairTable.

(** * The completion callback *)
Section CallbackFacts.
Context `{RT : Runtime}.

Lemma complete_with_error env amb request w msg :
  Staging.isJobSecretValid env request = true ->
  Staging.callback_throws (Staging.readBodyAny request) = false ->
  Staging.str_field (Staging.readBodyAny request) "pairId" "" <> "" ->
  Staging.errorMessage_of (Staging.readBodyAny request) = msg -> msg <> "" ->
  Staging.jobs_mindar_complete env amb request w
  = (json (JObj [("ok", JBool false); ("error", JStr msg); ("build", JStr Staging.BUILD)]) 200,
     (Staging.sql_complete_failed msg (Staging.now_iso amb)
        (Staging.str_field (Staging.readBodyAny request) "pairId" "") w).2).
Proof.
  intros Hsec Hthrow Hid Hmsg Hne. unfold Staging.jobs_mindar_complete.
  rewrite Hsec, Hthrow. cbn [negb]. apply str_truthy_true in Hid. rewrite Hid. cbn [negb].
  rewrite Hmsg. apply str_truthy_true in Hne. rewrite Hne. cbn [orb or_str]. rewrite Hne.
  reflexivity.
Qed.

Lemma complete_with_target env amb request w m :
  Staging.isJobSecretValid env request = true ->
  Staging.callback_throws (Staging.readBodyAny request) = false ->
  Staging.str_field (Staging.readBodyAny request) "pairId" "" <> "" ->
  truthy (prop (Staging.readBodyAny request) "error") = false ->
  Staging.str_field (Staging.readBodyAny request) "mindAssetId" "" = m -> m <> "" ->
  Staging.jobs_mindar_complete env amb request w
  = (json (JObj [("ok", JBool true); ("build", JStr Staging.BUILD)]) 200,
     (Staging.sql_complete_ready m (Staging.now_iso amb)
        (Staging.str_field (Staging.readBodyAny request) "pairId" "") w).2).
Proof.
  intros Hsec Hthrow Hid Herr Hm Hne. unfold Staging.jobs_mindar_complete.
  rewrite Hsec, Hthrow. cbn [negb]. apply str_truthy_true in Hid. rewrite Hid. cbn [negb].
  unfold Staging.errorMessage_of. rewrite Herr, Hm.
  apply str_truthy_true in Hne. rewrite Hne. reflexivity.
Qed.

Lemma complete_without_target env amb request w :
  Staging.isJobSecretValid env request = true ->
  Staging.callback_throws (Staging.readBodyAny request) = false ->
  Staging.str_field (Staging.readBodyAny request) "pairId" "" <> "" ->
  truthy (prop (Staging.readBodyAny request) "error") = false ->
  Staging.str_field (Staging.readBodyAny request) "mindAssetId" "" = "" ->
  Staging.jobs_mindar_complete env amb request w
  = (json (JObj [("ok", JBool false); ("error", JStr "MindAR generation failed");
                 ("build", JStr Staging.BUILD)]) 200,
     (Staging.sql_complete_failed "MindAR generation failed" (Staging.now_iso amb)
        (Staging.str_field (Staging.readBodyAny request) "pairId" "") w).2).
Proof.
  intros Hsec Hthrow Hid Herr Hm. unfold Staging.jobs_mindar_complete.
  rewrite Hsec, Hthrow. cbn [negb]. apply str_truthy_true in Hid. rewrite Hid. cbn [negb].
  unfold Staging.errorMessage_of. rewrite Herr, Hm. reflexivity.
Qed.

(** C3 (as amended).  A completion callback that carries the job secret, whose
    fields convert to text and whose pair id, trimmed, is not blank and names
    a pair: with a non-empty [error] string the pair becomes [failed], its
    [mind_target_error] is that very string, untrimmed, and
    [mind_target_completed_at] is the time of the call; with no error and a
    [mindAssetId] that is not blank once converted to text and trimmed, the
    pair becomes [ready], bound to that trimmed id, with the error cleared and
    the completion time set. *)
Theorem completion_callback_records_outcome env amb request w pairId existing :
  Staging.isJobSecretValid env request = true ->
  Staging.callback_throws (Staging.readBodyAny request) = false ->
  Staging.str_field (Staging.readBodyAny request) "pairId" "" = pairId -> pairId <> "" ->
  Staging.find_pair pairId (Staging.pairs w) = Some existing ->
  let b := Staging.readBodyAny request in
  let w' := (Staging.jobs_mindar_complete env amb request w).2 in
  (forall e, prop b "error" = JStr e -> e <> "" ->
     exists r', Staging.find_pair pairId (Staging.pairs w') = Some r'
       /\ Staging.mind_target_status r' = Some "failed"
       /\ Staging.mind_target_error r' = Some e
       /\ Staging.mind_target_completed_at r' = Some (Staging.now_iso amb))
  /\ (forall m, truthy (prop b "error") = false ->
      Staging.str_field b "mindAssetId" "" = m -> m <> "" ->
     exists r', Staging.find_pair pairId (Staging.pairs w') = Some r'
       /\ Staging.mind_target_status r' = Some "ready"
       /\ Staging.mind_target_asset_id r' = Some m
       /\ Staging.mind_target_error r' = None
       /\ Staging.mind_target_completed_at r' = Some (Staging.now_iso amb)).
Proof.
  intros Hsec Hthrow Hid Hne Hfind b w'. subst b w'. split.
  - intros e He Hene.
    assert (Staging.errorMessage_of (Staging.readBodyAny request) = e) as Hmsg.
    { unfold Staging.errorMessage_of. rewrite He. cbn.
      apply str_truthy_true in Hene. rewrite Hene. reflexivity. }
    rewrite (complete_with_error env amb request w e Hsec Hthrow)
      by (rewrite ?Hid; assumption).
    rewrite Hid.
    change (Staging.pairs (_, (Staging.sql_complete_failed e (Staging.now_iso amb) pairId w).2).2)
      with (Staging.update_where_id pairId (Staging.complete_failed e (Staging.now_iso amb))
              (Staging.pairs w)).
    rewrite find_pair_update_same by reflexivity. rewrite Hfind. cbn.
    eexists. repeat split.
  - intros m Herr Hm Hmne.
    rewrite (complete_with_target env amb request w m Hsec Hthrow)
      by (rewrite ?Hid; assumption).
    rewrite Hid.
    change (Staging.pairs (_, (Staging.sql_complete_ready m (Staging.now_iso amb) pairId w).2).2)
      with (Staging.update_where_id pairId (Staging.complete_ready m (Staging.now_iso amb))
              (Staging.pairs w)).
    rewrite find_pair_update_same by reflexivity. rewrite Hfind. cbn.
    eexists. repeat split.
Qed.

End CallbackFacts.

Module CallbackExamples.
Import TestRuntime Examples.

(** The failure scenario of the spec: [error = "timeout"] on the pending pair. *)
Lemma completion_callback_records_outcome_witness :
  Staging.isJobSecretValid env0 callback_error = true
  /\ Staging.callback_throws (Staging.readBodyAny callback_error) = false
  /\ Staging.str_field (Staging.readBodyAny callback_error) "pairId" "" = "p1"
  /\ "p1" <> ""
  /\ Staging.find_pair "p1" (Staging.pairs world_pending) = Some (pair_p1 "pending" None None)
  /\ exists r',
      Staging.find_pair "p1"
        (Staging.pairs (Staging.jobs_mindar_complete env0 amb0 callback_error world_pending).2)
      = Some r'
      /\ Staging.mind_target_status r' = Some "failed"
      /\ Staging.mind_target_error r' = Some "timeout"
      /\ Staging.mind_target_completed_at r' = Some (Staging.now_iso amb0).
Proof.
  split; [reflexivity|]. split; [reflexivity|]. split; [reflexivity|].
  split; [discriminate|]. split; [reflexivity|].
  refine (proj1 (completion_callback_records_outcome env0 amb0 callback_error world_pending
                   "p1" (pair_p1 "pending" None None) eq_refl eq_refl eq_refl _ eq_refl)
            "timeout" eq_refl _); discriminate.
Defined.

(** The claim fails for a [mindAssetId] made of spaces: it is a non-empty
    string and there is no error, yet the handler trims it to nothing and
    records a failure. *)
Lemma blank_mind_asset_id_fails :
  let req := callback (JObj [("pairId", JStr "p1"); ("mindAssetId", JStr "   ")]) in
  let res := Staging.fetch env0 amb0 req world_pending in
  prop (Staging.readBodyAny req) "mindAssetId" = JStr "   "
  /\ prop (Staging.readBodyAny req) "error" = JUndefined
  /\ status res.1 = 200%Z
  /\ exists r', Staging.find_pair "p1" (Staging.pairs res.2) = Some r'
       /\ Staging.mind_target_status r' = Some "failed"
       /\ Staging.mind_target_error r' = Some "MindAR generation failed"
       /\ Staging.mind_target_asset_id r' = None.
Proof.
  cbn zeta. split; [reflexivity|]. split; [reflexivity|]. split; [reflexivity|].
  exists (Staging.complete_failed "MindAR generation failed" (Staging.now_iso amb0)
            (pair_p1 "pending" None None)).
  repeat split.
Qed.

(** [trim] strips every white-space character of the language: a
    [mindAssetId] that is one no-break space is blank too, and one that
    starts with a no-break space is stored without it. *)
Example no_break_space_is_white_space :
  let blank := callback (JObj [("pairId", JStr "p1"); ("mindAssetId", JStr nbsp)]) in
  let padded :=
    callback (JObj [("pairId", JStr "p1"); ("mindAssetId", JStr (nbsp +:+ "mind1"))]) in
  (Staging.mind_target_status
     <$> Staging.find_pair "p1" (Staging.pairs (Staging.fetch env0 amb0 blank world_pending).2))
  = Some (Some "failed")
  /\ (Staging.mind_target_status
        <$> Staging.find_pair "p1"
              (Staging.pairs (Staging.fetch env0 amb0 padded world_pending).2))
     = Some (Some "ready")
  /\ (Staging.mind_target_asset_id
        <$> Staging.find_pair "p1"
              (Staging.pairs (Staging.fetch env0 amb0 padded world_pending).2))
     = Some (Some "mind1").
Proof. cbn zeta. repeat split. Qed.

End CallbackExamples.

(** * Dispatching the generation job *)
Section DispatchFacts.
Context `{RT : Runtime}.

Lemma bind_get {S A} (k : S -> M S A) (w : S) : bind get k w = k w w.
Proof. reflexivity. Qed.

Lemma bind_run {S A B} (c : M S A) (k : A -> M S B) (w : S) :
  bind c k w = k (c w).1 (c w).2.
Proof. unfold bind. destruct (c w). reflexivity. Qed.

Lemma find_pair_settle env amb id ps :
  Staging.find_pair id (Staging.settle_pair env amb id ps)
  = Staging.settle env amb <$> Staging.find_pair id ps.
Proof.
  unfold Staging.settle_pair, Staging.settle.
  destruct (Staging.trigger env amb) as [[|]|msg].
  - destruct (Staging.find_pair id ps); reflexivity.
  - apply find_pair_update_same. reflexivity.
  - destruct (Staging.find_pair id ps); reflexivity.
Qed.

(** The trigger and the failure mark, as one step. *)
Lemma dispatch_or_fail_run env amb pairId url apiBase w :
  let res := Staging.dispatch_or_fail env amb pairId url apiBase w in
  res.1 = Staging.trigger env amb
  /\ Staging.journal res.2
     = Staging.journal w ++ Staging.trigger_events env amb pairId url apiBase
       ++ match Staging.trigger env amb with
          | Done false => [Staging.EvStatus pairId (Some "failed") (Some "Dispatch failed")]
          | Done true | Thrown _ => []
          end
  /\ Staging.pairs res.2 = Staging.settle_pair env amb pairId (Staging.pairs w)
  /\ Staging.experiences res.2 = Staging.experiences w
  /\ Staging.assets res.2 = Staging.assets w
  /\ Staging.bucket res.2 = Staging.bucket w.
Proof.
  unfold Staging.dispatch_or_fail, Staging.dispatchMindarJob, Staging.trigger,
    Staging.trigger_events, Staging.settle_pair, Staging.trigger.
  destruct (opt_truthy (Staging.GITHUB_TOKEN env)), (opt_truthy (Staging.GITHUB_REPO env)),
    (Staging.github amb); cbn; rewrite <- ?app_assoc, ?app_nil_r; repeat split.
Qed.

Lemma jobs_mindar_dispatch_run env amb request u w :
  let b := Staging.readBodyAny request in
  let pairId := Staging.str_field b "pairId" "" in
  let imageAssetId := Staging.str_field b "image_asset_id" "" in
  let url := Staging.public_asset_url (Staging.origin request) imageAssetId in
  let res := Staging.jobs_mindar_dispatch env amb request (Some u) w in
  Staging.dispatch_throws b = false ->
  pairId <> "" -> imageAssetId <> "" ->
  res.1 = Staging.dispatch_answer env amb
            (fun ok => json (JObj [("ok", JBool ok); ("build", JStr Staging.BUILD)]) 200)
  /\ Staging.journal res.2
     = Staging.journal w ++ Staging.dispatch_journal env amb pairId url (Staging.origin request)
  /\ Staging.pairs res.2
     = Staging.settle_pair env amb pairId
         (Staging.update_where_id pairId (Staging.mark_pending (Staging.now_iso amb))
            (Staging.pairs w)).
Proof.
  intros b pairId imageAssetId url res Hthrow Hp Hi. subst res url.
  unfold Staging.jobs_mindar_dispatch. fold b. rewrite Hthrow. fold pairId. fold imageAssetId.
  apply str_truthy_true in Hp, Hi. rewrite Hp, Hi. clearbody pairId imageAssetId.
  unfold Staging.dispatch_journal, Staging.dispatch_or_fail, Staging.dispatchMindarJob,
    Staging.dispatch_answer, Staging.settle_pair, Staging.trigger, Staging.trigger_events.
  destruct (opt_truthy (Staging.GITHUB_TOKEN env)), (opt_truthy (Staging.GITHUB_REPO env)),
    (Staging.github amb); cbn; rewrite <- ?app_assoc, ?app_nil_r; repeat split.
Qed.

Lemma pairs_create_run env amb request expId w :
  let b := Staging.readBodyAny request in
  let imageAssetId := Staging.str_field b "image_asset_id" "" in
  let url := Staging.public_asset_url (Staging.origin request) imageAssetId in
  let id := Staging.uuid_1 amb in
  let res := Staging.pairs_create env amb request expId w in
  Staging.new_pair_throws b = false ->
  imageAssetId <> "" -> Staging.str_field b "video_asset_id" "" <> "" ->
  ~ Exists (fun r => Staging.pair_id r = id) (Staging.pairs w) ->
  res.1 = Staging.dispatch_answer env amb
            (fun _ => json (JObj [("id", JStr id); ("build", JStr Staging.BUILD)]) 200)
  /\ Staging.journal res.2
     = Staging.journal w ++ Staging.dispatch_journal env amb id url (Staging.origin request)
  /\ Staging.pairs res.2
     = Staging.settle_pair env amb id (Staging.pairs w ++ [Staging.new_pair amb expId b]).
Proof.
  intros b imageAssetId url id res Hthrow Hi Hv Hfresh. subst res url id.
  unfold Staging.pairs_create. fold b. rewrite Hthrow. fold imageAssetId.
  apply str_truthy_true in Hi, Hv. rewrite Hi, Hv.
  cbn [negb orb]. rewrite !bind_get.
  rewrite !bool_decide_eq_false_2 by exact Hfresh.
  remember (Staging.new_pair amb expId b) as row eqn:Hrow.
  assert (Staging.pair_id row = Staging.uuid_1 amb) as Hrid by (rewrite Hrow; reflexivity).
  assert (Staging.mind_target_status row = Some "pending") as Hst
    by (rewrite Hrow; reflexivity).
  assert (Staging.mind_target_error row = None) as Her by (rewrite Hrow; reflexivity).
  clear Hrow. clearbody imageAssetId.
  unfold Staging.dispatch_journal, Staging.dispatch_or_fail, Staging.dispatchMindarJob,
    Staging.dispatch_answer, Staging.settle_pair, Staging.trigger, Staging.trigger_events,
    Staging.sql_insert_pair.
  rewrite Hrid, Hst, Her.
  destruct (opt_truthy (Staging.GITHUB_TOKEN env)), (opt_truthy (Staging.GITHUB_REPO env)),
    (Staging.github amb); cbn; rewrite <- ?app_assoc, ?app_nil_r; repeat split.
Qed.

Lemma pairs_put_run env amb request pairId existing w :
  let b := Staging.readBodyAny request in
  let imageAssetId := Staging.truthy_str_field b "image_asset_id" in
  let changed := Staging.imageChanged imageAssetId existing in
  let url := Staging.public_asset_url (Staging.origin request) (default "" imageAssetId) in
  let ok := json (JObj [("ok", JBool true); ("build", JStr Staging.BUILD)]) 200 in
  let res := Staging.pairs_put env amb request pairId w in
  Staging.pair_patch_throws b = false ->
  Staging.find_pair pairId (Staging.pairs w) = Some existing ->
  res.1 = (if changed then Staging.dispatch_answer env amb (fun _ => ok) else ok)
  /\ Staging.journal res.2
     = Staging.journal w
       ++ (if changed
           then Staging.dispatch_journal env amb pairId url (Staging.origin request)
           else [Staging.EvStatus pairId (Staging.mind_target_status existing) None])
  /\ Staging.pairs res.2
     = (if changed then Staging.settle_pair env amb pairId else fun ps => ps)
         (Staging.update_where_id pairId
            (Staging.apply_patch (Staging.pair_patch amb b existing)) (Staging.pairs w)).
Proof.
  intros b imageAssetId changed url ok res Hthrow Hfind. subst res url ok.
  unfold Staging.pairs_put. fold b. rewrite Hthrow. fold imageAssetId.
  rewrite !bind_get. rewrite !Hfind. fold changed.
  assert (Staging.nextMindStatus (Staging.pair_patch amb b existing)
          = if changed then Some "pending" else Staging.mind_target_status existing) as Hst
    by reflexivity.
  generalize dependent (Staging.pair_patch amb b existing). intros patch Hst.
  clearbody changed. clearbody imageAssetId.
  unfold Staging.dispatch_journal, Staging.dispatch_or_fail, Staging.dispatchMindarJob,
    Staging.dispatch_answer, Staging.settle_pair, Staging.trigger, Staging.trigger_events,
    Staging.sql_update_pair.
  rewrite Hst.
  destruct changed; [|cbn; repeat split].
  destruct (opt_truthy (Staging.GITHUB_TOKEN env)), (opt_truthy (Staging.GITHUB_REPO env)),
    (Staging.github amb); cbn; rewrite <- ?app_assoc, ?app_nil_r; repeat split.
Qed.

(** A body that cannot be converted stops [PUT /pairs/:id] before it reads or
    writes anything. *)
Lemma pairs_put_throws env amb request pairId w :
  Staging.pair_patch_throws (Staging.readBodyAny request) = true ->
  Staging.pairs_put env amb request pairId w = (Staging.type_error, w).
Proof. intros Hthrow. unfold Staging.pairs_put. rewrite Hthrow. reflexivity. Qed.

Lemma find_pair_fresh id ps :
  ~ Exists (fun r => Staging.pair_id r = id) ps -> Staging.find_pair id ps = None.
Proof.
  intros Hfresh. unfold Staging.find_pair.
  destruct (List.find _ ps) as [r|] eqn:Hf; [|reflexivity].
  apply List.find_some in Hf as [Hin Hb]. apply bool_decide_eq_true in Hb.
  exfalso. apply Hfresh. apply Exists_exists. exists r. split; [|exact Hb].
  apply list_elem_of_In. exact Hin.
Qed.

Lemma find_pair_app id ps qs :
  Staging.find_pair id (ps ++ qs)
  = match Staging.find_pair id ps with
    | Some r => Some r
    | None => Staging.find_pair id qs
    end.
Proof.
  unfold Staging.find_pair. induction ps as [|r ps IH]; [reflexivity|].
  cbn. destruct (bool_decide (Staging.pair_id r = id)); [reflexivity | exact IH].
Qed.

(** What each of the three dispatching routes does, whatever the trigger
    does: the pair is marked [pending] first, then the trigger is attempted;
    when the trigger answers that it failed the pair is marked [failed] with
    "Dispatch failed", when it went through the pair stays [pending], and
    when it ends in an exception the route answers 500 with the message of the
    exception and the pair stays [pending] too.  The completion time and the
    target asset are not written. *)
Lemma dispatch_outcomes env amb request w :
  let b := Staging.readBodyAny request in
  let origin := Staging.origin request in
  (forall u pairId imageAssetId,
      Staging.dispatch_throws b = false ->
      Staging.str_field b "pairId" "" = pairId ->
      Staging.str_field b "image_asset_id" "" = imageAssetId ->
      pairId <> "" -> imageAssetId <> "" ->
      let res := Staging.jobs_mindar_dispatch env amb request (Some u) w in
      res.1 = Staging.dispatch_answer env amb
                (fun ok => json (JObj [("ok", JBool ok); ("build", JStr Staging.BUILD)]) 200)
      /\ Staging.journal res.2
         = Staging.journal w
           ++ Staging.dispatch_journal env amb pairId
                (Staging.public_asset_url origin imageAssetId) origin
      /\ forall r, Staging.find_pair pairId (Staging.pairs w) = Some r ->
         Staging.find_pair pairId (Staging.pairs res.2)
         = Some (Staging.settle env amb (Staging.mark_pending (Staging.now_iso amb) r)))
  /\ (forall expId imageAssetId,
      Staging.new_pair_throws b = false ->
      Staging.str_field b "image_asset_id" "" = imageAssetId ->
      imageAssetId <> "" -> Staging.str_field b "video_asset_id" "" <> "" ->
      ~ Exists (fun r => Staging.pair_id r = Staging.uuid_1 amb) (Staging.pairs w) ->
      let res := Staging.pairs_create env amb request expId w in
      res.1 = Staging.dispatch_answer env amb
                (fun _ => json (JObj [("id", JStr (Staging.uuid_1 amb));
                                      ("build", JStr Staging.BUILD)]) 200)
      /\ Staging.journal res.2
         = Staging.journal w
           ++ Staging.dispatch_journal env amb (Staging.uuid_1 amb)
                (Staging.public_asset_url origin imageAssetId) origin
      /\ Staging.find_pair (Staging.uuid_1 amb) (Staging.pairs res.2)
         = Some (Staging.settle env amb (Staging.new_pair amb expId b)))
  /\ (forall pairId existing imageAssetId,
      Staging.pair_patch_throws b = false ->
      Staging.find_pair pairId (Staging.pairs w) = Some existing ->
      Staging.truthy_str_field b "image_asset_id" = Some imageAssetId ->
      Staging.imageChanged (Some imageAssetId) existing = true ->
      let res := Staging.pairs_put env amb request pairId w in
      res.1 = Staging.dispatch_answer env amb
                (fun _ => json (JObj [("ok", JBool true); ("build", JStr Staging.BUILD)]) 200)
      /\ Staging.journal res.2
         = Staging.journal w
           ++ Staging.dispatch_journal env amb pairId
                (Staging.public_asset_url origin imageAssetId) origin
      /\ Staging.find_pair pairId (Staging.pairs res.2)
         = Some (Staging.settle env amb
                   (Staging.apply_patch (Staging.pair_patch amb b existing) existing))).
Proof.
  intros b origin. split; [|split].
  - intros u pairId imageAssetId Hthrow Hp Hi Hpne Hine res.
    pose proof (jobs_mindar_dispatch_run env amb request u w) as Hrun. cbn zeta in Hrun.
    fold b in Hrun. rewrite Hp, Hi in Hrun.
    destruct (Hrun Hthrow Hpne Hine) as (Hr & Hj & Hps).
    split; [exact Hr|]. split; [exact Hj|]. intros r Hfind. subst res. rewrite Hps.
    rewrite find_pair_settle, find_pair_update_same by reflexivity. rewrite Hfind.
    reflexivity.
  - intros expId imageAssetId Hthrow Hi Hine Hv Hfresh res.
    pose proof (pairs_create_run env amb request expId w) as Hrun. cbn zeta in Hrun.
    fold b in Hrun. rewrite Hi in Hrun.
    destruct (Hrun Hthrow Hine Hv Hfresh) as (Hr & Hj & Hps).
    split; [exact Hr|]. split; [exact Hj|]. subst res. rewrite Hps.
    rewrite find_pair_settle, find_pair_app, (find_pair_fresh _ _ Hfresh). cbn.
    rewrite bool_decide_eq_true_2 by reflexivity. reflexivity.
  - intros pairId existing imageAssetId Hthrow Hfind Hi Hch res.
    pose proof (pairs_put_run env amb request pairId existing w) as Hrun. cbn zeta in Hrun.
    fold b in Hrun. rewrite Hi, Hch in Hrun. destruct (Hrun Hthrow Hfind) as (Hr & Hj & Hps).
    split; [exact Hr|]. split; [exact Hj|]. subst res. rewrite Hps.
    rewrite find_pair_settle, find_pair_update_same by reflexivity. rewrite Hfind.
    reflexivity.
Qed.

End DispatchFacts.

Section DispatchOrder.
Context `{RT : Runtime}.

Lemma trigger_throws env amb message :
  opt_truthy (Staging.GITHUB_TOKEN env) = true ->
  opt_truthy (Staging.GITHUB_REPO env) = true ->
  Staging.github amb = Staging.GhThrows message ->
  Staging.trigger env amb = Thrown message
  /\ forall pairId url apiBase,
       Staging.dispatch_journal env amb pairId url apiBase
       = [Staging.EvStatus pairId (Some "pending") None;
          Staging.EvWorkflowDispatch (or_str (Staging.GITHUB_REPO env) "")
            (or_str (Staging.GITHUB_REF env) "main") pairId url apiBase].
Proof.
  intros Ht Hr Hg. unfold Staging.dispatch_journal, Staging.trigger_events, Staging.trigger.
  rewrite Ht, Hr, Hg. split; reflexivity.
Qed.

(** C6.  The trigger call can fail without an answer: the request to GitHub
    ends in an exception.  On each of the three dispatching routes (the
    explicit dispatch endpoint, pair creation, an image change) the pair has
    then been marked [pending] and the request has been sent, but the failure
    mark is never written: the route answers 500 with the message of the
    exception, and the pair is left [pending] with no error recorded. *)
Theorem dispatch_exception_leaves_pending env amb request w message :
  opt_truthy (Staging.GITHUB_TOKEN env) = true ->
  opt_truthy (Staging.GITHUB_REPO env) = true ->
  Staging.github amb = Staging.GhThrows message ->
  let b := Staging.readBodyAny request in
  let origin := Staging.origin request in
  let sent pairId imageAssetId :=
    [Staging.EvStatus pairId (Some "pending") None;
     Staging.EvWorkflowDispatch (or_str (Staging.GITHUB_REPO env) "")
       (or_str (Staging.GITHUB_REF env) "main") pairId
       (Staging.public_asset_url origin imageAssetId) origin] in
  (forall u pairId imageAssetId r,
      Staging.dispatch_throws b = false ->
      Staging.str_field b "pairId" "" = pairId ->
      Staging.str_field b "image_asset_id" "" = imageAssetId ->
      pairId <> "" -> imageAssetId <> "" ->
      Staging.find_pair pairId (Staging.pairs w) = Some r ->
      let res := Staging.jobs_mindar_dispatch env amb request (Some u) w in
      res.1 = Staging.internal_error message
      /\ Staging.journal res.2 = Staging.journal w ++ sent pairId imageAssetId
      /\ exists r', Staging.find_pair pairId (Staging.pairs res.2) = Some r'
           /\ Staging.mind_target_status r' = Some "pending"
           /\ Staging.mind_target_error r' = None)
  /\ (forall expId imageAssetId,
      Staging.new_pair_throws b = false ->
      Staging.str_field b "image_asset_id" "" = imageAssetId ->
      imageAssetId <> "" -> Staging.str_field b "video_asset_id" "" <> "" ->
      ~ Exists (fun r => Staging.pair_id r = Staging.uuid_1 amb) (Staging.pairs w) ->
      let res := Staging.pairs_create env amb request expId w in
      res.1 = Staging.internal_error message
      /\ Staging.journal res.2 = Staging.journal w ++ sent (Staging.uuid_1 amb) imageAssetId
      /\ exists r', Staging.find_pair (Staging.uuid_1 amb) (Staging.pairs res.2) = Some r'
           /\ Staging.mind_target_status r' = Some "pending"
           /\ Staging.mind_target_error r' = None)
  /\ (forall pairId existing imageAssetId,
      Staging.pair_patch_throws b = false ->
      Staging.find_pair pairId (Staging.pairs w) = Some existing ->
      Staging.truthy_str_field b "image_asset_id" = Some imageAssetId ->
      Staging.imageChanged (Some imageAssetId) existing = true ->
      let res := Staging.pairs_put env amb request pairId w in
      res.1 = Staging.internal_error message
      /\ Staging.journal res.2 = Staging.journal w ++ sent pairId imageAssetId
      /\ exists r', Staging.find_pair pairId (Staging.pairs res.2) = Some r'
           /\ Staging.mind_target_status r' = Some "pending"
           /\ Staging.mind_target_error r' = None).
Proof.
  intros Ht Hr Hg b origin sent.
  destruct (trigger_throws env amb message Ht Hr Hg) as [Htrig Hjournal].
  destruct (dispatch_outcomes env amb request w) as (Hretry & Hcreate & Hput).
  fold b in Hretry, Hcreate, Hput. fold origin in Hretry, Hcreate, Hput.
  unfold Staging.dispatch_answer, Staging.settle in Hretry, Hcreate, Hput.
  rewrite Htrig in Hretry, Hcreate, Hput.
  split; [|split].
  - intros u pairId imageAssetId r Hthrow Hp Hi Hpne Hine Hfind res. subst res sent.
    destruct (Hretry u pairId imageAssetId Hthrow Hp Hi Hpne Hine) as (Hresp & Hj & Hrow).
    split; [exact Hresp|]. split; [rewrite Hj, Hjournal; reflexivity|].
    eexists. split; [exact (Hrow r Hfind)|]. split; reflexivity.
  - intros expId imageAssetId Hthrow Hi Hine Hv Hfresh res. subst res sent.
    destruct (Hcreate expId imageAssetId Hthrow Hi Hine Hv Hfresh) as (Hresp & Hj & Hrow).
    split; [exact Hresp|]. split; [rewrite Hj, Hjournal; reflexivity|].
    eexists. split; [exact Hrow|]. split; reflexivity.
  - intros pairId existing imageAssetId Hthrow Hfind Hi Hch res. subst res sent.
    destruct (Hput pairId existing imageAssetId Hthrow Hfind Hi Hch) as (Hresp & Hj & Hrow).
    split; [exact Hresp|]. split; [rewrite Hj, Hjournal; reflexivity|].
    eexists. split; [exact Hrow|].
    unfold Staging.pair_patch. rewrite Hi, Hch. split; reflexivity.
Qed.

(** X16.  When the trigger answers (the job was accepted, refused, or not
    sent for want of credentials), each of the three dispatching routes
    answers 200 and leaves the pair [pending] with no error if the job was
    accepted, and [failed] with the error "Dispatch failed" if it was not. *)
Theorem answered_trigger_settles_pair env amb request w ok :
  Staging.trigger env amb = Done ok ->
  let b := Staging.readBodyAny request in
  let settled r' :=
    Staging.mind_target_status r' = Some (if ok then "pending" else "failed")
    /\ Staging.mind_target_error r' = (if ok then None else Some "Dispatch failed") in
  (forall u pairId imageAssetId r,
      Staging.dispatch_throws b = false ->
      Staging.str_field b "pairId" "" = pairId ->
      Staging.str_field b "image_asset_id" "" = imageAssetId ->
      pairId <> "" -> imageAssetId <> "" ->
      Staging.find_pair pairId (Staging.pairs w) = Some r ->
      let res := Staging.jobs_mindar_dispatch env amb request (Some u) w in
      res.1 = json (JObj [("ok", JBool ok); ("build", JStr Staging.BUILD)]) 200
      /\ exists r', Staging.find_pair pairId (Staging.pairs res.2) = Some r' /\ settled r')
  /\ (forall expId imageAssetId,
      Staging.new_pair_throws b = false ->
      Staging.str_field b "image_asset_id" "" = imageAssetId ->
      imageAssetId <> "" -> Staging.str_field b "video_asset_id" "" <> "" ->
      ~ Exists (fun r => Staging.pair_id r = Staging.uuid_1 amb) (Staging.pairs w) ->
      let res := Staging.pairs_create env amb request expId w in
      res.1 = json (JObj [("id", JStr (Staging.uuid_1 amb)); ("build", JStr Staging.BUILD)]) 200
      /\ exists r', Staging.find_pair (Staging.uuid_1 amb) (Staging.pairs res.2) = Some r'
           /\ settled r')
  /\ (forall pairId existing imageAssetId,
      Staging.pair_patch_throws b = false ->
      Staging.find_pair pairId (Staging.pairs w) = Some existing ->
      Staging.truthy_str_field b "image_asset_id" = Some imageAssetId ->
      Staging.imageChanged (Some imageAssetId) existing = true ->
      let res := Staging.pairs_put env amb request pairId w in
      res.1 = json (JObj [("ok", JBool true); ("build", JStr Staging.BUILD)]) 200
      /\ exists r', Staging.find_pair pairId (Staging.pairs res.2) = Some r' /\ settled r').
Proof.
  intros Htrig b settled.
  destruct (dispatch_outcomes env amb request w) as (Hretry & Hcreate & Hput).
  fold b in Hretry, Hcreate, Hput.
  unfold Staging.dispatch_answer, Staging.settle in Hretry, Hcreate, Hput.
  rewrite Htrig in Hretry, Hcreate, Hput.
  split; [|split].
  - intros u pairId imageAssetId r Hthrow Hp Hi Hpne Hine Hfind res. subst res settled.
    destruct (Hretry u pairId imageAssetId Hthrow Hp Hi Hpne Hine) as (Hresp & _ & Hrow).
    split; [exact Hresp|]. eexists. split; [exact (Hrow r Hfind)|].
    destruct ok; split; reflexivity.
  - intros expId imageAssetId Hthrow Hi Hine Hv Hfresh res. subst res settled.
    destruct (Hcreate expId imageAssetId Hthrow Hi Hine Hv Hfresh) as (Hresp & _ & Hrow).
    split; [exact Hresp|]. eexists. split; [exact Hrow|].
    destruct ok; split; reflexivity.
  - intros pairId existing imageAssetId Hthrow Hfind Hi Hch res. subst res settled.
    destruct (Hput pairId existing imageAssetId Hthrow Hfind Hi Hch) as (Hresp & _ & Hrow).
    split; [exact Hresp|]. eexists. split; [exact Hrow|].
    unfold Staging.pair_patch. rewrite Hi, Hch. destruct ok; split; reflexivity.
Qed.

End DispatchOrder.

Module DispatchExamples.
Import TestRuntime Examples.

(** A retry of the ready pair while GitHub cannot be reached: the answer is
    500, and the pair is left [pending], not [failed]. *)
Lemma dispatch_exception_leaves_pending_witness :
  let res := Staging.jobs_mindar_dispatch env_github amb_offline retry_p1
               (Some {| Staging.email := JStr "admin@local" |}) world_ready in
  res.1 = Staging.internal_error "Network connection lost."
  /\ Staging.journal res.2
     = [Staging.EvStatus "p1" (Some "pending") None;
        Staging.EvWorkflowDispatch "acme/vidcom" "main" "p1"
          "https://api.example/public/assets/img1" "https://api.example"]
  /\ exists r', Staging.find_pair "p1" (Staging.pairs res.2) = Some r'
       /\ Staging.mind_target_status r' = Some "pending"
       /\ Staging.mind_target_error r' = None.
Proof.
  exact (proj1 (dispatch_exception_leaves_pending env_github amb_offline retry_p1 world_ready
                  "Network connection lost." eq_refl eq_refl eq_refl)
           {| Staging.email := JStr "admin@local" |} "p1" "img1"
           (pair_p1 "ready" (Some "mind1") None)
           eq_refl eq_refl eq_refl ltac:(discriminate) ltac:(discriminate) eq_refl).
Defined.

(** A retry on a worker that GitHub refuses: the answer is 200 with
    [ok: false], and the pair is [failed]. *)
Lemma answered_trigger_settles_pair_witness :
  let res := Staging.jobs_mindar_dispatch env_github amb_refused retry_p1
               (Some {| Staging.email := JStr "admin@local" |}) world_ready in
  res.1 = json (JObj [("ok", JBool false); ("build", JStr Staging.BUILD)]) 200
  /\ exists r', Staging.find_pair "p1" (Staging.pairs res.2) = Some r'
       /\ Staging.mind_target_status r' = Some "failed"
       /\ Staging.mind_target_error r' = Some "Dispatch failed".
Proof.
  exact (proj1 (answered_trigger_settles_pair env_github amb_refused retry_p1 world_ready
                  false eq_refl)
           {| Staging.email := JStr "admin@local" |} "p1" "img1"
           (pair_p1 "ready" (Some "mind1") None)
           eq_refl eq_refl eq_refl ltac:(discriminate) ltac:(discriminate) eq_refl).
Defined.

(** The same through [fetch], as the admin sees it: status 500, and a pair
    whose status stays [pending] although its trigger failed. *)
Example offline_retry_answers_500 :
  let res := Staging.fetch env_github amb_offline retry_p1 world_ready in
  status res.1 = 500%Z
  /\ (Staging.mind_target_status <$> Staging.find_pair "p1" (Staging.pairs res.2))
     = Some (Some "pending")
  /\ (Staging.mind_target_error <$> Staging.find_pair "p1" (Staging.pairs res.2))
     = Some None.
Proof. cbn zeta. repeat split. Qed.

(** The sibling path: a trigger that GitHub refuses is marked. *)
Example refused_retry_is_marked :
  let res := Staging.fetch env_github amb_refused retry_p1 world_ready in
  status res.1 = 200%Z
  /\ (Staging.mind_target_status <$> Staging.find_pair "p1" (Staging.pairs res.2))
     = Some (Some "failed")
  /\ (Staging.mind_target_error <$> Staging.find_pair "p1" (Staging.pairs res.2))
     = Some (Some "Dispatch failed").
Proof. cbn zeta. repeat split. Qed.

(** A retry on a worker with no GitHub credentials: pending, then the skipped
    trigger, then the failure mark. *)
Example retry_without_credentials :
  Staging.journal
    (Staging.jobs_mindar_dispatch env0 amb0 retry_p1
       (Some {| Staging.email := JStr "admin@local" |}) world_ready).2
  = [Staging.EvStatus "p1" (Some "pending") None;
     Staging.EvConsole "MindAR job dispatch skipped: missing GITHUB_TOKEN or GITHUB_REPO";
     Staging.EvStatus "p1" (Some "failed") (Some "Dispatch failed")].
Proof. reflexivity. Qed.

(** A [pairId] that is one no-break space is blank: 400, nothing written. *)
Example blank_pair_id_is_400 :
  let req := admin "POST" "/jobs/mindar/dispatch"
               (JObj [("pairId", JStr nbsp); ("image_asset_id", JStr "img1")]) in
  let res := Staging.fetch env_github amb0 req world_ready in
  status res.1 = 400%Z /\ res.2 = world_ready.
Proof. cbn zeta. split; reflexivity. Qed.

End DispatchExamples.

(** * Updating a pair *)
Section PairUpdateFacts.
Context `{RT : Runtime}.

(** C2 (as amended).  An update whose fields convert and whose
    [image_asset_id] is truthy and, once converted to text and trimmed, is
    neither blank nor the stored image id: the [UPDATE] stores the new image
    id, sets the status to [pending], clears the target asset id and stamps
    the request time; then the job is dispatched.  The prior status plays no
    part.  (What the dispatch leaves behind is in [dispatch_outcomes].) *)
Theorem image_change_resets_generation env amb request pairId existing imageAssetId w :
  Staging.pair_patch_throws (Staging.readBodyAny request) = false ->
  Staging.find_pair pairId (Staging.pairs w) = Some existing ->
  Staging.truthy_str_field (Staging.readBodyAny request) "image_asset_id" = Some imageAssetId ->
  imageAssetId <> "" -> imageAssetId <> Staging.image_asset_id existing ->
  let res := Staging.pairs_put env amb request pairId w in
  exists patched,
    Staging.image_asset_id patched = imageAssetId
    /\ Staging.mind_target_status patched = Some "pending"
    /\ Staging.mind_target_asset_id patched = None
    /\ Staging.mind_target_requested_at patched = Some (Staging.now_iso amb)
    /\ Staging.journal res.2
       = Staging.journal w
         ++ [Staging.EvStatus pairId (Some "pending") None]
         ++ Staging.trigger_events env amb pairId
              (Staging.public_asset_url (Staging.origin request) imageAssetId)
              (Staging.origin request)
         ++ match Staging.trigger env amb with
            | Done false => [Staging.EvStatus pairId (Some "failed") (Some "Dispatch failed")]
            | Done true | Thrown _ => []
            end
    /\ Staging.find_pair pairId (Staging.pairs res.2) = Some (Staging.settle env amb patched)
    /\ Staging.mind_target_asset_id (Staging.settle env amb patched) = None.
Proof.
  intros Hthrow Hfind Hi Hne Hdiff res.
  assert (Staging.imageChanged (Some imageAssetId) existing = true) as Hch.
  { cbn. apply str_truthy_true in Hne. rewrite Hne.
    rewrite bool_decide_eq_false_2 by exact Hdiff. reflexivity. }
  exists (Staging.apply_patch (Staging.pair_patch amb (Staging.readBodyAny request) existing)
            existing).
  destruct (dispatch_outcomes env amb request w) as (_ & _ & Hput).
  destruct (Hput pairId existing imageAssetId Hthrow Hfind Hi Hch) as (_ & Hj & Hrow).
  unfold Staging.pair_patch at 1 2 3 4 6. rewrite Hi, Hch. cbn [Staging.apply_patch
    Staging.image_asset_id Staging.mind_target_status Staging.mind_target_asset_id
    Staging.mind_target_requested_at Staging.nextImageAssetId Staging.nextMindStatus
    Staging.nextMindAssetId Staging.nextMindRequestedAt default].
  repeat (split; [reflexivity|]). split; [exact Hj|]. split; [exact Hrow|].
  unfold Staging.settle. destruct (Staging.trigger env amb) as [[|]|]; reflexivity.
Qed.

End PairUpdateFacts.

Module PairUpdateExamples.
Import TestRuntime Examples.

(** A new image on the ready pair, with GitHub within reach: the pair is
    back to [pending] with no target asset. *)
Lemma image_change_resets_generation_witness :
  let req := put_p1 (JObj [("image_asset_id", JStr "img2")]) in
  Staging.find_pair "p1" (Staging.pairs world_ready) = Some (pair_p1 "ready" (Some "mind1") None)
  /\ Staging.truthy_str_field (Staging.readBodyAny req) "image_asset_id" = Some "img2"
  /\ "img2" <> "" /\ "img2" <> Staging.image_asset_id (pair_p1 "ready" (Some "mind1") None)
  /\ exists patched,
      Staging.mind_target_status patched = Some "pending"
      /\ Staging.mind_target_asset_id patched = None
      /\ Staging.find_pair "p1"
           (Staging.pairs (Staging.pairs_put env_github amb0 req "p1" world_ready).2)
         = Some patched.
Proof.
  cbn zeta. split; [reflexivity|]. split; [reflexivity|].
  split; [discriminate|]. split; [discriminate|].
  destruct (image_change_resets_generation (RT := runtime) env_github amb0
              (put_p1 (JObj [("image_asset_id", JStr "img2")])) "p1"
              (pair_p1 "ready" (Some "mind1") None) "img2" world_ready
              ltac:(reflexivity) ltac:(reflexivity) ltac:(reflexivity)
              ltac:(discriminate) ltac:(discriminate))
    as (patched & _ & Hst & Ha & _ & _ & Hf & _).
  exists patched. split; [exact Hst|]. split; [exact Ha|]. exact Hf.
Defined.

(** The claim fails for an [image_asset_id] that the handler takes for
    absent: the empty string differs from the stored ["img1"], and the update
    resets nothing and dispatches nothing. *)
Lemma empty_image_id_is_ignored :
  let req := put_p1 (JObj [("image_asset_id", JStr "")]) in
  let res := Staging.fetch env_github amb0 req world_ready in
  prop (Staging.readBodyAny req) "image_asset_id" = JStr ""
  /\ (Staging.image_asset_id <$> Staging.find_pair "p1" (Staging.pairs world_ready))
     = Some "img1"
  /\ status res.1 = 200%Z
  /\ Staging.find_pair "p1" (Staging.pairs res.2) = Some (pair_p1 "ready" (Some "mind1") None)
  /\ Staging.journal res.2 = [Staging.EvStatus "p1" (Some "ready") None].
Proof. cbn zeta. repeat split. Qed.

(** Left out of the amended claim: a blank [image_asset_id] (three spaces).
    The stored image id is overwritten with the empty string, yet the pair
    stays [ready], keeps the target compiled for the old image and its
    request time, and no dispatch is attempted.  ([POST] on the sibling route
    refuses a blank image id with 400.) *)
Example blank_image_id_skips_reset :
  let req := put_p1 (JObj [("image_asset_id", JStr "   ")]) in
  let res := Staging.fetch env0 amb0 req world_ready in
  prop (Staging.readBodyAny req) "image_asset_id" = JStr "   "
  /\ Staging.find_pair "p1" (Staging.pairs world_ready)
     = Some (pair_p1 "ready" (Some "mind1") None)
  /\ status res.1 = 200%Z
  /\ (Staging.image_asset_id <$> Staging.find_pair "p1" (Staging.pairs res.2)) = Some ""
  /\ (Staging.mind_target_status <$> Staging.find_pair "p1" (Staging.pairs res.2))
     = Some (Some "ready")
  /\ (Staging.mind_target_asset_id <$> Staging.find_pair "p1" (Staging.pairs res.2))
     = Some (Some "mind1")
  /\ (Staging.mind_target_requested_at <$> Staging.find_pair "p1" (Staging.pairs res.2))
     = Some (Some "2026-02-01T00:00:01.000Z")
  /\ Staging.journal res.2 = [Staging.EvStatus "p1" (Some "ready") None].
Proof. cbn zeta. repeat split. Qed.

(** The same route with a proper new image id resets the pair; with no GitHub
    credentials on this worker the dispatch then fails. *)
Example new_image_id_resets :
  let res := Staging.fetch env0 amb0 (put_p1 (JObj [("image_asset_id", JStr "img2")]))
               world_ready in
  Staging.journal res.2
  = [Staging.EvStatus "p1" (Some "pending") None;
     Staging.EvConsole "MindAR job dispatch skipped: missing GITHUB_TOKEN or GITHUB_REPO";
     Staging.EvStatus "p1" (Some "failed") (Some "Dispatch failed")]
  /\ (Staging.mind_target_asset_id <$> Staging.find_pair "p1" (Staging.pairs res.2))
     = Some None.
Proof. cbn zeta. split; reflexivity. Qed.

(** An ideographic space is blank as three spaces are. *)
Example ideographic_space_skips_reset :
  let req := put_p1 (JObj [("image_asset_id", JStr ideographic_space)]) in
  let res := Staging.fetch env_github amb0 req world_ready in
  (Staging.image_asset_id <$> Staging.find_pair "p1" (Staging.pairs res.2)) = Some ""
  /\ (Staging.mind_target_status <$> Staging.find_pair "p1" (Staging.pairs res.2))
     = Some (Some "ready")
  /\ Staging.journal res.2 = [Staging.EvStatus "p1" (Some "ready") None].
Proof. cbn zeta. repeat split. Qed.

End PairUpdateExamples.

(** * Partial updates *)
Section PatchFacts.
Context `{RT : Runtime}.

Lemma truthy_str_field_absent b k : prop b k = JUndefined -> Staging.truthy_str_field b k = None.
Proof. unfold Staging.truthy_str_field. intros ->. reflexivity. Qed.

(** The staging worker: what [PUT /pairs/:id] leaves untouched. *)
Lemma staging_put_keeps_unspecified env amb request pairId existing w :
  Staging.find_pair pairId (Staging.pairs w) = Some existing ->
  let b := Staging.readBodyAny request in
  let res := Staging.pairs_put env amb request pairId w in
  exists r', Staging.find_pair pairId (Staging.pairs res.2) = Some r'
    /\ (prop b "experience_id" = JUndefined ->
        Staging.experience_id r' = Staging.experience_id existing)
    /\ (prop b "image_asset_id" = JUndefined ->
        Staging.image_asset_id r' = Staging.image_asset_id existing)
    /\ (prop b "video_asset_id" = JUndefined ->
        Staging.video_asset_id r' = Staging.video_asset_id existing)
    /\ (prop b "image_fingerprint" = JUndefined ->
        Staging.image_fingerprint r' = Staging.image_fingerprint existing)
    /\ (prop b "threshold" = JUndefined -> Staging.threshold r' = Staging.threshold existing)
    /\ (prop b "priority" = JUndefined -> Staging.priority r' = Staging.priority existing)
    /\ (prop b "is_active" = JUndefined ->
        Staging.pair_is_active r' = Staging.pair_is_active existing)
    /\ Staging.mind_target_completed_at r' = Staging.mind_target_completed_at existing
    /\ (Staging.imageChanged (Staging.truthy_str_field b "image_asset_id") existing = false ->
        Staging.mind_target_status r' = Staging.mind_target_status existing
        /\ Staging.mind_target_asset_id r' = Staging.mind_target_asset_id existing
        /\ Staging.mind_target_requested_at r'
           = Staging.mind_target_requested_at existing).
Proof.
  intros Hfind b res.
  destruct (Staging.pair_patch_throws b) eqn:Hthrow.
  { subst res. rewrite (pairs_put_throws env amb request pairId w Hthrow).
    exists existing. split; [exact Hfind|]. repeat split; reflexivity. }
  pose proof (pairs_put_run env amb request pairId existing w) as Hrun. cbn zeta in Hrun.
  fold b in Hrun. destruct (Hrun Hthrow Hfind) as (_ & _ & Hps). subst res. rewrite Hps.
  clear Hps Hrun.
  set (patch := Staging.pair_patch amb b existing).
  set (changed := Staging.imageChanged (Staging.truthy_str_field b "image_asset_id") existing).
  assert (Staging.find_pair pairId
            ((if changed then Staging.settle_pair env amb pairId else fun ps => ps)
               (Staging.update_where_id pairId (Staging.apply_patch patch) (Staging.pairs w)))
          = Some ((if changed then Staging.settle env amb else fun r => r)
                    (Staging.apply_patch patch existing))) as Hf.
  { destruct changed; rewrite ?find_pair_settle, find_pair_update_same by reflexivity;
      rewrite Hfind; reflexivity. }
  eexists. split; [exact Hf|].
  assert (forall r, exists r0,
             (if changed then Staging.settle env amb else fun r => r) r = r0
             /\ Staging.experience_id r0 = Staging.experience_id r
             /\ Staging.image_asset_id r0 = Staging.image_asset_id r
             /\ Staging.video_asset_id r0 = Staging.video_asset_id r
             /\ Staging.image_fingerprint r0 = Staging.image_fingerprint r
             /\ Staging.threshold r0 = Staging.threshold r
             /\ Staging.priority r0 = Staging.priority r
             /\ Staging.pair_is_active r0 = Staging.pair_is_active r
             /\ Staging.mind_target_completed_at r0 = Staging.mind_target_completed_at r
             /\ (changed = false -> r0 = r)) as Hkeep.
  { intros r. eexists. split; [reflexivity|]. unfold Staging.settle.
    destruct changed; [|repeat split].
    destruct (Staging.trigger env amb) as [[|]|]; repeat split; discriminate. }
  destruct (Hkeep (Staging.apply_patch patch existing))
    as (r0 & -> & He & Hi & Hv & Hfp & Ht & Hp & Ha & Hc & Hsame).
  rewrite He, Hi, Hv, Hfp, Ht, Hp, Ha, Hc.
  subst patch. unfold Staging.pair_patch. cbn.
  repeat split.
  - intros Hu. rewrite (truthy_str_field_absent _ _ Hu). reflexivity.
  - intros Hu. fold changed. rewrite (truthy_str_field_absent _ _ Hu). reflexivity.
  - intros Hu. rewrite (truthy_str_field_absent _ _ Hu). reflexivity.
  - intros Hu. rewrite Hu. reflexivity.
  - intros Hu. unfold Staging.opt_num_field. rewrite Hu. reflexivity.
  - intros Hu. unfold Staging.opt_num_field. rewrite Hu. reflexivity.
  - intros Hu. unfold Staging.opt_bool_field. rewrite Hu. reflexivity.
  - rewrite (Hsame H). cbn. fold changed. rewrite H. reflexivity.
  - rewrite (Hsame H). cbn. fold changed. rewrite H. reflexivity.
  - rewrite (Hsame H). cbn. fold changed. rewrite H. reflexivity.
Qed.

Lemma requireAuth_keeps_pairs amb request w :
  Session.pairs (Session.requireAuth amb request w).2 = Session.pairs w.
Proof.
  unfold Session.requireAuth.
  repeat (match goal with
          | |- context [match ?x with _ => _ end] => destruct x
          end; rewrite ?bind_get; try reflexivity).
Qed.

(** The session worker: [PUT /pairs/:id] writes [is_active], [threshold] and
    [priority] only, and each of them only when the body carries it. *)
Lemma session_put_keeps_unspecified amb request w i r :
  Session.pairs w !! i = Some r ->
  let b := Session.parseJsonBody request in
  let res := Session.pairs_put amb request w in
  exists r', Session.pairs res.2 !! i = Some r'
    /\ Session.pair_id r' = Session.pair_id r
    /\ Session.experience_id r' = Session.experience_id r
    /\ Session.image_asset_id r' = Session.image_asset_id r
    /\ Session.video_asset_id r' = Session.video_asset_id r
    /\ Session.image_fingerprint r' = Session.image_fingerprint r
    /\ (prop b "threshold" = JUndefined -> Session.threshold r' = Session.threshold r)
    /\ (prop b "priority" = JUndefined -> Session.priority r' = Session.priority r)
    /\ (prop b "is_active" = JUndefined ->
        Session.pair_is_active r' = Session.pair_is_active r).
Proof.
  intros Hi b res.
  assert (Session.pairs res.2 = Session.pairs w
          \/ exists id, Session.pairs res.2
               = List.map (fun r => if bool_decide (Session.pair_id r = id)
                                    then Session.apply_updates b r else r)
                   (Session.pairs w)) as [Hsame | [id Hmap]].
  { subst res. unfold Session.pairs_put. rewrite bind_run.
    pose proof (requireAuth_keeps_pairs amb request w) as Hk.
    destruct (Session.requireAuth amb request w) as [[u|] w0]; cbn [fst snd] in *;
      [|left; exact Hk].
    fold b. rewrite <- Hk.
    destruct (negb (str_truthy _)); [left; reflexivity|].
    destruct (negb (truthy b)); [left; reflexivity|].
    destruct (_ && _); [left; reflexivity|].
    right. eexists. rewrite bind_run. cbn [Session.set_pairs modify fst snd].
    rewrite bind_get.
    repeat (match goal with
            | |- context [match ?x with _ => _ end] => destruct x
            end; try reflexivity). }
  - exists r. rewrite Hsame. repeat split; auto.
  - rewrite Hmap. change (List.map ?f ?l) with (f <$> l). rewrite list_lookup_fmap, Hi. cbn.
    eexists. split; [reflexivity|].
    destruct (bool_decide (Session.pair_id r = id)); [|repeat split; auto].
    unfold Session.apply_updates, Session.patch_num, Session.patch_is_active. cbn.
    repeat split; intros Hu; rewrite Hu; reflexivity.
Qed.

(** C8 (as amended).  On both workers a pair update leaves every request
    field that the body does not carry at its stored value: [experience_id],
    [image_asset_id], [video_asset_id], [image_fingerprint], [threshold],
    [priority] and [is_active].  On the staging worker the generation state
    ([mind_target_status], [mind_target_asset_id], [mind_target_requested_at])
    is kept unless the request changes the image, and
    [mind_target_completed_at] is always kept. *)
Theorem pair_update_keeps_unspecified :
  (forall env amb request pairId existing w,
      Staging.find_pair pairId (Staging.pairs w) = Some existing ->
      let b := Staging.readBodyAny request in
      let res := Staging.pairs_put env amb request pairId w in
      exists r', Staging.find_pair pairId (Staging.pairs res.2) = Some r'
        /\ (prop b "experience_id" = JUndefined ->
            Staging.experience_id r' = Staging.experience_id existing)
        /\ (prop b "image_asset_id" = JUndefined ->
            Staging.image_asset_id r' = Staging.image_asset_id existing)
        /\ (prop b "video_asset_id" = JUndefined ->
            Staging.video_asset_id r' = Staging.video_asset_id existing)
        /\ (prop b "image_fingerprint" = JUndefined ->
            Staging.image_fingerprint r' = Staging.image_fingerprint existing)
        /\ (prop b "threshold" = JUndefined ->
            Staging.threshold r' = Staging.threshold existing)
        /\ (prop b "priority" = JUndefined ->
            Staging.priority r' = Staging.priority existing)
        /\ (prop b "is_active" = JUndefined ->
            Staging.pair_is_active r' = Staging.pair_is_active existing)
        /\ Staging.mind_target_completed_at r' = Staging.mind_target_completed_at existing
        /\ (Staging.imageChanged (Staging.truthy_str_field b "image_asset_id") existing
            = false ->
            Staging.mind_target_status r' = Staging.mind_target_status existing
            /\ Staging.mind_target_asset_id r' = Staging.mind_target_asset_id existing
            /\ Staging.mind_target_requested_at r'
               = Staging.mind_target_requested_at existing))
  /\ (forall amb request w i r,
      Session.pairs w !! i = Some r ->
      let b := Session.parseJsonBody request in
      let res := Session.pairs_put amb request w in
      exists r', Session.pairs res.2 !! i = Some r'
        /\ Session.pair_id r' = Session.pair_id r
        /\ Session.experience_id r' = Session.experience_id r
        /\ Session.image_asset_id r' = Session.image_asset_id r
        /\ Session.video_asset_id r' = Session.video_asset_id r
        /\ Session.image_fingerprint r' = Session.image_fingerprint r
        /\ (prop b "threshold" = JUndefined -> Session.threshold r' = Session.threshold r)
        /\ (prop b "priority" = JUndefined -> Session.priority r' = Session.priority r)
        /\ (prop b "is_active" = JUndefined ->
            Session.pair_is_active r' = Session.pair_is_active r)).
Proof.
  split.
  - intros. apply staging_put_keeps_unspecified. assumption.
  - intros. apply session_put_keeps_unspecified. assumption.
Qed.

End PatchFacts.

Module PatchExamples.
Import TestRuntime Examples.

(** Only the priority is sent: the other request fields, the generation
    state and the completion time stay as stored. *)
Lemma pair_update_keeps_unspecified_witness :
  let req := put_p1 (JObj [("priority", JNum (num_of_Z 5))]) in
  Staging.find_pair "p1" (Staging.pairs world_ready) = Some (pair_p1 "ready" (Some "mind1") None)
  /\ prop (Staging.readBodyAny req) "experience_id" = JUndefined
  /\ exists r',
      Staging.find_pair "p1" (Staging.pairs (Staging.pairs_put env0 amb0 req "p1" world_ready).2)
      = Some r'
      /\ Staging.experience_id r' = "e1".
Proof.
  cbn zeta. split; [reflexivity|]. split; [reflexivity|].
  destruct (proj1 pair_update_keeps_unspecified env0 amb0
              (put_p1 (JObj [("priority", JNum (num_of_Z 5))])) "p1"
              (pair_p1 "ready" (Some "mind1") None) world_ready eq_refl)
    as (r' & Hf & Hexp & _).
  exists r'. split; [exact Hf|]. exact (Hexp eq_refl).
Defined.

(** The claim fails for the generation state: the body names a new image and
    none of the [mind_target] fields, and the status and the target asset of
    the ready pair are reset all the same. *)
Lemma image_change_rewrites_unsent_fields :
  let req := put_p1 (JObj [("image_asset_id", JStr "img2")]) in
  let res := Staging.fetch env_github amb0 req world_ready in
  prop (Staging.readBodyAny req) "mind_target_status" = JUndefined
  /\ prop (Staging.readBodyAny req) "mind_target_asset_id" = JUndefined
  /\ (Staging.mind_target_status <$> Staging.find_pair "p1" (Staging.pairs world_ready))
     = Some (Some "ready")
  /\ (Staging.mind_target_asset_id <$> Staging.find_pair "p1" (Staging.pairs world_ready))
     = Some (Some "mind1")
  /\ (Staging.mind_target_status <$> Staging.find_pair "p1" (Staging.pairs res.2))
     = Some (Some "pending")
  /\ (Staging.mind_target_asset_id <$> Staging.find_pair "p1" (Staging.pairs res.2))
     = Some None.
Proof. cbn zeta. repeat split. Qed.

(** Left out of the amended claim: every update also writes
    [mind_target_error = NULL].  Moving the failed pair to another experience
    drops its error message while it stays [failed]. *)
Example moving_a_failed_pair_drops_its_error :
  let req := put_p1 (JObj [("experience_id", JStr "e2")]) in
  let res := Staging.fetch env0 amb0 req world_failed in
  (Staging.mind_target_error <$> Staging.find_pair "p1" (Staging.pairs world_failed))
  = Some (Some "timeout")
  /\ (Staging.mind_target_status <$> Staging.find_pair "p1" (Staging.pairs res.2))
     = Some (Some "failed")
  /\ (Staging.mind_target_error <$> Staging.find_pair "p1" (Staging.pairs res.2))
     = Some None.
Proof. cbn zeta. repeat split. Qed.

End PatchExamples.

(** * Logging in *)
Section LoginFacts.
Context `{RT : Runtime}.

Lemma credentials_rejected_dec us email password :
  Session.credentials_rejected us email password
  \/ ~ Session.credentials_rejected us email password.
Proof.
  unfold Session.credentials_rejected.
  destruct (Session.find_user_by_email email us) as [user|]; [|left; exact I].
  destruct (decide (Session.user_is_active user = 0%Z)) as [Hz|Hz]; [left; left; exact Hz|].
  destruct (decide (Session.hashPassword password (Session.password_salt user)
                    = Session.password_hash user)) as [Hh|Hh].
  - right. intros [H1|H2]; contradiction.
  - left. right. exact Hh.
Qed.

(** The session worker, on a JSON body with a non-blank email and password. *)
Lemma session_login_checks_hash amb request w email password :
  let b := Session.parseJsonBody request in
  truthy b = true ->
  assertString (prop b "email") = Some email ->
  assertString (prop b "password") = Some password ->
  let res := Session.auth_login amb request w in
  (Session.credentials_rejected (Session.users w) email password ->
     res = (Session.invalid_credentials, w))
  /\ (~ Session.credentials_rejected (Session.users w) email password ->
      exists user,
        Session.find_user_by_email email (Session.users w) = Some user
        /\ Session.hashPassword password (Session.password_salt user)
           = Session.password_hash user
        /\ res.1 = Session.jsonResponse (JObj [("token", JStr (Session.random_token amb))]) 200
        /\ Session.sessions res.2
           = Session.sessions w
             ++ [{| Session.token := Session.random_token amb;
                    Session.session_user_id := Session.user_id user;
                    Session.created_at := Session.now_iso amb;
                    Session.expires_at := (Session.now_ms amb + Session.seven_days_ms)%Z |}]
        /\ Session.users res.2 = Session.users w).
Proof.
  intros b Hb He Hp res. subst res. unfold Session.auth_login. fold b.
  rewrite Hb, He, Hp. cbn [negb]. rewrite bind_get.
  unfold Session.credentials_rejected.
  destruct (Session.find_user_by_email email (Session.users w)) as [user|].
  - destruct (bool_decide (Session.user_is_active user = 0%Z)) eqn:Hact.
    + apply bool_decide_eq_true in Hact. split; [reflexivity|].
      intros Hn. exfalso. apply Hn. left. exact Hact.
    + apply bool_decide_eq_false in Hact.
      destruct (bool_decide (Session.hashPassword password (Session.password_salt user)
                             = Session.password_hash user)) eqn:Hh; cbn [negb].
      * apply bool_decide_eq_true in Hh. split.
        { intros [Hz | Hne]; contradiction. }
        intros _. exists user. repeat split; assumption.
      * apply bool_decide_eq_false in Hh. split; [reflexivity|].
        intros Hn. exfalso. apply Hn. right. exact Hh.
  - split; [reflexivity|]. intros Hn. exfalso. apply Hn. exact I.
Qed.

(** The staging worker compares with one fixed credential. *)
Lemma staging_login_fixed_credential env amb request :
  let b := Staging.readBodyAny request in
  let email := toLowerCase (Staging.str_field b "email" "") in
  let password := js_String (js_or (prop b "password") (JStr "")) in
  Staging.login_throws b = false ->
  (email = "admin@local" /\ password = "admin123" ->
     Staging.auth_login env amb request
     = json (JObj [("token", JStr (Staging.issueToken env amb
                                     {| Staging.email := JStr "admin@local" |}));
                   ("build", JStr Staging.BUILD)]) 200)
  /\ (~ (email = "admin@local" /\ password = "admin123") ->
      Staging.auth_login env amb request
      = json (JObj [("error", JStr "Invalid credentials"); ("build", JStr Staging.BUILD);
                    ("seen_email", JStr email)]) 401).
Proof.
  intros b email password Hthrow. unfold Staging.auth_login. fold b. rewrite Hthrow.
  fold email. fold password. split.
  - intros [-> ->]. reflexivity.
  - intros Hn. destruct (bool_decide (email = "admin@local")) eqn:He;
      [|reflexivity].
    destruct (bool_decide (password = "admin123")) eqn:Hp; [|reflexivity].
    apply bool_decide_eq_true in He, Hp. exfalso. apply Hn. split; assumption.
Qed.

(** The token the staging worker issues carries [exp = iat + 7 days]. *)
Lemma issueToken_expiry env amb user :
  let payload :=
    base64urlEncodeText
      (json_stringify
         (JObj [("email", Staging.email user);
                ("iat", JNum (num_of_Z (Staging.now_seconds amb)));
                ("exp", JNum (num_of_Z (Staging.now_seconds amb + Staging.seven_days)))])) in
  Staging.issueToken env amb user
  = payload +:+ "." +:+ hmacSign (Staging.signing_secret env) payload.
Proof. reflexivity. Qed.

(** C9 (as amended).  Session worker: a login whose JSON body carries a
    non-blank email and password looks the user up by email, hashes the
    password with the stored salt and compares with the stored hash; it is
    refused with 401 "Invalid credentials", nothing being stored, exactly when
    the user is unknown or inactive or the hash differs, and otherwise a
    session is stored that expires seven days later and its token is
    returned.  Staging worker: a login whose email and password convert to
    text is accepted exactly for the fixed credential [admin@local]/[admin123]
    (the email trimmed and put in lower case), refused with 401 otherwise, and
    the signed token it issues carries an expiry seven days after its issue
    time. *)
Theorem login_checks_credentials :
  (forall amb request w email password,
      let b := Session.parseJsonBody request in
      truthy b = true ->
      assertString (prop b "email") = Some email ->
      assertString (prop b "password") = Some password ->
      let res := Session.auth_login amb request w in
      (status res.1 = 401%Z <-> Session.credentials_rejected (Session.users w) email password)
      /\ (Session.credentials_rejected (Session.users w) email password ->
          res = (Session.invalid_credentials, w))
      /\ (~ Session.credentials_rejected (Session.users w) email password ->
          exists user,
            Session.find_user_by_email email (Session.users w) = Some user
            /\ Session.hashPassword password (Session.password_salt user)
               = Session.password_hash user
            /\ res.1 = Session.jsonResponse
                         (JObj [("token", JStr (Session.random_token amb))]) 200
            /\ Session.sessions res.2
               = Session.sessions w
                 ++ [{| Session.token := Session.random_token amb;
                        Session.session_user_id := Session.user_id user;
                        Session.created_at := Session.now_iso amb;
                        Session.expires_at
                          := (Session.now_ms amb + Session.seven_days_ms)%Z |}]))
  /\ (forall env amb request,
      let b := Staging.readBodyAny request in
      let email := toLowerCase (Staging.str_field b "email" "") in
      let password := js_String (js_or (prop b "password") (JStr "")) in
      Staging.login_throws b = false ->
      (status (Staging.auth_login env amb request) = 401%Z
       <-> ~ (email = "admin@local" /\ password = "admin123"))
      /\ (email = "admin@local" /\ password = "admin123" ->
          exists payload,
            payload
            = base64urlEncodeText
                (json_stringify
                   (JObj [("email", JStr "admin@local");
                          ("iat", JNum (num_of_Z (Staging.now_seconds amb)));
                          ("exp", JNum (num_of_Z (Staging.now_seconds amb
                                                  + Staging.seven_days)))]))
            /\ Staging.auth_login env amb request
               = json (JObj [("token",
                              JStr (payload +:+ "." +:+
                                    hmacSign (Staging.signing_secret env) payload));
                             ("build", JStr Staging.BUILD)]) 200)).
Proof.
  split.
  - intros amb request w email password b Hb He Hp res.
    destruct (session_login_checks_hash amb request w email password Hb He Hp) as [Hrej Hacc].
    fold res in Hrej, Hacc. split; [|split].
    + split.
      * intros Hst.
        destruct (credentials_rejected_dec (Session.users w) email password) as [Hr | Hn];
          [exact Hr|].
        destruct (Hacc Hn) as (user & _ & _ & Hresp & _). rewrite Hresp in Hst.
        discriminate.
      * intros Hr. rewrite (Hrej Hr). reflexivity.
    + exact Hrej.
    + intros Hn. destruct (Hacc Hn) as (user & Hu & Hh & Hresp & Hs & _).
      exists user. repeat split; assumption.
  - intros env amb request b email password Hthrow.
    destruct (staging_login_fixed_credential env amb request Hthrow) as [Hok Hno].
    fold b in Hok, Hno. fold email in Hok, Hno. fold password in Hok, Hno. split.
    + split.
      * intros Hst [He Hp]. rewrite (Hok (conj He Hp)) in Hst. discriminate.
      * intros Hn. rewrite (Hno Hn). reflexivity.
    + intros Hcred. eexists. split; [reflexivity|]. rewrite (Hok Hcred).
      rewrite issueToken_expiry. reflexivity.
Qed.

End LoginFacts.

Module LoginExamples.
Import TestRuntime Examples.

(** [ann] signs in: a session is stored that ends seven days later. *)
Lemma login_checks_credentials_witness :
  truthy (Session.parseJsonBody login_ann) = true
  /\ assertString (prop (Session.parseJsonBody login_ann) "email") = Some "ann@example.org"
  /\ assertString (prop (Session.parseJsonBody login_ann) "password") = Some "hunter2"
  /\ (status (Session.auth_login session_amb login_ann session_world).1 = 401%Z
      <-> Session.credentials_rejected (Session.users session_world)
            "ann@example.org" "hunter2").
Proof.
  split; [reflexivity|]. split; [reflexivity|]. split; [reflexivity|].
  exact (proj1 (proj1 login_checks_credentials session_amb login_ann session_world
                  "ann@example.org" "hunter2" eq_refl eq_refl eq_refl)).
Defined.

Example ann_gets_a_week :
  Session.auth_login session_amb login_ann session_world
  = (Session.jsonResponse (JObj [("token", JStr "tok-1")]) 200,
     {| Session.users := [ann];
        Session.sessions := [{| Session.token := "tok-1"; Session.session_user_id := "u1";
                                Session.created_at := "2026-02-04T10:00:00.000Z";
                                Session.expires_at := 1770804000000 |}];
        Session.pairs := [] |}).
Proof. reflexivity. Qed.

(** The claim fails on the staging worker: it holds no users, salts or
    hashes, so by the claim's rule every login should be refused as unknown;
    the fixed credential is accepted. *)
Lemma staging_login_knows_no_users :
  Session.credentials_rejected [] "admin@local" "admin123"
  /\ status (Staging.fetch env0 amb0 login_admin empty_world).1 = 200%Z
  /\ (Staging.fetch env0 amb0 login_admin empty_world).2 = empty_world.
Proof. split; [exact I|]. split; reflexivity. Qed.

(** On the session worker a body without a password is a validation error
    (400), not a refused credential, although the email is unknown. *)
Example login_without_password_is_400 :
  let req := session_login (JObj [("email", JStr "nobody@example.org")]) in
  status (Session.auth_login session_amb req session_world).1 = 400%Z
  /\ Session.find_user_by_email "nobody@example.org" (Session.users session_world) = None.
Proof. cbn zeta. split; reflexivity. Qed.

(** White space around the email is not part of it, whatever the character:
    a leading no-break space is trimmed on both workers, and an email that is
    nothing else is missing (session worker, 400). *)
Example padded_email_signs_in :
  status (Staging.fetch env0 amb0
            (request "POST" "/auth/login" None None
               (JObj [("email", JStr (nbsp +:+ "Admin@Local"));
                      ("password", JStr "admin123")]))
            empty_world).1 = 200%Z
  /\ status (Session.auth_login session_amb
               (session_login (JObj [("email", JStr (nbsp +:+ "ann@example.org"));
                                     ("password", JStr "hunter2")]))
               session_world).1 = 200%Z
  /\ status (Session.auth_login session_amb
               (session_login (JObj [("email", JStr nbsp); ("password", JStr "hunter2")]))
               session_world).1 = 400%Z.
Proof. cbn zeta. repeat split. Qed.

(** An email that cannot be converted to text: the staging worker answers
    500 with the message of the TypeError. *)
Example unconvertible_email_is_500 :
  Staging.fetch env0 amb0
    (request "POST" "/auth/login" None None
       (JObj [("email", JObj [("toString", JNull)]); ("password", JStr "admin123")]))
    empty_world
  = (Staging.type_error, empty_world).
Proof. reflexivity. Qed.

End LoginExamples.

(** * Public resolution *)
Section PublicFacts.
Context `{RT : Runtime}.

Lemma first_by_in {A} (before : A -> A -> bool) (l : list A) (x : A) :
  Staging.first_by before l = Some x -> In x l.
Proof.
  revert x. induction l as [|y l IH]; intros x; [discriminate|]. cbn.
  destruct (Staging.first_by before l) as [z|].
  - destruct (before z y); intros [= <-]; [right; apply IH; reflexivity | left; reflexivity].
  - intros [= <-]. left. reflexivity.
Qed.

Lemma first_by_none {A} (before : A -> A -> bool) (l : list A) :
  Staging.first_by before l = None <-> l = [].
Proof.
  destruct l as [|y l]; [split; reflexivity|]. cbn.
  destruct (Staging.first_by before l) as [z|]; [destruct (before z y)|];
    split; discriminate.
Qed.

(** The pair the endpoint serves is an active pair of the experience, and
    there is none exactly when the experience has no active pair. *)
Lemma select_public_pair_some expId ps p :
  Staging.select_public_pair expId ps = Some p ->
  In p ps /\ Staging.experience_id p = expId /\ Staging.pair_is_active p = 1%Z.
Proof.
  unfold Staging.select_public_pair. intros Hs. apply first_by_in in Hs.
  apply List.filter_In in Hs as [Hin Hb]. apply andb_true_iff in Hb as [H1 H2].
  apply bool_decide_eq_true in H1, H2. repeat split; assumption.
Qed.

Lemma select_public_pair_none expId ps :
  Staging.select_public_pair expId ps = None
  <-> forall r, In r ps ->
        ~ (Staging.experience_id r = expId /\ Staging.pair_is_active r = 1%Z).
Proof.
  unfold Staging.select_public_pair. rewrite first_by_none. split.
  - intros Hnil r Hin [H1 H2].
    assert (In r (List.filter
                    (fun r => bool_decide (Staging.experience_id r = expId)
                              && bool_decide (Staging.pair_is_active r = 1%Z)) ps)) as Hf.
    { apply List.filter_In. split; [exact Hin|].
      rewrite !bool_decide_eq_true_2 by assumption. reflexivity. }
    rewrite Hnil in Hf. destruct Hf.
  - intros Hall.
    destruct (List.filter _ ps) as [|r l] eqn:Hf; [reflexivity|].
    assert (In r (r :: l)) as Hin by (left; reflexivity).
    rewrite <- Hf in Hin. apply List.filter_In in Hin as [Hin Hb].
    apply andb_true_iff in Hb as [H1 H2]. apply bool_decide_eq_true in H1, H2.
    exfalso. exact (Hall r Hin (conj H1 H2)).
Qed.


Lemma mindarTargetUrl_of_some origin pair url :
  Staging.mindarTargetUrl_of origin pair = Some url
  <-> exists p a, pair = Some p /\ Staging.mind_target_status p = Some "ready"
        /\ Staging.mind_target_asset_id p = Some a /\ a <> ""
        /\ url = Staging.public_asset_url origin a.
Proof.
  unfold Staging.mindarTargetUrl_of. split.
  - destruct pair as [p|]; [|discriminate].
    destruct (Staging.mind_target_status p) as [st|] eqn:Hst; [|discriminate].
    destruct (Staging.mind_target_asset_id p) as [a|] eqn:Ha; [|discriminate].
    destruct (bool_decide (st = "ready")) eqn:Hr; [|discriminate].
    destruct (str_truthy a) eqn:Ht; [|discriminate]. cbn. intros [= <-].
    apply bool_decide_eq_true in Hr. apply str_truthy_true in Ht. subst st.
    exists p, a. repeat split; assumption.
  - intros (p & a & -> & Hst & Ha & Hne & ->). rewrite Hst, Ha.
    apply str_truthy_true in Hne. rewrite Hne. reflexivity.
Qed.

(** The answer of the endpoint, case by case. *)
Lemma public_experience_cases request qrId w :
  let res := Staging.public_experience request qrId w in
  res.2 = w
  /\ match Staging.find_experience_by_qr qrId (Staging.experiences w) with
     | None => res.1 = Staging.not_found
     | Some exp =>
         if bool_decide (Staging.exp_is_active exp = 0%Z) then res.1 = Staging.not_found
         else
           let pair := Staging.select_public_pair (Staging.exp_id exp) (Staging.pairs w) in
           status res.1 = 200%Z
           /\ answer_field res.1 "mindarTargetUrl"
              = opt_str (Staging.mindarTargetUrl_of (Staging.origin request) pair)
           /\ answer_field res.1 "videoUrl"
              = opt_str (Staging.videoUrl_of (Staging.origin request) pair)
           /\ answer_field res.1 "mind_target_status"
              = opt_str (pair ≫= Staging.mind_target_status)
     end.
Proof.
  cbn zeta. unfold Staging.public_experience. rewrite bind_get.
  destruct (Staging.find_experience_by_qr qrId (Staging.experiences w)) as [exp|];
    [|split; reflexivity].
  destruct (bool_decide (Staging.exp_is_active exp = 0%Z)); [split; reflexivity|].
  repeat split.
Qed.


(** C5.  In every answer of the endpoint the tracking-target URL and the
    status agree: [mindarTargetUrl] is non-null exactly when the served pair
    is [ready] with a target asset bound; a 404 answer (unknown code or
    inactive experience) carries no URL at all; and when the experience has
    no active pair, both URLs and the status are null. *)
Theorem public_resolution_urls_agree request qrId w :
  let res := Staging.public_experience request qrId w in
  (status res.1 = 404%Z
   /\ answer_field res.1 "mindarTargetUrl" = JUndefined
   /\ answer_field res.1 "videoUrl" = JUndefined
   /\ answer_field res.1 "mind_target_status" = JUndefined
   /\ forall e, Staging.find_experience_by_qr qrId (Staging.experiences w) = Some e ->
        Staging.exp_is_active e = 0%Z)
  \/ (status res.1 = 200%Z
      /\ exists e, Staging.find_experience_by_qr qrId (Staging.experiences w) = Some e
         /\ Staging.exp_is_active e <> 0%Z
         /\ let pair := Staging.select_public_pair (Staging.exp_id e) (Staging.pairs w) in
            (answer_field res.1 "mindarTargetUrl" <> JNull
             <-> exists p a, pair = Some p
                   /\ Staging.mind_target_status p = Some "ready"
                   /\ Staging.mind_target_asset_id p = Some a /\ a <> "")
            /\ answer_field res.1 "mind_target_status"
               = opt_str (pair ≫= Staging.mind_target_status)
            /\ ((forall r, In r (Staging.pairs w) ->
                   ~ (Staging.experience_id r = Staging.exp_id e
                      /\ Staging.pair_is_active r = 1%Z)) ->
                answer_field res.1 "mindarTargetUrl" = JNull
                /\ answer_field res.1 "videoUrl" = JNull
                /\ answer_field res.1 "mind_target_status" = JNull)).
Proof.
  intros res. pose proof (public_experience_cases request qrId w) as [_ Hc]. fold res in Hc.
  destruct (Staging.find_experience_by_qr qrId (Staging.experiences w)) as [exp|] eqn:Hf.
  - destruct (bool_decide (Staging.exp_is_active exp = 0%Z)) eqn:Hact.
    + apply bool_decide_eq_true in Hact. left. rewrite Hc.
      repeat split. intros e [= <-]. exact Hact.
    + apply bool_decide_eq_false in Hact. right. cbn zeta in Hc.
      destruct Hc as (Hst & Hm & Hv & Hs). split; [exact Hst|].
      exists exp. split; [reflexivity|]. split; [exact Hact|]. cbn zeta.
      split; [|split].
      * rewrite Hm. split.
        { destruct (Staging.mindarTargetUrl_of _ _) as [url|] eqn:Hu;
            [|intros Hn; contradiction].
          intros _. apply mindarTargetUrl_of_some in Hu as (p & a & Hp & Hr & Ha & Hne & _).
          exists p, a. repeat split; assumption. }
        intros (p & a & Hp & Hr & Ha & Hne).
        assert (Staging.mindarTargetUrl_of (Staging.origin request)
                  (Staging.select_public_pair (Staging.exp_id exp) (Staging.pairs w))
                = Some (Staging.public_asset_url (Staging.origin request) a)) as ->.
        { apply mindarTargetUrl_of_some. exists p, a. repeat split; assumption. }
        discriminate.
      * exact Hs.
      * intros Hnone. apply select_public_pair_none in Hnone.
        rewrite Hm, Hv, Hs, Hnone. repeat split.
  - left. rewrite Hc. repeat split. intros e [=].
Qed.

End PublicFacts.

Module PublicExamples.
Import TestRuntime Examples.



(** The two scenarios of the spec, after the callbacks. *)
Example failed_pair_is_served_without_target :
  let w := (Staging.fetch env0 amb0 callback_error world_pending).2 in
  let res := Staging.fetch env0 amb0 (scan "ab12cd34ef") w in
  answer_field res.1 "mind_target_status" = JStr "failed"
  /\ answer_field res.1 "mindarTargetUrl" = JNull
  /\ answer_field res.1 "videoUrl" = JStr "https://api.example/public/assets/vid1".
Proof. cbn zeta. repeat split. Qed.

Example ready_pair_is_served_with_target :
  let w := (Staging.fetch env0 amb0 callback_ready world_failed).2 in
  let res := Staging.fetch env0 amb0 (scan "ab12cd34ef") w in
  answer_field res.1 "mind_target_status" = JStr "ready"
  /\ answer_field res.1 "mindarTargetUrl" = JStr "https://api.example/public/assets/mind1".
Proof. cbn zeta. repeat split. Qed.

End PublicExamples.

(** * The gate and the job secret *)
Section GateFacts.
Context `{RT : Runtime}.

Lemma strip_prefix_app p s r : strip_prefix p s = Some r -> s = p +:+ r.
Proof.
  revert s. induction p as [|a p IH]; intros s; cbn.
  - intros [= ->]. reflexivity.
  - destruct s as [|b s]; [discriminate|].
    destruct (decide (a = b)) as [->|]; [|discriminate].
    intros Hs. rewrite (IH _ Hs). reflexivity.
Qed.

Lemma startsWith_app s p : startsWith s p = true -> exists r, s = p +:+ r.
Proof.
  unfold startsWith. intros Hb. apply bool_decide_eq_true in Hb as [r Hr].
  exists r. apply strip_prefix_app. exact Hr.
Qed.

(** The first three characters of a protected path. *)
Lemma needsAuth_head path :
  Staging.needsAuth path = true ->
  exists rest, path = "/ex" +:+ rest \/ path = "/pa" +:+ rest \/ path = "/up" +:+ rest.
Proof.
  unfold Staging.needsAuth. intros Hn.
  apply orb_true_iff in Hn as [Hn | Hn]; [apply orb_true_iff in Hn as [Hn | Hn]|];
    apply startsWith_app in Hn as [r ->]; eexists; [left | right; left | right; right];
    reflexivity.
Qed.

Lemma isJobSecretValid_spec env request secret :
  Staging.MINDAR_JOB_SECRET env = Some secret -> secret <> "" ->
  Staging.header_x_job_secret request = Some secret ->
  Staging.isJobSecretValid env request = true.
Proof.
  intros Hs Hne Hh. unfold Staging.isJobSecretValid. rewrite Hs, Hh.
  apply str_truthy_true in Hne. unfold or_str. rewrite !Hne.
  rewrite bool_decide_eq_true_2 by reflexivity. reflexivity.
Qed.

Lemma gate_open_with_secret env request user :
  Staging.isJobSecretValid env request = true -> Staging.gate_rejects env request user = false.
Proof.
  intros Hv. unfold Staging.gate_rejects. rewrite Hv. cbn. apply andb_false_r.
Qed.

(** No public or auth route answers on a protected path. *)
Lemma fetch_behind_gate env amb request w :
  Staging.needsAuth (Staging.pathname request) = true ->
  Staging.method request <> "OPTIONS" ->
  Staging.fetch env amb request w
  = if Staging.gate_rejects env request (Staging.requireUser request env amb)
    then (Staging.unauthorized, w)
    else Staging.protected_routes env amb request (Staging.requireUser request env amb) w.
Proof.
  intros Hn Hm. unfold Staging.fetch, Staging.is_method.
  rewrite (bool_decide_eq_false_2 _ Hm).
  destruct (needsAuth_head _ Hn) as [rest [Hp | [Hp | Hp]]]; rewrite Hp;
    cbn -[Staging.protected_routes Staging.gate_rejects Staging.requireUser];
    destruct (bool_decide (Staging.method request = "GET"));
    destruct (bool_decide (Staging.method request = "POST"));
    cbn -[Staging.protected_routes Staging.gate_rejects Staging.requireUser];
    destruct (Staging.gate_rejects _ _ _); reflexivity.
Qed.

(** ** Where the routes of the claims sit in [fetch] *)

(** A signed upload needs nothing but its token: neither a bearer token nor
    the job secret is looked at. *)
Lemma fetch_uploads_put env amb request rest w :
  Staging.method request = "PUT" ->
  Staging.pathname request = "/uploads/put/" +:+ rest ->
  Staging.fetch env amb request w = Staging.uploads_put env request rest w.
Proof.
  intros Hm Hp.
  assert (Staging.needsAuth (Staging.pathname request) = true) as Hn by (rewrite Hp; reflexivity).
  rewrite (fetch_behind_gate env amb request w Hn) by (rewrite Hm; discriminate).
  unfold Staging.gate_rejects, Staging.isUploadPut, Staging.protected_routes,
    Staging.is_method.
  rewrite Hp, Hm. cbn -[Staging.uploads_put Staging.requireUser Staging.isJobSecretValid].
  rewrite andb_false_r. reflexivity.
Qed.

(** The completion callback is outside the gate. *)
Lemma fetch_jobs_mindar_complete env amb request w :
  Staging.method request = "POST" ->
  Staging.pathname request = "/jobs/mindar/complete" ->
  Staging.fetch env amb request w = Staging.jobs_mindar_complete env amb request w.
Proof.
  intros Hm Hp. unfold Staging.fetch, Staging.protected_routes, Staging.gate_rejects,
    Staging.is_method.
  rewrite Hp, Hm. reflexivity.
Qed.

(** Public resolution answers before any credential is read. *)
Lemma fetch_public_experience env amb request seg qrId w :
  Staging.method request = "GET" ->
  Staging.match_route "/public/experience/" "" (Staging.pathname request) = Some seg ->
  decodeURIComponent seg = Some qrId ->
  Staging.fetch env amb request w = Staging.public_experience request qrId w.
Proof.
  intros Hm Hr Hd. unfold Staging.fetch, Staging.is_method. rewrite Hm.
  rewrite (bool_decide_eq_false_2 ("GET" = "OPTIONS")) by discriminate.
  rewrite !(bool_decide_eq_true_2 ("GET" = "GET")) by reflexivity.
  rewrite Hr. unfold Staging.match_route in Hr.
  destruct (strip_prefix "/public/experience/" (Staging.pathname request)) as [rest|] eqn:Hs;
    [|discriminate].
  apply strip_prefix_app in Hs. rewrite Hs.
  assert (bool_decide ("/public/experience/" +:+ rest = "/api/health") = false) as ->
    by reflexivity.
  assert (startsWith ("/public/experience/" +:+ rest) "/public/assets/" = false) as ->
    by reflexivity.
  cbn [andb]. unfold Staging.with_decoded. rewrite Hd. reflexivity.
Qed.

(** The explicit dispatch is outside the gate too; the handler asks for the
    user itself. *)
Lemma fetch_jobs_mindar_dispatch env amb request w :
  Staging.method request = "POST" ->
  Staging.pathname request = "/jobs/mindar/dispatch" ->
  Staging.fetch env amb request w
  = Staging.jobs_mindar_dispatch env amb request (Staging.requireUser request env amb) w.
Proof.
  intros Hm Hp. unfold Staging.fetch, Staging.protected_routes, Staging.gate_rejects,
    Staging.is_method.
  rewrite Hp, Hm. reflexivity.
Qed.

(** Past the gate, [PUT /pairs/:id] and [POST /experiences/:id/pairs] reach
    their handlers. *)
Lemma fetch_pairs_put env amb request seg pairId w :
  Staging.method request = "PUT" ->
  Staging.match_route "/pairs/" "" (Staging.pathname request) = Some seg ->
  decodeURIComponent seg = Some pairId ->
  Staging.gate_rejects env request (Staging.requireUser request env amb) = false ->
  Staging.fetch env amb request w = Staging.pairs_put env amb request pairId w.
Proof.
  intros Hm Hr Hd Hg.
  assert (exists rest, Staging.pathname request = "/pairs/" +:+ rest) as [rest Hs].
  { unfold Staging.match_route in Hr.
    destruct (strip_prefix "/pairs/" (Staging.pathname request)) as [rest|] eqn:Hs;
      [|discriminate].
    exists rest. apply strip_prefix_app. exact Hs. }
  assert (Staging.needsAuth (Staging.pathname request) = true) as Hn by (rewrite Hs; reflexivity).
  rewrite (fetch_behind_gate env amb request w Hn) by (rewrite Hm; discriminate).
  rewrite Hg. unfold Staging.protected_routes, Staging.is_method, Staging.with_decoded.
  rewrite Hm, Hr, Hs, Hd. reflexivity.
Qed.

Lemma fetch_pairs_create env amb request seg expId w :
  Staging.method request = "POST" ->
  Staging.match_route "/experiences/" "/pairs" (Staging.pathname request) = Some seg ->
  decodeURIComponent seg = Some expId ->
  Staging.gate_rejects env request (Staging.requireUser request env amb) = false ->
  Staging.fetch env amb request w = Staging.pairs_create env amb request expId w.
Proof.
  intros Hm Hr Hd Hg.
  assert (exists rest, Staging.pathname request = "/experiences/" +:+ rest
                       /\ Staging.take_segment rest = (seg, "/pairs")) as (rest & Hs & Ht).
  { unfold Staging.match_route in Hr.
    destruct (strip_prefix "/experiences/" (Staging.pathname request)) as [rest|] eqn:Hs;
      [|discriminate].
    exists rest. split; [apply strip_prefix_app; exact Hs|].
    destruct (Staging.take_segment rest) as [sg tl].
    destruct (str_truthy sg); [|discriminate].
    destruct (bool_decide (tl = "/pairs")) eqn:Hb; [|discriminate].
    apply bool_decide_eq_true in Hb. cbn in Hr. congruence. }
  assert (Staging.needsAuth (Staging.pathname request) = true) as Hn by (rewrite Hs; reflexivity).
  rewrite (fetch_behind_gate env amb request w Hn) by (rewrite Hm; discriminate).
  rewrite Hg. unfold Staging.protected_routes, Staging.is_method, Staging.with_decoded.
  rewrite Hm, Hr. unfold Staging.match_route. rewrite Hs.
  assert (strip_prefix "/experiences/" ("/experiences/" +:+ rest) = Some rest) as ->
    by reflexivity.
  rewrite Ht, Hd. cbn [str_truthy andb].
  assert (bool_decide ("/experiences/" +:+ rest = "/uploads/sign") = false) as ->
    by reflexivity.
  assert (startsWith ("/experiences/" +:+ rest) "/uploads/put/" = false) as -> by reflexivity.
  assert (bool_decide ("/experiences/" +:+ rest = "/uploads/complete") = false) as ->
    by reflexivity.
  assert (startsWith ("/experiences/" +:+ rest) "/assets/" = false) as -> by reflexivity.
  assert (bool_decide ("/experiences/" +:+ rest = "/jobs/mindar/dispatch") = false) as ->
    by reflexivity.
  assert (bool_decide ("/experiences/" +:+ rest = "/jobs/mindar/complete") = false) as ->
    by reflexivity.
  assert (bool_decide ("/experiences/" +:+ rest = "/experiences") = false) as Hne.
  { apply bool_decide_eq_false_2. intros Heq.
    assert (String.length ("/experiences/" +:+ rest) = String.length "/experiences") as Hl
      by (rewrite Heq; reflexivity).
    cbn in Hl. discriminate. }
  rewrite Hne. cbn [andb].
  assert (bool_decide ("/pairs" = "") = false) as -> by reflexivity.
  rewrite andb_false_r. reflexivity.
Qed.

(** On a protected path no route looks at who is signed in. *)
Lemma protected_routes_ignore_user env amb request user user' w :
  Staging.needsAuth (Staging.pathname request) = true ->
  Staging.protected_routes env amb request user w
  = Staging.protected_routes env amb request user' w.
Proof.
  intros Hn. unfold Staging.protected_routes, Staging.is_method.
  destruct (needsAuth_head _ Hn) as [rest [Hp | [Hp | Hp]]]; rewrite Hp;
    cbn -[Staging.uploads_sign Staging.uploads_put Staging.uploads_complete
          Staging.experiences_list Staging.experiences_create Staging.experiences_get
          Staging.experiences_put Staging.experiences_delete Staging.pairs_list
          Staging.pairs_create Staging.pairs_put Staging.pairs_delete
          Staging.with_decoded Staging.match_route];
    reflexivity.
Qed.

(** C10.  On the staging worker, a request to a path under [/experiences],
    [/pairs] or [/uploads] whose [x-job-secret] header equals the configured,
    non-empty [MINDAR_JOB_SECRET] passes the gate whatever its bearer token:
    it is served by the route it names, with the answer and the effects a
    signed-in user would get. *)
Theorem job_secret_opens_protected_routes env amb request secret w :
  Staging.needsAuth (Staging.pathname request) = true ->
  Staging.MINDAR_JOB_SECRET env = Some secret -> secret <> "" ->
  Staging.header_x_job_secret request = Some secret ->
  (forall user, Staging.gate_rejects env request user = false)
  /\ (Staging.method request <> "OPTIONS" ->
      forall user,
        Staging.fetch env amb request w = Staging.protected_routes env amb request user w).
Proof.
  intros Hn Hs Hne Hh.
  pose proof (isJobSecretValid_spec env request secret Hs Hne Hh) as Hv.
  split.
  - intros user. apply gate_open_with_secret. exact Hv.
  - intros Hm user. rewrite (fetch_behind_gate env amb request w Hn Hm).
    rewrite (gate_open_with_secret env request _ Hv).
    apply protected_routes_ignore_user. exact Hn.
Qed.

End GateFacts.

Module GateExamples.
Import TestRuntime Examples.

Lemma job_secret_opens_protected_routes_witness :
  Staging.needsAuth (Staging.pathname create_by_job) = true
  /\ Staging.MINDAR_JOB_SECRET env0 = Some "job-secret" /\ "job-secret" <> ""
  /\ Staging.header_x_job_secret create_by_job = Some "job-secret"
  /\ Staging.gate_rejects env0 create_by_job None = false.
Proof.
  split; [reflexivity|]. split; [reflexivity|]. split; [discriminate|]. split; [reflexivity|].
  refine (proj1 (job_secret_opens_protected_routes env0 amb0 create_by_job "job-secret"
                   empty_world eq_refl eq_refl _ eq_refl) None).
  discriminate.
Defined.

(** With the job secret and no bearer token an experience is created; the
    same request without the secret is turned away. *)
Example job_secret_creates_an_experience :
  status (Staging.fetch env0 amb0 create_by_job empty_world).1 = 200%Z
  /\ Staging.exp_name <$> Staging.experiences (Staging.fetch env0 amb0 create_by_job empty_world).2
     = ["Second"]
  /\ Staging.fetch env0 amb0 create_by_nobody empty_world = (Staging.unauthorized, empty_world).
Proof. cbn zeta. repeat split. Qed.

End GateExamples.

(** * The generation state of a pair *)
Section StateFacts.
Context `{RT : Runtime}.

Lemma find_pair_in id ps r : Staging.find_pair id ps = Some r -> In r ps.
Proof. unfold Staging.find_pair. intros Hf. apply List.find_some in Hf as [Hin _]. exact Hin. Qed.

Lemma find_pair_unique ps r :
  NoDup (Staging.pair_id <$> ps) -> In r ps -> Staging.find_pair (Staging.pair_id r) ps = Some r.
Proof.
  unfold Staging.find_pair. induction ps as [|x ps IH]; intros Hnd Hin; [destruct Hin|].
  cbn in Hnd. apply NoDup_cons in Hnd as [Hx Hnd]. cbn.
  destruct (bool_decide (Staging.pair_id x = Staging.pair_id r)) eqn:Hb.
  - apply bool_decide_eq_true in Hb. destruct Hin as [-> | Hin]; [reflexivity|].
    exfalso. apply Hx. rewrite Hb. apply list_elem_of_fmap. exists r.
    split; [reflexivity | apply list_elem_of_In; exact Hin].
  - apply bool_decide_eq_false in Hb. destruct Hin as [-> | Hin]; [contradiction|].
    apply IH; assumption.
Qed.

Lemma NoDup_filter_ids (P : Staging.PairRow -> bool) ps :
  NoDup (Staging.pair_id <$> ps) -> NoDup (Staging.pair_id <$> List.filter P ps).
Proof.
  induction ps as [|x ps IH]; intros Hnd; [exact Hnd|].
  cbn in Hnd. apply NoDup_cons in Hnd as [Hx Hnd]. cbn.
  destruct (P x); [|apply IH; exact Hnd].
  cbn. apply NoDup_cons. split; [|apply IH; exact Hnd].
  intros Hin. apply Hx. apply list_elem_of_fmap in Hin as (y & Hy & Hin).
  apply list_elem_of_fmap. exists y. split; [exact Hy|].
  apply list_elem_of_In. apply list_elem_of_In in Hin.
  apply List.filter_In in Hin as [Hin _]. exact Hin.
Qed.

Lemma row_ok_in ps r : Staging.table_ok ps -> In r ps -> Staging.row_ok r.
Proof.
  intros [_ Hall] Hin. rewrite Forall_forall in Hall. apply Hall.
  apply list_elem_of_In. exact Hin.
Qed.

(** ** The shapes a request gives the table *)

Lemma status_change_same request r : Staging.status_change request (Some r) r.
Proof. intros Hne. exfalso. apply Hne. reflexivity. Qed.

Lemma keeps_refl request ps : Staging.table_ok ps -> Staging.request_keeps request ps ps.
Proof.
  intros Hok. split; [exact Hok|]. intros id r' Hf. rewrite Hf. apply status_change_same.
Qed.

(** A [DELETE]: the rows that stay are as they were. *)
Lemma keeps_filter request (P : Staging.PairRow -> bool) ps :
  Staging.table_ok ps -> Staging.request_keeps request ps (List.filter P ps).
Proof.
  intros [Hnd Hall]. split; [split|].
  - apply NoDup_filter_ids. exact Hnd.
  - rewrite Forall_forall in Hall |- *. intros r Hin. apply Hall.
    apply list_elem_of_In. apply list_elem_of_In in Hin.
    apply List.filter_In in Hin as [Hin _]. exact Hin.
  - intros id r' Hf.
    pose proof (find_pair_id _ _ _ Hf) as Hid. apply find_pair_in in Hf.
    apply List.filter_In in Hf as [Hin _].
    rewrite <- Hid, (find_pair_unique ps r' Hnd Hin). apply status_change_same.
Qed.

(** An [UPDATE ... WHERE id = ?], or several of them on the same id. *)
Lemma keeps_update request id f ps :
  Staging.table_ok ps ->
  (forall r, Staging.pair_id (f r) = Staging.pair_id r) ->
  (forall r, Staging.find_pair id ps = Some r -> Staging.row_ok r ->
     Staging.row_ok (f r) /\ Staging.status_change request (Some r) (f r)) ->
  Staging.request_keeps request ps (Staging.update_where_id id f ps).
Proof.
  intros Hok Hid Hrow. pose proof Hok as [Hnd Hall]. split; [split|].
  - unfold Staging.update_where_id. change (List.map ?g ?l) with (g <$> l).
    rewrite <- list_fmap_compose.
    erewrite list_fmap_ext; [exact Hnd|]. intros i r _. cbn.
    destruct (bool_decide _); [apply Hid | reflexivity].
  - unfold Staging.update_where_id. change (List.map ?g ?l) with (g <$> l).
    apply Forall_fmap. rewrite Forall_forall in Hall |- *. intros r Hin. cbn.
    destruct (bool_decide (Staging.pair_id r = id)) eqn:Hb; [|apply Hall; exact Hin].
    apply bool_decide_eq_true in Hb. apply Hrow; [|apply Hall; exact Hin].
    rewrite <- Hb. apply find_pair_unique; [exact Hnd|]. apply list_elem_of_In. exact Hin.
  - intros id' r' Hf. rewrite find_pair_update in Hf by exact Hid.
    destruct (Staging.find_pair id' ps) as [r0|] eqn:H0; [|discriminate].
    cbn in Hf. injection Hf as <-.
    destruct (bool_decide (Staging.pair_id r0 = id)) eqn:Hb; [|apply status_change_same].
    apply bool_decide_eq_true in Hb. pose proof (find_pair_id _ _ _ H0) as Hid'.
    apply Hrow.
    + rewrite <- Hb, Hid'. exact H0.
    + apply (row_ok_in ps); [exact Hok|]. apply (find_pair_in _ _ _ H0).
Qed.

(** An [INSERT] under a fresh id. *)
Lemma keeps_insert request r ps :
  Staging.table_ok ps ->
  ~ Exists (fun x => Staging.pair_id x = Staging.pair_id r) ps ->
  Staging.row_ok r -> Staging.status_change request None r ->
  Staging.request_keeps request ps (ps ++ [r]).
Proof.
  intros [Hnd Hall] Hfresh Hrow Hch. split; [split|].
  - rewrite fmap_app. apply NoDup_app. split; [exact Hnd|]. split.
    + intros x Hx Hx'. apply list_elem_of_fmap in Hx as (y & -> & Hy).
      cbn in Hx'. apply list_elem_of_singleton in Hx'.
      apply Hfresh. apply Exists_exists. exists y. split; assumption.
    + cbn. apply NoDup_singleton.
  - apply Forall_app. split; [exact Hall|]. apply Forall_singleton. exact Hrow.
  - intros id r' Hf. rewrite find_pair_app in Hf.
    destruct (Staging.find_pair id ps) as [x|] eqn:Hx.
    + injection Hf as <-. apply status_change_same.
    + unfold Staging.find_pair in Hf. cbn in Hf.
      destruct (bool_decide (Staging.pair_id r = id)); [|discriminate].
      injection Hf as <-. exact Hch.
Qed.

Lemma update_where_id_id id ps : Staging.update_where_id id (fun r => r) ps = ps.
Proof.
  unfold Staging.update_where_id. induction ps as [|r ps IH]; [reflexivity|].
  cbn. rewrite IH. destruct (bool_decide _); reflexivity.
Qed.

Lemma update_where_id_twice id f g ps :
  (forall r, Staging.pair_id (g r) = Staging.pair_id r) ->
  Staging.update_where_id id f (Staging.update_where_id id g ps)
  = Staging.update_where_id id (fun r => f (g r)) ps.
Proof.
  intros Hg. unfold Staging.update_where_id. induction ps as [|r ps IH]; [reflexivity|].
  cbn. rewrite IH. destruct (bool_decide (Staging.pair_id r = id)) eqn:Hb; [|rewrite Hb; reflexivity].
  rewrite Hg, Hb. reflexivity.
Qed.

Lemma update_where_id_snoc id f ps r :
  ~ Exists (fun x => Staging.pair_id x = id) ps -> Staging.pair_id r = id ->
  Staging.update_where_id id f (ps ++ [r]) = ps ++ [f r].
Proof.
  intros Hfresh Hr. unfold Staging.update_where_id. induction ps as [|x ps IH]; cbn.
  - rewrite bool_decide_eq_true_2 by exact Hr. reflexivity.
  - rewrite bool_decide_eq_false_2.
    + rewrite IH; [reflexivity|]. intros Hex. apply Hfresh. apply Exists_cons_tl. exact Hex.
    + intros Hx. apply Hfresh. apply Exists_cons_hd. exact Hx.
Qed.

Lemma settle_keeps_id env amb r :
  Staging.pair_id (Staging.settle env amb r) = Staging.pair_id r.
Proof. unfold Staging.settle. destruct (Staging.trigger env amb) as [[|]|]; reflexivity. Qed.

Lemma settle_pair_update env amb id ps :
  Staging.settle_pair env amb id ps = Staging.update_where_id id (Staging.settle env amb) ps.
Proof.
  unfold Staging.settle_pair, Staging.settle.
  destruct (Staging.trigger env amb) as [[|]|];
    [symmetry; apply update_where_id_id | reflexivity | symmetry; apply update_where_id_id].
Qed.

(** A row that a dispatching route has marked [pending], after the trigger. *)
Lemma settle_row env amb request before r :
  Staging.mind_target_status r = Some "pending" ->
  Staging.is_pair_create request || Staging.is_retry request || Staging.is_pair_update request
  = true ->
  Staging.status_change request before r ->
  Staging.row_ok (Staging.settle env amb r)
  /\ Staging.status_change request before (Staging.settle env amb r).
Proof.
  intros Hst Hroute Hch. unfold Staging.settle.
  destruct (Staging.trigger env amb) as [[|]|msg].
  - split; [|exact Hch]. split; [left; exact Hst|]. rewrite Hst. discriminate.
  - split.
    + split; [right; right; reflexivity | discriminate].
    + intros _. right. right. split; [reflexivity|]. split.
      * eexists. split; [reflexivity | discriminate].
      * right. split; [reflexivity | exact Hroute].
  - split; [|exact Hch]. split; [left; exact Hst|]. rewrite Hst. discriminate.
Qed.

(** ** Handlers *)

Lemma keeps_quiet {A} request (c : Staging.H A) w :
  Staging.pairs (c w).2 = Staging.pairs w -> Staging.keeps_at request w c.
Proof. intros Heq Hok. rewrite Heq. apply keeps_refl. exact Hok. Qed.

Lemma keeps_ret {A} request (a : A) w : Staging.keeps_at request w (ret a).
Proof. apply keeps_quiet. reflexivity. Qed.

Lemma keeps_with_decoded request w seg (k : string -> Staging.H Response) :
  (forall v, Staging.keeps_at request w (k v)) ->
  Staging.keeps_at request w (Staging.with_decoded seg k).
Proof.
  intros Hk. unfold Staging.with_decoded.
  destruct (decodeURIComponent seg); [apply Hk | apply keeps_ret].
Qed.

Lemma or_str_nonempty o d : d <> "" -> or_str o d <> "".
Proof.
  intros Hd. unfold or_str. destruct o as [s|]; [|exact Hd].
  destruct (str_truthy s) eqn:Hs; [apply str_truthy_true; exact Hs | exact Hd].
Qed.

(** The completion callback: [failed] with a message, or [ready] with the
    target asset, whatever the pair was. *)
Lemma keeps_jobs_mindar_complete env amb request w :
  Staging.is_callback request = true ->
  Staging.keeps_at request w (Staging.jobs_mindar_complete env amb request).
Proof.
  intros Hroute. unfold Staging.jobs_mindar_complete.
  destruct (negb (Staging.isJobSecretValid env request)); [apply keeps_ret|].
  destruct (Staging.callback_throws _); [apply keeps_ret|]. cbv zeta.
  destruct (negb (str_truthy (Staging.str_field _ "pairId" ""))); [apply keeps_ret|].
  destruct (str_truthy (Staging.errorMessage_of _)
            || negb (str_truthy (Staging.str_field _ "mindAssetId" ""))) eqn:Hc.
  - intros Hok. apply keeps_update; [exact Hok | reflexivity|].
    intros r _ _. split.
    + split; [right; right; reflexivity | discriminate].
    + intros _. right. right. split; [reflexivity|]. split; [|left; exact Hroute].
      eexists. split; [reflexivity|]. apply or_str_nonempty. discriminate.
  - apply orb_false_iff in Hc as [_ Hm]. apply negb_false_iff, str_truthy_true in Hm.
    intros Hok. apply keeps_update; [exact Hok | reflexivity|].
    intros r _ _.
    assert (Staging.has_target
              (Staging.complete_ready
                 (Staging.str_field (Staging.readBodyAny request) "mindAssetId" "")
                 (Staging.now_iso amb) r)) as Htarget.
    { eexists. split; [reflexivity | exact Hm]. }
    split.
    + split; [right; left; reflexivity | intros _; exact Htarget].
    + intros _. right. left. split; [reflexivity|]. split; [exact Hroute | exact Htarget].
Qed.

(** The explicit retry. *)
Lemma keeps_jobs_mindar_dispatch env amb request user w :
  Staging.is_retry request = true ->
  Staging.keeps_at request w (Staging.jobs_mindar_dispatch env amb request user).
Proof.
  intros Hroute. destruct user as [u|]; [|apply keeps_ret].
  destruct (Staging.dispatch_throws (Staging.readBodyAny request)) eqn:Hthrow.
  { unfold Staging.jobs_mindar_dispatch. rewrite Hthrow. apply keeps_ret. }
  destruct (str_truthy (Staging.str_field (Staging.readBodyAny request) "pairId" "")) eqn:Hp;
    [|unfold Staging.jobs_mindar_dispatch; rewrite Hthrow; cbv zeta; rewrite Hp; apply keeps_ret].
  destruct (str_truthy (Staging.str_field (Staging.readBodyAny request) "image_asset_id" ""))
    eqn:Hi;
    [|unfold Staging.jobs_mindar_dispatch; rewrite Hthrow; cbv zeta; rewrite Hp, Hi;
      apply keeps_ret].
  apply str_truthy_true in Hp, Hi.
  pose proof (jobs_mindar_dispatch_run env amb request u w) as Hrun. cbn zeta in Hrun.
  destruct (Hrun Hthrow Hp Hi) as (_ & _ & Hps).
  intros Hok. rewrite Hps, settle_pair_update.
  rewrite update_where_id_twice; [|intros r; reflexivity].
  apply keeps_update; [exact Hok | intros r; rewrite settle_keeps_id; reflexivity|].
  intros r _ _. apply settle_row; [reflexivity | |].
  - rewrite Hroute. destruct (Staging.is_pair_create request); reflexivity.
  - intros _. left. split; [reflexivity|]. right. left. exact Hroute.
Qed.

(** The creation of a pair. *)
Lemma keeps_pairs_create env amb request expId w :
  Staging.is_pair_create request = true ->
  Staging.keeps_at request w (Staging.pairs_create env amb request expId).
Proof.
  intros Hroute.
  destruct (Staging.new_pair_throws (Staging.readBodyAny request)) eqn:Hthrow.
  { unfold Staging.pairs_create. rewrite Hthrow. apply keeps_ret. }
  destruct (str_truthy (Staging.str_field (Staging.readBodyAny request) "image_asset_id" ""))
    eqn:Hi;
    [|unfold Staging.pairs_create; rewrite Hthrow; cbv zeta; rewrite Hi; apply keeps_ret].
  destruct (str_truthy (Staging.str_field (Staging.readBodyAny request) "video_asset_id" ""))
    eqn:Hv;
    [|unfold Staging.pairs_create; rewrite Hthrow; cbv zeta; rewrite Hi, Hv; apply keeps_ret].
  destruct (bool_decide (Exists (fun r => Staging.pair_id r = Staging.uuid_1 amb)
                           (Staging.pairs w))) eqn:Hfresh.
  { apply keeps_quiet. unfold Staging.pairs_create. rewrite Hthrow. cbv zeta.
    rewrite Hi, Hv. cbn [negb orb]. rewrite bind_get, Hfresh. reflexivity. }
  apply bool_decide_eq_false in Hfresh. apply str_truthy_true in Hi, Hv.
  pose proof (pairs_create_run env amb request expId w) as Hrun. cbn zeta in Hrun.
  destruct (Hrun Hthrow Hi Hv Hfresh) as (_ & _ & Hps).
  intros Hok. rewrite Hps, settle_pair_update.
  rewrite update_where_id_snoc; [|exact Hfresh | reflexivity].
  assert (Staging.pair_id (Staging.settle env amb
                             (Staging.new_pair amb expId (Staging.readBodyAny request)))
          = Staging.uuid_1 amb) as Hid by (rewrite settle_keeps_id; reflexivity).
  destruct (settle_row env amb request None
              (Staging.new_pair amb expId (Staging.readBodyAny request))) as [Hrow Hch].
  - reflexivity.
  - rewrite Hroute. reflexivity.
  - intros _. left. split; [reflexivity|]. left. split; [reflexivity | exact Hroute].
  - apply keeps_insert; [exact Hok | rewrite Hid; exact Hfresh | exact Hrow | exact Hch].
Qed.

(** The update of a pair: the status is the stored one, or [pending] after an
    image change. *)
Lemma keeps_pairs_put env amb request pairId w :
  Staging.is_pair_update request = true ->
  Staging.keeps_at request w (Staging.pairs_put env amb request pairId).
Proof.
  intros Hroute.
  destruct (Staging.pair_patch_throws (Staging.readBodyAny request)) eqn:Hthrow.
  { apply keeps_quiet. rewrite pairs_put_throws by exact Hthrow. reflexivity. }
  destruct (Staging.find_pair pairId (Staging.pairs w)) as [existing|] eqn:Hfind.
  2:{ apply keeps_quiet. unfold Staging.pairs_put. rewrite Hthrow. cbv zeta.
      rewrite bind_get, Hfind. reflexivity. }
  pose proof (pairs_put_run env amb request pairId existing w) as Hrun. cbn zeta in Hrun.
  destruct (Hrun Hthrow Hfind) as (_ & _ & Hps).
  intros Hok. rewrite Hps. clear Hps Hrun.
  set (b := Staging.readBodyAny request) in *.
  set (patch := Staging.pair_patch amb b existing).
  destruct (Staging.imageChanged (Staging.truthy_str_field b "image_asset_id") existing)
    eqn:Hch.
  - rewrite settle_pair_update.
    rewrite update_where_id_twice; [|intros r; reflexivity].
    apply keeps_update; [exact Hok | intros r; rewrite settle_keeps_id; reflexivity|].
    intros r Hr _. rewrite Hfind in Hr. injection Hr as <-.
    assert (Staging.mind_target_status (Staging.apply_patch patch existing) = Some "pending")
      as Hst.
    { subst patch. unfold Staging.pair_patch. cbn. rewrite Hch. reflexivity. }
    apply settle_row; [exact Hst | rewrite Hroute; apply orb_true_r|].
    intros _. left. split; [exact Hst|]. right. right. split; [exact Hroute|].
    exists existing. split; [reflexivity|].
    subst patch. unfold Staging.pair_patch. cbn.
    unfold Staging.imageChanged in Hch.
    destruct (Staging.truthy_str_field b "image_asset_id") as [i|]; [|discriminate].
    apply andb_true_iff in Hch as [_ Hne]. apply negb_true_iff, bool_decide_eq_false in Hne.
    exact Hne.
  - apply keeps_update; [exact Hok | reflexivity|].
    intros r Hr Hrow. rewrite Hfind in Hr. injection Hr as <-.
    assert (Staging.mind_target_status (Staging.apply_patch patch existing)
            = Staging.mind_target_status existing) as Hst.
    { subst patch. unfold Staging.pair_patch. cbn. rewrite Hch. reflexivity. }
    assert (Staging.mind_target_asset_id (Staging.apply_patch patch existing)
            = Staging.mind_target_asset_id existing) as Ha.
    { subst patch. unfold Staging.pair_patch. cbn. rewrite Hch. reflexivity. }
    split.
    + destruct Hrow as [Hk Ht]. split; [rewrite Hst; exact Hk|].
      rewrite Hst. intros Hready. destruct (Ht Hready) as (a & Hsome & Hne).
      exists a. split; [rewrite Ha; exact Hsome | exact Hne].
    + intros Hne. exfalso. apply Hne. exact Hst.
Qed.

(** The handlers that leave the pairs alone. *)
Lemma quiet_serve_asset assetId w :
  Staging.pairs (Staging.serve_asset assetId w).2 = Staging.pairs w.
Proof.
  unfold Staging.serve_asset. rewrite bind_get.
  destruct (List.find _ _) as [a|]; [|reflexivity].
  destruct (Staging.bucket w !! _) as [[d ct]|]; reflexivity.
Qed.

Lemma quiet_public_assets assetId w :
  Staging.pairs (Staging.public_assets assetId w).2 = Staging.pairs w.
Proof.
  unfold Staging.public_assets. destruct (str_truthy assetId); [|reflexivity].
  apply quiet_serve_asset.
Qed.

Lemma quiet_public_experience request qrId w :
  Staging.pairs (Staging.public_experience request qrId w).2 = Staging.pairs w.
Proof. rewrite (proj1 (public_experience_cases request qrId w)). reflexivity. Qed.

Lemma quiet_uploads_put env request rest w :
  Staging.pairs (Staging.uploads_put env request rest w).2 = Staging.pairs w.
Proof.
  unfold Staging.uploads_put. destruct (decodeURIComponent rest); [|reflexivity].
  destruct (negb _); [reflexivity|]. destruct (negb _); reflexivity.
Qed.

Lemma quiet_uploads_complete env amb request w :
  Staging.pairs (Staging.uploads_complete env amb request w).2 = Staging.pairs w.
Proof.
  unfold Staging.uploads_complete. destruct (Staging.upload_throws _); [reflexivity|]. cbv zeta.
  destruct (_ || _); [reflexivity|]. rewrite bind_get.
  destruct (bool_decide _); reflexivity.
Qed.

Lemma quiet_assets_get env request user rest w :
  Staging.pairs (Staging.assets_get env request user rest w).2 = Staging.pairs w.
Proof.
  unfold Staging.assets_get. destruct (decodeURIComponent rest); [|reflexivity].
  destruct (negb _); [reflexivity|]. destruct (_ && _); [reflexivity|].
  apply quiet_serve_asset.
Qed.

Lemma quiet_experiences_create amb request w :
  Staging.pairs (Staging.experiences_create amb request w).2 = Staging.pairs w.
Proof.
  unfold Staging.experiences_create. destruct (Staging.str_field_throws _ _ _); [reflexivity|].
  cbv zeta. destruct (negb _); [reflexivity|]. rewrite bind_get.
  destruct (bool_decide _); reflexivity.
Qed.

Lemma quiet_experiences_get id w :
  Staging.pairs (Staging.experiences_get id w).2 = Staging.pairs w.
Proof.
  unfold Staging.experiences_get. rewrite bind_get.
  destruct (Staging.find_experience _ _); reflexivity.
Qed.

Lemma quiet_experiences_put amb request id w :
  Staging.pairs (Staging.experiences_put amb request id w).2 = Staging.pairs w.
Proof.
  unfold Staging.experiences_put. destruct (Staging.experience_patch_throws _); [reflexivity|].
  cbv zeta.
  rewrite bind_get. destruct (Staging.find_experience _ _); reflexivity.
Qed.

Lemma keeps_protected_routes env amb request user w :
  Staging.keeps_at request w (Staging.protected_routes env amb request user).
Proof.
  unfold Staging.protected_routes. cbv zeta.
  destruct (bool_decide (Staging.pathname request = "/uploads/sign") && _); [apply keeps_ret|].
  destruct (startsWith _ "/uploads/put/" && _);
    [apply keeps_quiet, quiet_uploads_put|].
  destruct (bool_decide (Staging.pathname request = "/uploads/complete") && _);
    [apply keeps_quiet, quiet_uploads_complete|].
  destruct (startsWith _ "/assets/" && _); [apply keeps_quiet, quiet_assets_get|].
  destruct (bool_decide (Staging.pathname request = "/jobs/mindar/dispatch")
            && Staging.is_method request "POST") eqn:Hretry;
    [apply keeps_jobs_mindar_dispatch; exact Hretry|].
  destruct (bool_decide (Staging.pathname request = "/jobs/mindar/complete")
            && Staging.is_method request "POST") eqn:Hcallback;
    [apply keeps_jobs_mindar_complete; exact Hcallback|].
  destruct (bool_decide (Staging.pathname request = "/experiences")
            && Staging.is_method request "GET"); [apply keeps_ret|].
  destruct (bool_decide (Staging.pathname request = "/experiences")
            && Staging.is_method request "POST");
    [apply keeps_quiet, quiet_experiences_create|].
  destruct (Staging.match_route "/experiences/" "" _) as [seg|].
  { destruct (Staging.is_method request "GET");
      [apply keeps_with_decoded; intros v; apply keeps_quiet, quiet_experiences_get|].
    destruct (Staging.is_method request "PUT");
      [apply keeps_with_decoded; intros v; apply keeps_quiet, quiet_experiences_put|].
    destruct (Staging.is_method request "DELETE"); [|apply keeps_ret].
    apply keeps_with_decoded. intros v Hok. apply keeps_filter. exact Hok. }
  destruct (Staging.match_route "/experiences/" "/pairs" _) as [seg|] eqn:Hcreate.
  { destruct (Staging.is_method request "GET");
      [apply keeps_with_decoded; intros v; apply keeps_ret|].
    destruct (Staging.is_method request "POST") eqn:Hpost; [|apply keeps_ret].
    apply keeps_with_decoded. intros v. apply keeps_pairs_create.
    unfold Staging.is_pair_create. rewrite Hcreate, Hpost. reflexivity. }
  destruct (Staging.match_route "/pairs/" "" _) as [seg|] eqn:Hupdate; [|apply keeps_ret].
  destruct (Staging.is_method request "PUT") eqn:Hput.
  { apply keeps_with_decoded. intros v. apply keeps_pairs_put.
    unfold Staging.is_pair_update. rewrite Hupdate, Hput. reflexivity. }
  destruct (Staging.is_method request "DELETE"); [|apply keeps_ret].
  apply keeps_with_decoded. intros v Hok. apply keeps_filter. exact Hok.
Qed.

Lemma keeps_fetch env amb request w :
  Staging.keeps_at request w (Staging.fetch env amb request).
Proof.
  unfold Staging.fetch. cbv zeta.
  destruct (Staging.is_method request "OPTIONS"); [apply keeps_ret|].
  destruct (bool_decide (Staging.pathname request = "/api/health")); [apply keeps_ret|].
  destruct (startsWith _ "/public/assets/" && _).
  { apply keeps_with_decoded. intros v. apply keeps_quiet, quiet_public_assets. }
  destruct (if Staging.is_method request "GET" then _ else None) as [seg|].
  { apply keeps_with_decoded. intros v. apply keeps_quiet, quiet_public_experience. }
  destruct (bool_decide (Staging.pathname request = "/auth/login") && _); [apply keeps_ret|].
  destruct (bool_decide (Staging.pathname request = "/auth/me") && _); [apply keeps_ret|].
  destruct (bool_decide (Staging.pathname request = "/auth/logout") && _); [apply keeps_ret|].
  destruct (Staging.gate_rejects _ _ _); [apply keeps_ret|].
  apply keeps_protected_routes.
Qed.

(** C1 (as amended).  Take a table in which [id] is a key, every pair is
    [pending], [ready] or [failed] and every [ready] pair has a non-empty
    target asset id.  After any request the table is such a table again, and
    a pair whose status is not what it was before the request (or that is
    new) is in one of three cases: it is [pending], and the request created
    it, or is the explicit retry, or is an update that changed its image; it
    is [ready], the request is the completion callback, and its target asset
    id is non-empty; it is [failed] with a non-empty error message, and the
    request is the completion callback or one of the three dispatching
    requests, whose message is "Dispatch failed".  The status before plays no
    part in any of them. *)
Theorem generation_state_is_kept env amb request w :
  Staging.table_ok (Staging.pairs w) ->
  Staging.request_keeps request (Staging.pairs w)
    (Staging.pairs (Staging.fetch env amb request w).2).
Proof. exact (keeps_fetch env amb request w). Qed.

End StateFacts.

Module StateExamples.
Import TestRuntime Examples.

Lemma table_ok_ready : Staging.table_ok (Staging.pairs world_ready).
Proof.
  split.
  - cbn. apply NoDup_singleton.
  - apply Forall_singleton. split; [right; left; reflexivity|].
    intros _. exists "mind1". split; [reflexivity | discriminate].
Qed.

(** The job reports an error for the ready pair: the table is in order after
    the callback, and the pair, whose status changed, is [failed] with the
    message of the job. *)
Lemma generation_state_is_kept_witness :
  let ps' := Staging.pairs (Staging.fetch env0 amb0 callback_error world_ready).2 in
  Staging.table_ok (Staging.pairs world_ready)
  /\ Staging.table_ok ps'
  /\ exists r', Staging.find_pair "p1" ps' = Some r'
       /\ Staging.mind_target_status r' = Some "failed"
       /\ Staging.has_error r'
       /\ Staging.is_callback callback_error = true.
Proof.
  cbn zeta. split; [exact table_ok_ready|].
  destruct (generation_state_is_kept env0 amb0 callback_error world_ready table_ok_ready)
    as [Hok Hchange].
  split; [exact Hok|].
  exists (Staging.complete_failed "timeout" (Staging.now_iso amb0)
            (pair_p1 "ready" (Some "mind1") None)).
  split; [reflexivity|]. split; [reflexivity|].
  destruct (Hchange "p1" _ eq_refl ltac:(discriminate))
    as [[Hst _] | [[Hst _] | (_ & Herr & _)]]; [discriminate Hst | discriminate Hst|].
  split; [exact Herr | reflexivity].
Defined.

(** The claim's state machine fails: the callback is accepted in any state.
    An error report turns the ready pair to [failed], and a success report
    turns the failed pair to [ready]. *)
Lemma callback_moves_ready_to_failed :
  (Staging.mind_target_status <$> Staging.find_pair "p1" (Staging.pairs world_ready))
  = Some (Some "ready")
  /\ (Staging.mind_target_status
        <$> Staging.find_pair "p1"
              (Staging.pairs (Staging.fetch env0 amb0 callback_error world_ready).2))
     = Some (Some "failed")
  /\ (Staging.mind_target_status <$> Staging.find_pair "p1" (Staging.pairs world_failed))
     = Some (Some "failed")
  /\ (Staging.mind_target_status
        <$> Staging.find_pair "p1"
              (Staging.pairs (Staging.fetch env0 amb0 callback_ready world_failed).2))
     = Some (Some "ready").
Proof. cbn zeta. repeat split. Qed.

(** What the relation rules out: a status outside the three, a [ready] pair
    without its target, a pair that turns [pending] on a request that is none
    of the three that may do so. *)
Example unknown_status_is_not_kept :
  ~ Staging.request_keeps callback_ready (Staging.pairs world_pending)
      [pair_p1 "archived" None None].
Proof.
  intros [[_ Hall] _]. rewrite Forall_singleton in Hall. destruct Hall as [Hk _].
  unfold Staging.known_status in Hk. destruct Hk as [H | [H | H]]; discriminate.
Qed.

Example ready_without_target_is_not_kept :
  ~ Staging.request_keeps callback_ready (Staging.pairs world_pending)
      [pair_p1 "ready" None None].
Proof.
  intros [[_ Hall] _]. rewrite Forall_singleton in Hall. destruct Hall as [_ Ht].
  destruct (Ht eq_refl) as (a & Ha & _). discriminate.
Qed.

Example pending_by_callback_is_not_kept :
  ~ Staging.request_keeps callback_ready (Staging.pairs world_ready)
      [pair_p1 "pending" (Some "mind1") None].
Proof.
  intros [_ Hch].
  pose proof (Hch "p1" (pair_p1 "pending" (Some "mind1") None) eq_refl
                ltac:(discriminate)) as Hcase.
  destruct Hcase as [[_ [[Hnone _] | [Hretry | [Hput _]]]] | [[Hst _] | [Hst _]]];
    discriminate.
Qed.

End StateExamples.

(** * Storage keys and public codes *)
Section KeyFacts.

Lemma string_forall_rev_app P s acc :
  string_forall P (String.rev_app s acc) = string_forall P s && string_forall P acc.
Proof.
  revert acc. induction s as [|a s IH]; intros acc; [reflexivity|].
  cbn. rewrite IH. cbn. destruct (P a), (string_forall P s); reflexivity.
Qed.

Lemma string_forall_rev P s : string_forall P (String.rev s) = string_forall P s.
Proof. unfold String.rev. rewrite string_forall_rev_app. cbn. apply andb_true_r. Qed.

Lemma string_forall_squash in_run s :
  string_forall Staging.safe_char (Staging.squash in_run s) = true.
Proof.
  revert in_run. induction s as [|a s IH]; intros in_run; [reflexivity|]. cbn.
  destruct (Staging.safe_char a) eqn:Ha.
  - cbn. rewrite Ha. apply IH.
  - destruct in_run; [apply IH|]. cbn. apply IH.
Qed.

Lemma string_forall_drop_underscores P s :
  string_forall P s = true -> string_forall P (Staging.drop_underscores s) = true.
Proof.
  induction s as [|a s IH]; [reflexivity|]. intros Hs. cbn.
  destruct (decide (a = "_"%char)); [|exact Hs].
  apply IH. cbn in Hs. apply andb_true_iff in Hs as [_ Hs]. exact Hs.
Qed.

(** X1.  Whatever file name a client sends, [sanitizeFilename] answers a
    non-empty name made only of letters, digits, [.], [_] and [-]; a name
    with nothing usable in it becomes ["file"]. *)
Theorem sanitizeFilename_safe name :
  Staging.sanitizeFilename name <> ""
  /\ string_forall Staging.safe_char (Staging.sanitizeFilename name) = true
  /\ (trim name = "" -> Staging.sanitizeFilename name = "file").
Proof.
  unfold Staging.sanitizeFilename. split; [|split].
  - destruct (str_truthy (trim name)); [|discriminate].
    destruct (str_truthy _) eqn:Hs; [apply str_truthy_true; exact Hs | discriminate].
  - destruct (str_truthy (trim name)); [|reflexivity].
    destruct (str_truthy _); [|reflexivity].
    rewrite string_forall_rev. apply string_forall_drop_underscores.
    rewrite string_forall_rev. apply string_forall_drop_underscores.
    apply string_forall_squash.
  - intros ->. reflexivity.
Qed.

Lemma string_forall_take P n s :
  string_forall P s = true -> string_forall P (Staging.take_chars n s) = true.
Proof.
  revert s. induction n as [|n IH]; intros s Hs; [reflexivity|].
  destruct s as [|a s]; [reflexivity|]. cbn in Hs |- *.
  apply andb_true_iff in Hs as [Ha Hs]. rewrite Ha. apply IH. exact Hs.
Qed.

Lemma remove_dashes_no_dash s :
  string_forall (fun a => negb (bool_decide (a = "-"%char))) (Staging.remove_dashes s) = true.
Proof.
  induction s as [|a s IH]; [reflexivity|]. cbn.
  destruct (decide (a = "-"%char)) as [Ha|Ha]; [exact IH|].
  cbn. rewrite (bool_decide_eq_false_2 _ Ha). exact IH.
Qed.

Lemma take_chars_length n s :
  String.length (Staging.take_chars n s) = Nat.min n (String.length s).
Proof.
  revert s. induction n as [|n IH]; intros s; [reflexivity|].
  destruct s as [|a s]; [reflexivity|]. cbn. rewrite IH. reflexivity.
Qed.

(** X2.  The public code drawn from a UUID has no dash and at most twelve
    characters, and exactly twelve as soon as the UUID holds twelve
    characters besides its dashes (a real UUID holds thirty-two). *)
Theorem genQrId_shape uuid :
  string_forall (fun a => negb (bool_decide (a = "-"%char))) (Staging.genQrId uuid) = true
  /\ String.length (Staging.genQrId uuid) <= 12
  /\ (12 <= String.length (Staging.remove_dashes uuid) ->
      String.length (Staging.genQrId uuid) = 12).
Proof.
  unfold Staging.genQrId. split; [|split].
  - apply string_forall_take. apply remove_dashes_no_dash.
  - rewrite take_chars_length. lia.
  - intros Hl. rewrite take_chars_length. lia.
Qed.

End KeyFacts.

Module KeyExamples.
Import TestRuntime Examples.

Example sanitizeFilename_examples :
  Staging.sanitizeFilename "  my photo (1).PNG " = "my_photo_1_.PNG"
  /\ Staging.sanitizeFilename " ***  " = "file"
  /\ Staging.sanitizeFilename "" = "file".
Proof. cbn zeta. repeat split. Qed.

Lemma genQrId_shape_witness :
  12 <= String.length (Staging.remove_dashes (Staging.uuid_2 amb0))
  /\ Staging.genQrId (Staging.uuid_2 amb0) = "ab12cd34ef56"
  /\ String.length (Staging.genQrId (Staging.uuid_2 amb0)) = 12.
Proof.
  split; [vm_compute; lia|]. split; [reflexivity|].
  apply (proj2 (proj2 (genQrId_shape (Staging.uuid_2 amb0)))). vm_compute. lia.
Defined.

End KeyExamples.

(** * Bearer tokens *)
Section TokenFacts.
Context `{RT : Runtime}.

Lemma split_on_nonempty c s : split_on c s <> [].
Proof.
  destruct s as [|a s]; [discriminate|]. cbn.
  destruct (decide (a = c)); [discriminate|].
  destruct (split_on c s); discriminate.
Qed.

Lemma split_on_none c s : string_forall (not_char c) s = true -> split_on c s = [s].
Proof.
  induction s as [|a s IH]; [reflexivity|]. cbn. intros Hs.
  apply andb_true_iff in Hs as [Ha Hs]. unfold not_char in Ha.
  apply negb_true_iff, bool_decide_eq_false in Ha.
  destruct (decide (a = c)); [contradiction|]. rewrite (IH Hs). reflexivity.
Qed.

Lemma split_on_join c a b :
  string_forall (not_char c) a = true -> string_forall (not_char c) b = true ->
  split_on c (a +:+ String c b) = [a; b].
Proof.
  intros Ha Hb. induction a as [|x a IH].
  - change ("" +:+ String c b) with (String c b). cbn.
    destruct (decide (c = c)); [|contradiction]. rewrite (split_on_none _ _ Hb). reflexivity.
  - cbn in Ha. apply andb_true_iff in Ha as [Hx Ha]. unfold not_char in Hx.
    apply negb_true_iff, bool_decide_eq_false in Hx.
    change (String x a +:+ String c b) with (String x (a +:+ String c b)). cbn.
    destruct (decide (x = c)); [contradiction|]. rewrite (IH Ha). reflexivity.
Qed.

Lemma split_on_single c u v : split_on c u = [v] -> u = v.
Proof.
  revert v. induction u as [|z u IH]; intros v.
  - cbn. intros [= <-]. reflexivity.
  - cbn. destruct (decide (z = c)).
    + intros Hv. destruct (split_on c u) eqn:Hu; [|discriminate].
      exfalso. exact (split_on_nonempty _ _ Hu).
    + destruct (split_on c u) as [|h [|h' t]] eqn:Hu; try discriminate.
      * exfalso. exact (split_on_nonempty _ _ Hu).
      * intros [= <-]. rewrite (IH h eq_refl). reflexivity.
Qed.

Lemma split_on_two c s a b : split_on c s = [a; b] -> s = a +:+ String c b.
Proof.
  revert a. induction s as [|x s IH]; intros a; [discriminate|]. cbn.
  destruct (decide (x = c)) as [->|Hx].
  - intros [= <- Hs]. rewrite (split_on_single _ _ _ Hs). reflexivity.
  - destruct (split_on c s) as [|h [|h' [|h'' t]]] eqn:Hs; try discriminate.
    intros [= <- <-]. rewrite (IH h eq_refl). reflexivity.
Qed.

(** X3.  [verifyToken] accepts a token only if it is [payload.sig] with [sig]
    the HMAC of [payload] under the signing secret, and the payload decodes
    to an object with a truthy [email] and a truthy [exp] that is not before
    the current time; the user it answers is that email.  No other token is
    ever accepted. *)
Theorem verifyToken_sound env amb token user :
  Staging.verifyToken env amb token = Some user ->
  exists payload obj,
    token = payload +:+ "." +:+ hmacSign (Staging.signing_secret env) payload
    /\ base64urlDecodeToText payload ≫= json_parse = Some obj
    /\ truthy (prop obj "email") = true
    /\ truthy (prop obj "exp") = true
    /\ num_ltb (js_Number (prop obj "exp")) (num_of_Z (Staging.now_seconds amb)) = false
    /\ user = {| Staging.email := prop obj "email" |}.
Proof.
  unfold Staging.verifyToken. intros Hv.
  destruct (split_on "." token) as [|payload [|sig [|x t]]] eqn:Hs; try discriminate.
  destruct (bool_decide (sig = hmacSign (Staging.signing_secret env) payload)) eqn:Hsig;
    [|discriminate].
  apply bool_decide_eq_true in Hsig. subst sig.
  destruct (base64urlDecodeToText payload ≫= json_parse) as [obj|] eqn:Hobj; [|discriminate].
  destruct (truthy (prop obj "email")) eqn:He; [|discriminate].
  destruct (truthy (prop obj "exp")) eqn:Hx; [|discriminate].
  destruct (num_ltb _ _) eqn:Hlt; [discriminate|]. cbn in Hv. injection Hv as <-.
  exists payload, obj. split; [exact (split_on_two _ _ _ _ Hs)|]. repeat split; assumption.
Qed.

(** X4.  A token issued at time [t] is accepted by [verifyToken] at time [t']
    exactly when [t'] is at most seven days after [t], provided the platform
    codecs invert each other on this payload, base64url text and the
    signature hold no dot, the user's email is truthy, and the platform
    orders the two integers as [Z] does. *)
Theorem issued_token_lives_seven_days env amb amb' user :
  let exp := (Staging.now_seconds amb + Staging.seven_days)%Z in
  let payloadObj :=
    JObj [("email", Staging.email user);
          ("iat", JNum (num_of_Z (Staging.now_seconds amb)));
          ("exp", JNum (num_of_Z exp))] in
  let payload := base64urlEncodeText (json_stringify payloadObj) in
  base64urlDecodeToText payload = Some (json_stringify payloadObj) ->
  json_parse (json_stringify payloadObj) = Some payloadObj ->
  string_forall (not_char ".") payload = true ->
  string_forall (not_char ".") (hmacSign (Staging.signing_secret env) payload) = true ->
  truthy (Staging.email user) = true ->
  num_truthy (num_of_Z exp) = true ->
  num_ltb (num_of_Z exp) (num_of_Z (Staging.now_seconds amb'))
  = (exp <? Staging.now_seconds amb')%Z ->
  (Staging.verifyToken env amb' (Staging.issueToken env amb user) = Some user
   <-> (Staging.now_seconds amb' <= Staging.now_seconds amb + Staging.seven_days)%Z)
  /\ ((Staging.now_seconds amb + Staging.seven_days < Staging.now_seconds amb')%Z ->
      Staging.verifyToken env amb' (Staging.issueToken env amb user) = None).
Proof.
  intros exp payloadObj payload Hdec Hparse Hp Hsig Hemail Hexp Hlt.
  assert (Staging.verifyToken env amb' (Staging.issueToken env amb user)
          = if (exp <? Staging.now_seconds amb')%Z then None else Some user) as Hv.
  { rewrite issueToken_expiry. cbn zeta. fold exp. fold payloadObj. fold payload.
    unfold Staging.verifyToken.
    change (payload +:+ "." +:+ hmacSign (Staging.signing_secret env) payload)
      with (payload +:+ String "." (hmacSign (Staging.signing_secret env) payload)).
    rewrite (split_on_join "." _ _ Hp Hsig).
    rewrite bool_decide_eq_true_2 by reflexivity.
    rewrite Hdec. cbn [mbind option_bind]. rewrite Hparse.
    change (prop payloadObj "email") with (Staging.email user).
    change (prop payloadObj "exp") with (JNum (num_of_Z exp)).
    rewrite Hemail. cbn [truthy js_Number negb orb]. rewrite Hexp, Hlt. cbn [negb orb].
    destruct (exp <? Staging.now_seconds amb')%Z; [reflexivity|].
    destruct user. reflexivity. }
  rewrite Hv. subst exp. split.
  - destruct (Z.ltb_spec (Staging.now_seconds amb + Staging.seven_days)
                (Staging.now_seconds amb')); split; intros H0; try lia;
      try discriminate; reflexivity.
  - intros Hlate. apply Z.ltb_lt in Hlate. rewrite Hlate. reflexivity.
Qed.

End TokenFacts.

Module TokenExamples.
Import TestRuntime Examples.

Lemma issued_token_lives_seven_days_witness :
  Staging.verifyToken env0 six_days_later
    (Staging.issueToken env0 amb0 {| Staging.email := JStr "admin@local" |})
  = Some {| Staging.email := JStr "admin@local" |}.
Proof.
  apply (proj1 (issued_token_lives_seven_days (RT := runtime) env0 amb0 six_days_later
                  {| Staging.email := JStr "admin@local" |}
                  ltac:(reflexivity) ltac:(reflexivity) ltac:(reflexivity)
                  ltac:(reflexivity) ltac:(reflexivity) ltac:(reflexivity)
                  ltac:(reflexivity))).
  vm_compute. discriminate.
Defined.

Lemma verifyToken_sound_witness :
  exists payload obj,
    admin_token = payload +:+ "." +:+ hmacSign (Staging.signing_secret env0) payload
    /\ base64urlDecodeToText payload ≫= json_parse = Some obj
    /\ truthy (prop obj "email") = true.
Proof.
  destruct (verifyToken_sound (RT := runtime) env0 amb0 admin_token
              {| Staging.email := JStr "admin@local" |} ltac:(reflexivity))
    as (payload & obj & Ht & Ho & He & _).
  exists payload, obj. repeat split; assumption.
Defined.

Example tampered_or_stale_tokens_are_refused :
  Staging.verifyToken env0 amb0 "no-dot-at-all" = None
  /\ Staging.verifyToken env0 amb0 (admin_token +:+ "x") = None
  /\ Staging.verifyToken env0
       {| Staging.now_iso := ""; Staging.now_seconds := 1770199200 + 8 * 86400;
          Staging.uuid_1 := ""; Staging.uuid_2 := ""; Staging.github := Staging.GhAccepted |}
       admin_token = None.
Proof. cbn zeta. repeat split. Qed.

End TokenExamples.

(** * What requests cannot do *)
Section SafetyFacts.
Context `{RT : Runtime}.

Lemma anonymous_has_no_credentials env amb request :
  Staging.header_authorization request = None ->
  Staging.header_x_job_secret request = None ->
  Staging.requireUser request env amb = None /\ Staging.isJobSecretValid env request = false.
Proof.
  intros Ha Hs. unfold Staging.requireUser, Staging.getBearerToken, Staging.isJobSecretValid.
  rewrite Ha, Hs. split; [reflexivity|]. cbn.
  destruct (or_str (Staging.MINDAR_JOB_SECRET env) "") as [|c s]; reflexivity.
Qed.

(** X5.  A request to a path under [/experiences], [/pairs] or [/uploads]
    (the signed upload [PUT] apart) that carries neither an acceptable bearer
    token nor the job secret is answered 401 Unauthorized, and nothing in the
    tables, the bucket or the journal changes.  A request with no
    [Authorization] and no [x-job-secret] header is such a request. *)
Theorem gate_turns_away_strangers env amb request w :
  Staging.needsAuth (Staging.pathname request) = true ->
  Staging.isUploadPut (Staging.pathname request) = false ->
  Staging.method request <> "OPTIONS" ->
  (Staging.requireUser request env amb = None ->
   Staging.isJobSecretValid env request = false ->
   Staging.fetch env amb request w = (Staging.unauthorized, w))
  /\ (Staging.header_authorization request = None ->
      Staging.header_x_job_secret request = None ->
      Staging.fetch env amb request w = (Staging.unauthorized, w)).
Proof.
  intros Hn Hu Hm.
  assert (Staging.requireUser request env amb = None ->
          Staging.isJobSecretValid env request = false ->
          Staging.fetch env amb request w = (Staging.unauthorized, w)) as Hclosed.
  { intros Hr Hj. rewrite (fetch_behind_gate env amb request w Hn Hm).
    unfold Staging.gate_rejects. rewrite Hn, Hr, Hu, Hj. reflexivity. }
  split; [exact Hclosed|].
  intros Ha Hs. destruct (anonymous_has_no_credentials env amb request Ha Hs) as [Hr Hj].
  exact (Hclosed Hr Hj).
Qed.

Lemma serve_asset_reads assetId w : (Staging.serve_asset assetId w).2 = w.
Proof.
  unfold Staging.serve_asset. rewrite bind_get.
  destruct (List.find _ _) as [a|]; [|reflexivity].
  destruct (Staging.bucket w !! _) as [[d ct]|]; reflexivity.
Qed.

Lemma public_assets_reads assetId w : (Staging.public_assets assetId w).2 = w.
Proof.
  unfold Staging.public_assets. destruct (str_truthy assetId); [|reflexivity].
  apply serve_asset_reads.
Qed.

Lemma public_experience_reads request qrId w : (Staging.public_experience request qrId w).2 = w.
Proof. exact (proj1 (public_experience_cases request qrId w)). Qed.

Lemma assets_get_reads env request user rest w :
  (Staging.assets_get env request user rest w).2 = w.
Proof.
  unfold Staging.assets_get. destruct (decodeURIComponent rest); [|reflexivity].
  destruct (negb _); [reflexivity|]. destruct (_ && _); [reflexivity|].
  apply serve_asset_reads.
Qed.

Lemma experiences_get_reads id w : (Staging.experiences_get id w).2 = w.
Proof.
  unfold Staging.experiences_get. rewrite bind_get. destruct (Staging.find_experience _ _);
    reflexivity.
Qed.

Lemma with_decoded_reads seg (k : string -> Staging.H Response) w :
  (forall v, (k v w).2 = w) -> (Staging.with_decoded seg k w).2 = w.
Proof.
  intros Hk. unfold Staging.with_decoded. destruct (decodeURIComponent seg);
    [apply Hk | reflexivity].
Qed.

Lemma protected_routes_get_reads env amb request user w :
  Staging.method request = "GET" ->
  (Staging.protected_routes env amb request user w).2 = w.
Proof.
  intros Hm. unfold Staging.protected_routes, Staging.is_method. rewrite Hm.
  rewrite !(bool_decide_eq_false_2 ("GET" = "POST")) by discriminate.
  rewrite !(bool_decide_eq_false_2 ("GET" = "PUT")) by discriminate.
  rewrite !(bool_decide_eq_false_2 ("GET" = "DELETE")) by discriminate.
  rewrite !(bool_decide_eq_true_2 ("GET" = "GET")) by reflexivity.
  rewrite !andb_false_r, !andb_true_r. cbv beta iota zeta.
  destruct (startsWith _ "/assets/"); [apply assets_get_reads|].
  destruct (bool_decide (Staging.pathname request = "/experiences")); [reflexivity|].
  destruct (Staging.match_route "/experiences/" "" _).
  { apply with_decoded_reads. intros v. apply experiences_get_reads. }
  destruct (Staging.match_route "/experiences/" "/pairs" _).
  { apply with_decoded_reads. intros v. reflexivity. }
  destruct (Staging.match_route "/pairs/" "" _); reflexivity.
Qed.

(** X6.  A [GET] never writes: whatever the path, the headers and the
    stores, serving a [GET] request leaves the tables, the bucket and the
    journal exactly as they were. *)
Theorem get_requests_change_nothing env amb request w :
  Staging.method request = "GET" -> (Staging.fetch env amb request w).2 = w.
Proof.
  intros Hm. unfold Staging.fetch, Staging.is_method. rewrite Hm.
  rewrite !(bool_decide_eq_false_2 ("GET" = "OPTIONS")) by discriminate.
  rewrite !(bool_decide_eq_false_2 ("GET" = "POST")) by discriminate.
  rewrite !(bool_decide_eq_true_2 ("GET" = "GET")) by reflexivity.
  rewrite !andb_false_r, !andb_true_r. cbv beta iota zeta.
  destruct (bool_decide (Staging.pathname request = "/api/health")); [reflexivity|].
  destruct (startsWith _ "/public/assets/").
  { apply with_decoded_reads. intros v. apply public_assets_reads. }
  destruct (Staging.match_route "/public/experience/" "" _).
  { apply with_decoded_reads. intros v. apply public_experience_reads. }
  destruct (bool_decide (Staging.pathname request = "/auth/me")); [reflexivity|].
  destruct (Staging.gate_rejects _ _ _); [reflexivity|].
  apply protected_routes_get_reads. rewrite Hm. reflexivity.
Qed.

End SafetyFacts.

Module SafetyExamples.
Import TestRuntime Examples.

Lemma gate_turns_away_strangers_witness :
  Staging.needsAuth (Staging.pathname create_by_nobody) = true
  /\ Staging.isUploadPut (Staging.pathname create_by_nobody) = false
  /\ Staging.method create_by_nobody <> "OPTIONS"
  /\ Staging.fetch env0 amb0 create_by_nobody world_ready = (Staging.unauthorized, world_ready).
Proof.
  split; [reflexivity|]. split; [reflexivity|]. split; [discriminate|].
  exact (proj2 (gate_turns_away_strangers (RT := runtime) env0 amb0 create_by_nobody world_ready
                  ltac:(reflexivity) ltac:(reflexivity) ltac:(discriminate))
           ltac:(reflexivity) ltac:(reflexivity)).
Defined.

Lemma get_requests_change_nothing_witness :
  Staging.method (scan "ab12cd34ef") = "GET"
  /\ (Staging.fetch env0 amb0 (scan "ab12cd34ef") world_ready).2 = world_ready.
Proof.
  split; [reflexivity|].
  exact (get_requests_change_nothing (RT := runtime) env0 amb0 (scan "ab12cd34ef")
           world_ready ltac:(reflexivity)).
Defined.

End SafetyExamples.

(** * From a signed upload to a served asset *)
Section PipelineFacts.
Context `{RT : Runtime}.

(** The asset token check accepts exactly the recomputed signature. *)
Lemma verifyAssetToken_spec env assetId token :
  Staging.verifyAssetToken env assetId token = true
  <-> token = Some (Staging.buildAssetToken env assetId).
Proof.
  unfold Staging.verifyAssetToken. destruct token as [t|]; [|split; discriminate].
  destruct (str_truthy t) eqn:Ht.
  - rewrite bool_decide_eq_true. split; [intros ->; reflexivity | congruence].
  - apply str_truthy_false in Ht. subst t. split; [discriminate|].
    intros [= Heq]. symmetry in Heq.
    exfalso. exact (hmacSign_nonempty _ _ Heq).
Qed.

Lemma find_snoc_fresh {A} (f : A -> bool) (l : list A) (x : A) :
  Forall (fun a => f a = false) l -> f x = true -> List.find f (l ++ [x]) = Some x.
Proof.
  intros Hl Hx. induction Hl as [|a l Ha _ IH]; cbn.
  - rewrite Hx. reflexivity.
  - rewrite Ha. exact IH.
Qed.

(** X7.  What [POST /uploads/sign] hands out is what [PUT /uploads/put/:key]
    takes: for the key that the sign route answers, a [PUT] to the path of the
    answered upload URL with the token of that URL is served without any
    credential, answers success and leaves the request body in the bucket under
    that key.  The key a sign request gets is never empty, so the 404 of the
    put route is out of reach for signed keys. *)
Theorem signed_upload_is_accepted env amb amb' sign put r2Key w :
  answer_field (Staging.uploads_sign env amb sign) "r2Key" = JStr r2Key ->
  decodeURIComponent (encodeURIComponent r2Key) = Some r2Key ->
  Staging.method put = "PUT" ->
  Staging.pathname put = "/uploads/put/" +:+ encodeURIComponent r2Key ->
  Staging.query_token put = Some (Staging.buildUploadToken env r2Key) ->
  r2Key <> ""
  /\ answer_field (Staging.uploads_sign env amb sign) "uploadUrl"
     = JStr (Staging.origin sign +:+ Staging.pathname put +:+ "?token="
             +:+ encodeURIComponent (Staging.buildUploadToken env r2Key) +:+ "&mime="
             +:+ encodeURIComponent
                   (Staging.str_field (Staging.readBodyAny sign) "mime"
                      "application/octet-stream"))
  /\ (Staging.fetch env amb' put w).1 = Staging.upload_ok r2Key
  /\ Staging.bucket (Staging.fetch env amb' put w).2 !! r2Key
     = Some (Staging.body put, or_str (Staging.query_mime put) "application/octet-stream").
Proof.
  intros Hkey Hdec Hm Hp Htok.
  unfold Staging.uploads_sign in Hkey |- *.
  destruct (Staging.sign_throws _); [discriminate Hkey|].
  unfold answer_field in Hkey. cbn in Hkey. injection Hkey as Hkey.
  assert (r2Key <> "") as Hne.
  { rewrite <- Hkey.
    destruct (Staging.str_field (Staging.readBodyAny sign) "kind" ""); discriminate. }
  split; [exact Hne|]. split.
  { unfold answer_field. cbn. rewrite Hp, Hkey. reflexivity. }
  rewrite (fetch_uploads_put env amb' put _ w Hm Hp).
  destruct (uploads_put_valid env put _ r2Key w Hdec Hne Htok) as [Hr Hb].
  split; [exact Hr|]. rewrite Hb. apply lookup_insert_eq.
Qed.

(** X8.  [POST /uploads/complete] registers an asset under a fresh id without
    looking into the bucket.  When the fields of the request convert, it names
    a kind and a key and the id it draws is not taken, it answers 200 with that
    id; from then on
    [GET /public/assets/:id] serves the object stored under the key, with the
    content type that was registered (not the one of the stored object), and
    answers 404 when no object was ever put under the key. *)
Theorem completed_upload_is_served env amb request w :
  let b := Staging.readBodyAny request in
  let r2Key := Staging.str_field b "r2Key" "" in
  let mime := Staging.str_field b "mime" "application/octet-stream" in
  let id := Staging.uuid_1 amb in
  Staging.upload_throws b = false ->
  Staging.str_field b "kind" "" <> "" ->
  r2Key <> "" ->
  id <> "" ->
  ~ Exists (fun a => Staging.asset_id a = id) (Staging.assets w) ->
  let r := (Staging.uploads_complete env amb request w).1 in
  let w' := (Staging.uploads_complete env amb request w).2 in
  status r = 200%Z
  /\ answer_field r "id" = JStr id
  /\ Staging.bucket w' = Staging.bucket w
  /\ Staging.public_assets id w'
     = (match Staging.bucket w !! r2Key with
        | Some (data, _) =>
            {| status := 200; payload := PRaw data (or_str (Some mime) "application/octet-stream") |}
        | None => Staging.not_found
        end, w').
Proof.
  intros b r2Key mime id Hthrow Hkind Hkey Hid Hfresh.
  unfold Staging.uploads_complete. fold b. rewrite Hthrow. fold r2Key. fold mime. fold id.
  apply str_truthy_true in Hkind, Hkey. rewrite Hkind, Hkey. cbn [negb orb].
  rewrite bind_get. rewrite (bool_decide_eq_false_2 _ Hfresh).
  cbn. split; [reflexivity|]. split; [reflexivity|]. split; [reflexivity|].
  unfold Staging.public_assets. apply str_truthy_true in Hid. unfold id in Hid |- *.
  rewrite Hid. unfold Staging.serve_asset. rewrite bind_get. cbn.
  rewrite find_snoc_fresh.
  - cbn. destruct (Staging.bucket w !! _) as [[data ct]|]; reflexivity.
  - apply Forall_forall. intros a Ha. apply bool_decide_eq_false_2. intros Heq.
    apply Hfresh. apply Exists_exists. exists a. split; [exact Ha | exact Heq].
  - apply bool_decide_eq_true_2. reflexivity.
Qed.

(** X9.  [GET /assets/:id] is closed exactly to a request that has neither a
    signed-in user nor the asset token of the id: that request gets 401
    Unauthorized; every other one gets what the public asset route serves for
    the id. *)
Theorem assets_get_access env request user rest assetId w :
  decodeURIComponent rest = Some assetId -> assetId <> "" ->
  (Staging.assets_get env request user rest w = (Staging.unauthorized, w)
   <-> user = None
       /\ Staging.query_token request <> Some (Staging.buildAssetToken env assetId))
  /\ (user <> None
      \/ Staging.query_token request = Some (Staging.buildAssetToken env assetId) ->
      Staging.assets_get env request user rest w = Staging.public_assets assetId w).
Proof.
  intros Hdec Hid. unfold Staging.assets_get, Staging.public_assets. rewrite Hdec.
  apply str_truthy_true in Hid. rewrite Hid. cbn [negb].
  assert (forall r, Staging.serve_asset assetId w = (r, w) -> r <> Staging.unauthorized) as Hserve.
  { intros r. unfold Staging.serve_asset. rewrite bind_get.
    destruct (List.find _ _) as [a|]; [|intros [= <-]; discriminate].
    destruct (Staging.bucket w !! _) as [[d ct]|]; intros [= <-]; discriminate. }
  destruct (Staging.verifyAssetToken env assetId (Staging.query_token request)) eqn:Hv.
  - apply verifyAssetToken_spec in Hv. cbn. split.
    + split.
      * intros Heq. exfalso. exact (Hserve _ Heq eq_refl).
      * intros [_ Hne]. contradiction.
    + reflexivity.
  - assert (Staging.query_token request <> Some (Staging.buildAssetToken env assetId)) as Hne.
    { intros Heq. apply verifyAssetToken_spec in Heq. congruence. }
    destruct user as [u|]; cbn.
    + split.
      * split.
        -- intros Heq. exfalso. exact (Hserve _ Heq eq_refl).
        -- intros [[=] _].
      * reflexivity.
    + split.
      * split; [intros _; split; [reflexivity | exact Hne] | reflexivity].
      * intros [Hu | Ht]; [contradiction | contradiction].
Qed.

End PipelineFacts.

Module PipelineExamples.
Import TestRuntime Examples Pipeline.

Lemma signed_upload_is_accepted_witness :
  answer_field (Staging.uploads_sign (RT := runtime_more) env0 amb0 sign_photo) "uploadUrl"
  = JStr ("https://api.example/uploads/put/image/11111111-2222-3333-4444-555555555555-My_Photo.png"
          +:+ "?token=" +:+ mac "s3cret" "upload:image/11111111-2222-3333-4444-555555555555-My_Photo.png"
          +:+ "&mime=image/png")
  /\ (Staging.fetch (RT := runtime_more) env0 six_days_later put_photo empty_world).1
     = Staging.upload_ok "image/11111111-2222-3333-4444-555555555555-My_Photo.png"
  /\ Staging.bucket (Staging.fetch (RT := runtime_more) env0 six_days_later put_photo empty_world).2
       !! "image/11111111-2222-3333-4444-555555555555-My_Photo.png"
     = Some ("PNGDATA", "image/png").
Proof.
  exact (proj2 (signed_upload_is_accepted (RT := runtime_more) env0 amb0 six_days_later
                  sign_photo put_photo
                  "image/11111111-2222-3333-4444-555555555555-My_Photo.png" empty_world
                  ltac:(reflexivity) ltac:(reflexivity) ltac:(reflexivity)
                  ltac:(reflexivity) ltac:(reflexivity))).
Defined.

Lemma completed_upload_is_served_witness :
  Staging.public_assets "11111111-2222-3333-4444-555555555555"
    (Staging.uploads_complete (RT := runtime_more) env0 amb0 complete_k world_uploaded).2
  = ({| status := 200; payload := PRaw "PNGDATA" "image/jpeg" |},
     (Staging.uploads_complete (RT := runtime_more) env0 amb0 complete_k world_uploaded).2).
Proof.
  exact (proj2 (proj2 (proj2
    (completed_upload_is_served (RT := runtime_more) env0 amb0 complete_k world_uploaded
       ltac:(reflexivity) ltac:(discriminate) ltac:(discriminate) ltac:(discriminate)
       ltac:(intros H; inversion H))))).
Defined.

Example completing_a_missing_upload_serves_404 :
  status (Staging.uploads_complete (RT := runtime_more) env0 amb0 complete_k empty_world).1 = 200%Z
  /\ (Staging.public_assets "11111111-2222-3333-4444-555555555555"
        (Staging.uploads_complete (RT := runtime_more) env0 amb0 complete_k empty_world).2).1
     = Staging.not_found.
Proof. split; reflexivity. Qed.

Lemma assets_get_access_witness :
  Staging.assets_get (RT := runtime) env0 (asset_link "a1") None "a1" empty_world
  = Staging.public_assets "a1" empty_world.
Proof.
  apply (assets_get_access (RT := runtime) env0 (asset_link "a1") None "a1" "a1" empty_world);
    [reflexivity | discriminate | right; reflexivity].
Defined.

End PipelineExamples.

(** * Experiences and their pairs *)
Section ExperienceFacts.
Context `{RT : Runtime}.

Lemma find_filter_out {A} (f : A -> bool) (l : list A) :
  List.find f (List.filter (fun x => negb (f x)) l) = None.
Proof.
  induction l as [|a l IH]; [reflexivity|]. cbn.
  destruct (f a) eqn:Hf; cbn; [exact IH | rewrite Hf; exact IH].
Qed.

Lemma filter_filter_out {A} (f : A -> bool) (l : list A) :
  List.filter f (List.filter (fun x => negb (f x)) l) = [].
Proof.
  induction l as [|a l IH]; [reflexivity|]. cbn.
  destruct (f a) eqn:Hf; cbn; [exact IH | rewrite Hf; exact IH].
Qed.

Lemma find_filter_other {A} (f g : A -> bool) (l : list A) :
  (forall x, f x = true -> g x = true) ->
  List.find f (List.filter g l) = List.find f l.
Proof.
  intros Hfg. induction l as [|a l IH]; [reflexivity|]. cbn.
  destruct (g a) eqn:Hg; cbn.
  - destruct (f a); [reflexivity | exact IH].
  - destruct (f a) eqn:Hf; [|exact IH]. rewrite (Hfg a Hf) in Hg. discriminate.
Qed.

Lemma find_snoc_other {A} (f : A -> bool) (l : list A) (x : A) :
  f x = false -> List.find f (l ++ [x]) = List.find f l.
Proof.
  intros Hx. induction l as [|a l IH]; cbn.
  - rewrite Hx. reflexivity.
  - destruct (f a); [reflexivity | exact IH].
Qed.

Lemma find_ext {A} (f g : A -> bool) (l : list A) :
  (forall x, f x = g x) -> List.find f l = List.find g l.
Proof.
  intros Hfg. induction l as [|a l IH]; [reflexivity|]. cbn. rewrite Hfg, IH. reflexivity.
Qed.

Lemma filter_all {A} (g : A -> bool) (l : list A) :
  List.find (fun x => negb (g x)) l = None -> List.filter g l = l.
Proof.
  induction l as [|a l IH]; [reflexivity|]. cbn.
  destruct (g a); cbn; [|discriminate]. intros Hl. rewrite (IH Hl). reflexivity.
Qed.

(** X10.  [DELETE /experiences/:id] takes the experience and every pair bound
    to it, and nothing else: the other experiences and pairs stay, and so do
    the assets and the stored objects, those of the deleted pairs included.
    Afterwards the experience is not found and its pair list is empty.  The
    answer is [ok] with status 200 whether or not the experience existed. *)
Theorem experiences_delete_cascades env request id w :
  let r := (Staging.experiences_delete id w).1 in
  let w' := (Staging.experiences_delete id w).2 in
  r = json (JObj [("ok", JBool true); ("build", JStr Staging.BUILD)]) 200
  /\ (forall e, In e (Staging.experiences w')
                <-> In e (Staging.experiences w) /\ Staging.exp_id e <> id)
  /\ (forall p, In p (Staging.pairs w')
                <-> In p (Staging.pairs w) /\ Staging.experience_id p <> id)
  /\ Staging.assets w' = Staging.assets w
  /\ Staging.bucket w' = Staging.bucket w
  /\ (Staging.experiences_get id w').1 = Staging.not_found
  /\ (Staging.pairs_list env request id w').1
     = json (JObj [("pairs", JArr []); ("build", JStr Staging.BUILD)]) 200.
Proof.
  cbn. split; [reflexivity|]. split; [|split; [|split; [|split; [|split]]]].
  - intros e. rewrite filter_In, negb_true_iff, bool_decide_eq_false. reflexivity.
  - intros p. rewrite filter_In, negb_true_iff, bool_decide_eq_false. reflexivity.
  - reflexivity.
  - reflexivity.
  - rewrite (find_filter_out (fun e => bool_decide (Staging.exp_id e = id))). reflexivity.
  - rewrite (filter_filter_out (fun r => bool_decide (Staging.experience_id r = id))).
    reflexivity.
Qed.

(** X11.  [DELETE /pairs/:id] removes that pair and no other: every other id
    finds the row it found before, experiences and journal are untouched (no
    job is dispatched, no status is written), an id that names no pair leaves
    the stores as they were, and the answer is 200 in each case.  Deleting
    again changes nothing more. *)
Theorem pairs_delete_removes_one pairId w :
  let w' := (Staging.pairs_delete pairId w).2 in
  status (Staging.pairs_delete pairId w).1 = 200%Z
  /\ Staging.find_pair pairId (Staging.pairs w') = None
  /\ (forall id', id' <> pairId ->
        Staging.find_pair id' (Staging.pairs w') = Staging.find_pair id' (Staging.pairs w))
  /\ (Staging.find_pair pairId (Staging.pairs w) = None -> w' = w)
  /\ Staging.experiences w' = Staging.experiences w
  /\ Staging.journal w' = Staging.journal w
  /\ (Staging.pairs_delete pairId w').2 = w'.
Proof.
  cbn. split; [reflexivity|]. split; [|split; [|split; [|split; [|split]]]].
  - unfold Staging.find_pair.
    apply (find_filter_out (fun r => bool_decide (Staging.pair_id r = pairId))).
  - intros id' Hne. unfold Staging.find_pair. apply find_filter_other.
    intros x Hx. apply bool_decide_eq_true in Hx. apply negb_true_iff.
    apply bool_decide_eq_false_2. congruence.
  - intros Hnone. unfold Staging.find_pair in Hnone.
    rewrite filter_all; [destruct w; reflexivity|].
    rewrite <- Hnone. apply find_ext. intros x. apply negb_involutive.
  - reflexivity.
  - reflexivity.
  - unfold Staging.pairs_delete. cbn. f_equal.
    apply filter_all. rewrite <- (find_filter_out (fun r => bool_decide (Staging.pair_id r = pairId)) (Staging.pairs w)).
    apply find_ext. intros x. apply negb_involutive.
Qed.

Lemma find_experience_map_same id (f : Staging.ExperienceRow -> Staging.ExperienceRow) es e :
  (forall x, Staging.exp_id (f x) = Staging.exp_id x) ->
  Staging.find_experience id es = Some e ->
  Staging.find_experience id
    (List.map (fun x => if bool_decide (Staging.exp_id x = id) then f x else x) es)
  = Some (f e).
Proof.
  intros Hf. unfold Staging.find_experience.
  induction es as [|a es IH]; [discriminate|]. cbn.
  destruct (bool_decide (Staging.exp_id a = id)) eqn:Ha.
  - intros [= <-]. rewrite Hf, Ha. reflexivity.
  - rewrite Ha. exact IH.
Qed.

Lemma find_experience_map_other id id' (f : Staging.ExperienceRow -> Staging.ExperienceRow) es :
  (forall x, Staging.exp_id (f x) = Staging.exp_id x) ->
  id' <> id ->
  Staging.find_experience id'
    (List.map (fun x => if bool_decide (Staging.exp_id x = id) then f x else x) es)
  = Staging.find_experience id' es.
Proof.
  intros Hf Hne. unfold Staging.find_experience.
  induction es as [|a es IH]; [reflexivity|]. cbn.
  destruct (bool_decide (Staging.exp_id a = id)) eqn:Ha.
  - apply bool_decide_eq_true in Ha. rewrite Hf.
    rewrite (bool_decide_eq_false_2 (Staging.exp_id a = id')) by congruence. exact IH.
  - destruct (bool_decide (Staging.exp_id a = id')); [reflexivity | exact IH].
Qed.

Lemma find_experience_id id es e :
  Staging.find_experience id es = Some e -> Staging.exp_id e = id.
Proof.
  unfold Staging.find_experience. intros Hf. apply find_some in Hf as [_ Hf].
  apply bool_decide_eq_true in Hf. exact Hf.
Qed.

(** X12.  [PUT /experiences/:id] on an experience that exists, with a name
    and a QR id that convert to text, rewrites that row only: a field the body does not carry keeps its value, the creation
    time is kept, the update time becomes the time of the request, every other
    experience and every pair is as before.  The answer shows the row as
    stored: it carries the fields that [GET /experiences/:id] answers next. *)
Theorem experiences_put_is_partial amb request id existing w :
  Staging.find_experience id (Staging.experiences w) = Some existing ->
  Staging.experience_patch_throws (Staging.readBodyAny request) = false ->
  let b := Staging.readBodyAny request in
  let r := (Staging.experiences_put amb request id w).1 in
  let w' := (Staging.experiences_put amb request id w).2 in
  exists row,
    Staging.find_experience id (Staging.experiences w') = Some row
    /\ status r = 200%Z
    /\ Forall (fun k => answer_field r k = prop (Staging.mapExperience row) k)
         ["id"; "name"; "qr_id"; "is_active"]
    /\ (Staging.experiences_get id w').1 = json (Staging.mapExperience row) 200
    /\ (prop b "name" = JUndefined -> Staging.exp_name row = Staging.exp_name existing)
    /\ (prop b "qr_id" = JUndefined -> Staging.exp_qr_id row = Staging.exp_qr_id existing)
    /\ (prop b "is_active" = JUndefined ->
        Staging.exp_is_active row = Staging.exp_is_active existing)
    /\ Staging.exp_created_at row = Staging.exp_created_at existing
    /\ Staging.exp_updated_at row = Staging.now_iso amb
    /\ (forall id', id' <> id ->
          Staging.find_experience id' (Staging.experiences w')
          = Staging.find_experience id' (Staging.experiences w))
    /\ Staging.pairs w' = Staging.pairs w.
Proof.
  intros Hfind Hthrow b r w'. subst r w'. unfold Staging.experiences_put. fold b.
  fold b in Hthrow. rewrite Hthrow, bind_get, Hfind. cbn.
  pose proof (find_experience_id _ _ _ Hfind) as Hid.
  set (f := fun e : Staging.ExperienceRow =>
     {| Staging.exp_id := Staging.exp_id e;
        Staging.exp_name := default (Staging.exp_name existing) (Staging.opt_str_field b "name");
        Staging.exp_qr_id := default (Staging.exp_qr_id existing) (Staging.opt_str_field b "qr_id");
        Staging.exp_is_active :=
          Staging.next_active (Staging.opt_bool_field b "is_active")
            (Staging.exp_is_active existing);
        Staging.exp_created_at := Staging.exp_created_at e;
        Staging.exp_updated_at := Staging.now_iso amb |}).
  assert (forall x, Staging.exp_id (f x) = Staging.exp_id x) as Hf by reflexivity.
  exists (f existing).
  pose proof (find_experience_map_same id f _ _ Hf Hfind) as Hsame.
  split; [exact Hsame|]. split; [reflexivity|]. split.
  { repeat constructor; cbn; rewrite ?Hid; reflexivity. }
  split.
  { generalize Hsame. unfold Staging.find_experience, f. cbv beta. intros ->. reflexivity. }
  split.
  { intros Hu. cbn. unfold Staging.opt_str_field. rewrite Hu. reflexivity. }
  split.
  { intros Hu. cbn. unfold Staging.opt_str_field. rewrite Hu. reflexivity. }
  split.
  { intros Hu. cbn. unfold Staging.opt_bool_field. rewrite Hu. reflexivity. }
  split; [reflexivity|]. split; [reflexivity|]. split; [|reflexivity].
  intros id' Hne. exact (find_experience_map_other id id' f _ Hf Hne).
Qed.

(** X13.  [POST /experiences] with a name that converts to text and is not
    blank, when the id it draws is free, adds
    one active experience under that id, with the trimmed name, the QR code
    cut from the second UUID and both times set to the time of the request.
    The answer shows the row as stored, [GET /experiences/:id] finds it, and
    every experience that was there before is found as before. *)
Theorem created_experience_is_found amb request w :
  let b := Staging.readBodyAny request in
  let id := Staging.uuid_1 amb in
  Staging.str_field_throws b "name" "" = false ->
  Staging.str_field b "name" "" <> "" ->
  ~ Exists (fun e => Staging.exp_id e = id) (Staging.experiences w) ->
  let r := (Staging.experiences_create amb request w).1 in
  let w' := (Staging.experiences_create amb request w).2 in
  exists row,
    Staging.experiences w' = Staging.experiences w ++ [row]
    /\ Staging.find_experience id (Staging.experiences w') = Some row
    /\ Staging.exp_id row = id
    /\ Staging.exp_name row = Staging.str_field b "name" ""
    /\ Staging.exp_qr_id row = Staging.genQrId (Staging.uuid_2 amb)
    /\ Staging.exp_is_active row = 1%Z
    /\ Staging.exp_created_at row = Staging.now_iso amb
    /\ Staging.exp_updated_at row = Staging.now_iso amb
    /\ status r = 200%Z
    /\ Forall (fun k => answer_field r k = prop (Staging.mapExperience row) k)
         ["id"; "name"; "qr_id"; "is_active"]
    /\ (Staging.experiences_get id w').1 = json (Staging.mapExperience row) 200
    /\ (forall id', id' <> id ->
          Staging.find_experience id' (Staging.experiences w')
          = Staging.find_experience id' (Staging.experiences w))
    /\ Staging.pairs w' = Staging.pairs w.
Proof.
  intros b id Hthrow Hname Hfresh r w'. subst r w'. unfold Staging.experiences_create.
  fold b. rewrite Hthrow. fold id. apply str_truthy_true in Hname. rewrite Hname. cbn [negb].
  rewrite bind_get. rewrite (bool_decide_eq_false_2 _ Hfresh). cbn -[Staging.genQrId].
  eexists. split; [reflexivity|].
  assert (Forall (fun a => bool_decide (Staging.exp_id a = id) = false)
            (Staging.experiences w)) as Hall.
  { apply Forall_forall. intros a Ha. apply bool_decide_eq_false_2. intros Heq.
    apply Hfresh. apply Exists_exists. exists a. split; [exact Ha | exact Heq]. }
  assert (Staging.find_experience id
            (Staging.experiences w ++
               [{| Staging.exp_id := id; Staging.exp_name := Staging.str_field b "name" "";
                   Staging.exp_qr_id := Staging.genQrId (Staging.uuid_2 amb);
                   Staging.exp_is_active := 1;
                   Staging.exp_created_at := Staging.now_iso amb;
                   Staging.exp_updated_at := Staging.now_iso amb |}])
          = Some {| Staging.exp_id := id; Staging.exp_name := Staging.str_field b "name" "";
                    Staging.exp_qr_id := Staging.genQrId (Staging.uuid_2 amb);
                    Staging.exp_is_active := 1;
                    Staging.exp_created_at := Staging.now_iso amb;
                    Staging.exp_updated_at := Staging.now_iso amb |}) as Hfound.
  { unfold Staging.find_experience. apply find_snoc_fresh; [exact Hall|].
    apply bool_decide_eq_true_2. reflexivity. }
  split; [exact Hfound|].
  do 7 (split; [reflexivity|]). split.
  { repeat constructor. }
  split.
  { generalize Hfound. unfold Staging.find_experience. intros ->. reflexivity. }
  split; [|reflexivity].
  intros id' Hne. unfold Staging.find_experience. apply find_snoc_other.
  apply bool_decide_eq_false_2. cbn. congruence.
Qed.

End ExperienceFacts.

Module ExperienceExamples.
Import TestRuntime Examples.

(** Renaming the demo experience: the name changes, the code and the
    creation time stay. *)
Lemma experiences_put_is_partial_witness :
  let req := admin "PUT" "/experiences/e1" (JObj [("name", JStr "Second")]) in
  let w' := (Staging.experiences_put amb0 req "e1" world_ready).2 in
  exists row,
    Staging.find_experience "e1" (Staging.experiences w') = Some row
    /\ Staging.exp_name row = "Second"
    /\ Staging.exp_qr_id row = "ab12cd34ef"
    /\ Staging.exp_created_at row = "2026-02-01T00:00:00.000Z"
    /\ Staging.exp_updated_at row = "2026-02-04T10:00:00.000Z".
Proof.
  cbn zeta.
  destruct (experiences_put_is_partial (RT := runtime) amb0
              (admin "PUT" "/experiences/e1" (JObj [("name", JStr "Second")])) "e1" demo
              world_ready eq_refl eq_refl)
    as (row & Hfind & _ & _ & _ & _ & Hqr & _ & Hc & Hu & _).
  exists row. split; [exact Hfind|].
  assert (Some row
          = Some {| Staging.exp_id := "e1"; Staging.exp_name := "Second";
                    Staging.exp_qr_id := "ab12cd34ef"; Staging.exp_is_active := 1;
                    Staging.exp_created_at := "2026-02-01T00:00:00.000Z";
                    Staging.exp_updated_at := "2026-02-04T10:00:00.000Z" |}) as Hrow
    by (rewrite <- Hfind; reflexivity).
  split; [injection Hrow as ->; reflexivity|].
  split; [rewrite (Hqr eq_refl); reflexivity|].
  split; [rewrite Hc; reflexivity | rewrite Hu; reflexivity].
Defined.

Lemma created_experience_is_found_witness :
  let w' := (Staging.experiences_create amb0 create_by_job world_ready).2 in
  exists row,
    Staging.experiences w' = [demo; row]
    /\ Staging.exp_name row = "Second"
    /\ Staging.exp_qr_id row = "ab12cd34ef56"
    /\ (Staging.experiences_get "11111111-2222-3333-4444-555555555555" w').1
       = json (Staging.mapExperience row) 200.
Proof.
  cbn zeta.
  destruct (created_experience_is_found (RT := runtime) amb0 create_by_job world_ready
              eq_refl ltac:(discriminate)
              ltac:(intros H; inversion H as [? ? Heq | ? ? Hrest];
                    [discriminate Heq | inversion Hrest]))
    as (row & Hrows & _ & _ & Hname & Hqr & _ & _ & _ & _ & _ & Hget & _).
  exists row. split; [exact Hrows|]. split; [rewrite Hname; reflexivity|].
  split; [rewrite Hqr; reflexivity | exact Hget].
Defined.

End ExperienceExamples.

(** * Listings *)
Section ListingFacts.
Context `{RT : Runtime}.

Lemma insert_by_perm {A} (before : A -> A -> bool) (x : A) (l : list A) :
  Permutation (Staging.insert_by before x l) (x :: l).
Proof.
  induction l as [|y r IH]; cbn; [reflexivity|].
  destruct (before y x); [|reflexivity].
  rewrite IH. apply perm_swap.
Qed.

Lemma sort_by_perm {A} (before : A -> A -> bool) (l : list A) :
  Permutation (Staging.sort_by before l) l.
Proof.
  unfold Staging.sort_by. induction l as [|x l IH]; cbn; [reflexivity|].
  rewrite insert_by_perm. apply perm_skip. exact IH.
Qed.

Lemma ascii_compare_refl (a : ascii) : Ascii.compare a a = Eq.
Proof. unfold Ascii.compare. apply N.compare_refl. Qed.

Lemma ascii_compare_lt_trans (a b c : ascii) :
  Ascii.compare a b = Lt -> Ascii.compare b c = Lt -> Ascii.compare a c = Lt.
Proof.
  unfold Ascii.compare. rewrite !N.compare_lt_iff. apply N.lt_trans.
Qed.

Lemma string_compare_lt_trans (s1 s2 s3 : string) :
  String.compare s1 s2 = Lt -> String.compare s2 s3 = Lt -> String.compare s1 s3 = Lt.
Proof.
  revert s2 s3. induction s1 as [|a1 r1 IH]; intros [|a2 r2] [|a3 r3];
    cbn [String.compare]; try discriminate; try reflexivity.
  destruct (Ascii.compare a1 a2) eqn:H12; try discriminate;
    destruct (Ascii.compare a2 a3) eqn:H23; try discriminate.
  - apply Ascii.compare_eq_iff in H12, H23. subst a2 a3.
    rewrite ascii_compare_refl. apply IH.
  - apply Ascii.compare_eq_iff in H12. subst a2. rewrite H23. reflexivity.
  - apply Ascii.compare_eq_iff in H23. subst a3. rewrite H12. reflexivity.
  - rewrite (ascii_compare_lt_trans _ _ _ H12 H23). reflexivity.
Qed.

Lemma string_ltb_asym (s t : string) : String.ltb s t = true -> String.ltb t s = false.
Proof.
  unfold String.ltb. rewrite (String.compare_antisym s t).
  destruct (String.compare t s); cbn; congruence.
Qed.

(** "Not older than" is transitive. *)
Lemma string_not_ltb_trans (s t u : string) :
  String.ltb s t = false -> String.ltb t u = false -> String.ltb s u = false.
Proof.
  unfold String.ltb. intros Hst Htu.
  destruct (String.compare s u) eqn:Hsu; try reflexivity. exfalso.
  destruct (String.compare s t) eqn:Hc; try discriminate.
  - apply String.compare_eq_iff in Hc. subst t. rewrite Hsu in Htu. discriminate.
  - assert (String.compare t s = Lt) as Hts.
    { rewrite String.compare_antisym, Hc. reflexivity. }
    rewrite (string_compare_lt_trans _ _ _ Hts Hsu) in Htu. discriminate.
Qed.

Lemma insert_newest_first {A} (key : A -> string) (x : A) (l : list A) :
  Sorted.StronglySorted (fun a b => String.ltb (key a) (key b) = false) l ->
  Sorted.StronglySorted (fun a b => String.ltb (key a) (key b) = false)
    (Staging.insert_by (fun a b => String.ltb (key b) (key a)) x l).
Proof.
  induction 1 as [|y r Hr IH Hy]; cbn.
  - constructor; constructor.
  - destruct (String.ltb (key x) (key y)) eqn:Hxy.
    + constructor; [exact IH|].
      apply (Permutation_Forall (Permutation_sym (insert_by_perm _ x r))).
      constructor; [apply string_ltb_asym; exact Hxy | exact Hy].
    + constructor; [constructor; assumption|].
      constructor; [exact Hxy|].
      eapply Forall_impl; [exact Hy|]. intros z Hz. cbn in Hz |- *.
      exact (string_not_ltb_trans _ _ _ Hxy Hz).
Qed.

(** X14.  [GET /experiences] lists every experience exactly once, newest
    first: the answer is the rows of the table in an order in which no row
    comes before one that was created later. *)
Theorem experiences_list_newest_first w :
  exists rows,
    Staging.experiences_list w
    = (json (JObj [("experiences", JArr (List.map Staging.mapExperience rows));
                   ("build", JStr Staging.BUILD)]) 200, w)
    /\ Permutation rows (Staging.experiences w)
    /\ Sorted.StronglySorted
         (fun a b => String.ltb (Staging.exp_created_at a) (Staging.exp_created_at b) = false)
         rows.
Proof.
  eexists. split; [reflexivity|]. split; [apply sort_by_perm|].
  unfold Staging.sort_by. induction (Staging.experiences w) as [|x l IH]; cbn.
  - constructor.
  - apply (insert_newest_first Staging.exp_created_at). exact IH.
Qed.

(** X15.  [GET /experiences/:id/pairs] lists the pairs of that experience,
    each exactly once and no other, the inactive ones included: the listed
    rows are a rearrangement of the rows of the table bound to the
    experience. *)
Theorem pairs_list_is_complete env request id w :
  exists rows,
    Staging.pairs_list env request id w
    = (json (JObj [("pairs",
                    JArr (List.map (Staging.pair_listing env (Staging.origin request)
                                      (Staging.assets w)) rows));
                   ("build", JStr Staging.BUILD)]) 200, w)
    /\ Permutation rows
         (List.filter (fun r => bool_decide (Staging.experience_id r = id)) (Staging.pairs w))
    /\ (forall p, In p rows <-> In p (Staging.pairs w) /\ Staging.experience_id p = id).
Proof.
  eexists. split; [reflexivity|].
  assert (Permutation
            (Staging.sort_by Staging.pair_before
               (List.filter (fun r => bool_decide (Staging.experience_id r = id))
                  (Staging.pairs w)))
            (List.filter (fun r => bool_decide (Staging.experience_id r = id))
               (Staging.pairs w))) as Hperm by apply sort_by_perm.
  split; [exact Hperm|]. intros p. split.
  - intros Hin. apply (Permutation_in _ Hperm) in Hin.
    apply filter_In in Hin as [Hin Hid]. apply bool_decide_eq_true in Hid. tauto.
  - intros [Hin Hid]. apply (Permutation_in _ (Permutation_sym Hperm)).
    apply filter_In. split; [exact Hin | apply bool_decide_eq_true_2; exact Hid].
Qed.

End ListingFacts.
